(** * Gym membership record manager: record codec, path scheme, record
      store, search engine, status workflow and attendance analytics.

    A shallow embedding of
      - [src/core/utils.py]              ([add_months], [month_name]),
      - [src/services/pdf_service.py]    ([create_member_pdf], [parse_member_from_pdf]),
      - [src/services/member_service.py] (save, search, listing, status update),
      - [src/workers/search_worker.py]   ([SearchWorker.run]),
      - [src/ai_module/analytics.py]     ([GymAI.get_churn_risk]),
    followed by the properties the specification states about them.

    Conventions of the embedding.
      - A Python [str] is a Rocq [string]; a character is read as the code
        point U+0000..U+00FF it denotes.  Whitespace, line boundaries and
        case mapping follow Python's tables restricted to that range.
      - A Python [int] is a [Z].
      - Exceptions are explicit: a computation that may raise has type
        [res A]; [try ... except E] is [catch].  A computation that raises
        returns no store: what it wrote before the exception is not
        observed.
      - A [dict] with string keys is a [gmap string value]; where the
        insertion order of a dict is observed (sorting its items) it is an
        association list.
      - The file system is a list of entries (path, node) in the order a
        directory walk visits them; writes take the current time as an
        argument. *)

From stdpp Require Import gmap strings list fin_maps.
From Stdlib Require Import ZArith Ascii String DecimalString DecimalN DecimalPos Lia.

Open Scope string_scope.
Open Scope list_scope.
Open Scope Z_scope.

(* ===================================================================== *)
(** ** Exceptions *)
(* ===================================================================== *)

Inductive exn : Type :=
| IndexError
| ValueError
| TypeError
| KeyError
| AttributeError
| OSError.

Inductive res (A : Type) : Type :=
| Ok (a : A)
| Raise (e : exn).
Arguments Ok {A} a.
Arguments Raise {A} e.

#[global] Instance res_ret : MRet res := fun A a => Ok a.
#[global] Instance res_bind : MBind res := fun A B k c =>
  match c with
  | Ok a => k a
  | Raise e => Raise e
  end.

#[global] Instance res_fmap : FMap res := fun A B f c =>
  match c with
  | Ok a => Ok (f a)
  | Raise e => Raise e
  end.

(** [try: c except (e1, e2, ...): h] *)
Definition catch {A : Type} (handled : exn -> bool) (c : res A) (h : res A) : res A :=
  match c with
  | Ok a => Ok a
  | Raise e => if handled e then h else Raise e
  end.

Definition is_IndexError (e : exn) : bool :=
  match e with IndexError => true | _ => false end.
Definition is_Index_or_ValueError (e : exn) : bool :=
  match e with IndexError | ValueError => true | _ => false end.
Definition is_ValueError (e : exn) : bool :=
  match e with ValueError => true | _ => false end.
(** [except Exception] *)
Definition any_Exception (e : exn) : bool := true.

Definition raises {A : Type} (c : res A) : Prop :=
  match c with Ok _ => False | Raise _ => True end.

(* ===================================================================== *)
(** ** Python string primitives *)
(* ===================================================================== *)

Module Py.

Definition code (c : ascii) : N := N_of_ascii c.

(** [str.isspace] on one character. *)
Definition is_space (c : ascii) : bool :=
  let n := code c in
  ((9 <=? n) && (n <=? 13) || (28 <=? n) && (n <=? 32) || (n =? 133) || (n =? 160))%N.

(** The line boundaries of [str.splitlines]. *)
Definition is_linebreak (c : ascii) : bool :=
  let n := code c in
  ((10 <=? n) && (n <=? 13) || (28 <=? n) && (n <=? 30) || (n =? 133))%N.

Definition lower_char (c : ascii) : ascii :=
  let n := code c in
  if ((65 <=? n) && (n <=? 90) || (192 <=? n) && (n <=? 222) && negb (n =? 215))%N
  then ascii_of_N (n + 32) else c.

(** ASCII letters only: [upper_char] is applied to the field names. *)
Definition upper_char (c : ascii) : ascii :=
  let n := code c in
  if ((97 <=? n) && (n <=? 122))%N then ascii_of_N (n - 32) else c.

Definition is_alpha (c : ascii) : bool :=
  let n := code c in
  ((65 <=? n) && (n <=? 90) || (97 <=? n) && (n <=? 122))%N.

Fixpoint lower (s : string) : string :=
  match s with
  | EmptyString => EmptyString
  | String c t => String (lower_char c) (lower t)
  end.

(** [str.title]: the first letter of every word in upper case, the others
    in lower case. *)
Fixpoint title_from (prev_cased : bool) (s : string) : string :=
  match s with
  | EmptyString => EmptyString
  | String c t =>
      String (if prev_cased then lower_char c else upper_char c)
             (title_from (is_alpha c) t)
  end.
Definition title (s : string) : string := title_from false s.

Fixpoint lstrip (s : string) : string :=
  match s with
  | EmptyString => EmptyString
  | String c t => if is_space c then lstrip t else s
  end.

Fixpoint rstrip (s : string) : string :=
  match s with
  | EmptyString => EmptyString
  | String c t =>
      match rstrip t with
      | EmptyString => if is_space c then EmptyString else String c EmptyString
      | t' => String c t'
      end
  end.

Definition strip (s : string) : string := rstrip (lstrip s).

Definition startswith (s p : string) : bool := String.prefix p s.

(** [sub in s] *)
Fixpoint contains (sub s : string) : bool :=
  String.prefix sub s ||
  match s with
  | EmptyString => false
  | String _ t => contains sub t
  end.

(** [s.split(sep)] for a one-character separator: never empty. *)
Fixpoint split (sep : ascii) (s : string) : list string :=
  match s with
  | EmptyString => [EmptyString]
  | String c t =>
      if Ascii.eqb c sep then EmptyString :: split sep t
      else match split sep t with
           | w :: ws => String c w :: ws
           | [] => [String c EmptyString]
           end
  end.

(** [s.split(sep, 1)]: at most one cut, at the first separator. *)
Fixpoint split1 (sep : ascii) (s : string) : list string :=
  match s with
  | EmptyString => [EmptyString]
  | String c t =>
      if Ascii.eqb c sep then [EmptyString; t]
      else match split1 sep t with
           | w :: ws => String c w :: ws
           | [] => [String c EmptyString]
           end
  end.

(** [s.split()]: the maximal runs of non-whitespace characters. *)
Fixpoint split_ws_from (cur : option string) (s : string) : list string :=
  match s with
  | EmptyString => match cur with Some w => [w] | None => [] end
  | String c t =>
      if is_space c then
        match cur with
        | Some w => w :: split_ws_from None t
        | None => split_ws_from None t
        end
      else
        split_ws_from (Some (match cur with
                             | Some w => w +:+ String c EmptyString
                             | None => String c EmptyString
                             end)) t
  end.
Definition split_ws (s : string) : list string := split_ws_from None s.

(** [s.splitlines()]: cut at every line boundary, a carriage return
    followed by a line feed counting once; no empty last line. *)
Fixpoint splitlines_from (cur : string) (s : string) : list string :=
  match s with
  | EmptyString => match cur with EmptyString => [] | _ => [cur] end
  | String c t =>
      if is_linebreak c then
        match t with
        | String c' t' =>
            if (code c =? 13)%N && (code c' =? 10)%N
            then cur :: splitlines_skip t
            else cur :: splitlines_from EmptyString t
        | EmptyString => [cur]
        end
      else splitlines_from (cur +:+ String c EmptyString) t
  end
with splitlines_skip (s : string) : list string :=
  match s with
  | EmptyString => []
  | String _ t => splitlines_from EmptyString t
  end.
Definition splitlines (s : string) : list string := splitlines_from EmptyString s.

(** [sep.join(l)] *)
Fixpoint join (sep : string) (l : list string) : string :=
  match l with
  | [] => EmptyString
  | [x] => x
  | x :: rest => x +:+ sep +:+ join sep rest
  end.

(** [l[i]] *)
Definition index {A : Type} (l : list A) (i : nat) : res A :=
  match l !! i with
  | Some x => Ok x
  | None => Raise IndexError
  end.

(** *** Integers and text *)

Definition digit (c : ascii) : option (Decimal.uint -> Decimal.uint) :=
  match code c with
  | 48 => Some Decimal.D0 | 49 => Some Decimal.D1 | 50 => Some Decimal.D2
  | 51 => Some Decimal.D3 | 52 => Some Decimal.D4 | 53 => Some Decimal.D5
  | 54 => Some Decimal.D6 | 55 => Some Decimal.D7 | 56 => Some Decimal.D8
  | 57 => Some Decimal.D9
  | _ => None
  end%N.

(** The digits of an integer literal: at least one digit, single
    underscores allowed between digits only. *)
Fixpoint int_digits (prev_digit : bool) (s : string) : option Decimal.uint :=
  match s with
  | EmptyString => if prev_digit then Some Decimal.Nil else None
  | String c t =>
      if Ascii.eqb c "_" then
        if prev_digit then int_digits false t else None
      else
        match digit c with
        | Some mk => mk <$> int_digits true t
        | None => None
        end
  end.

(** [int(s)]: surrounding whitespace is ignored, one sign is allowed. *)
Definition int_of_str (s : string) : res Z :=
  let body sgn t :=
    match int_digits false t with
    | Some u => Ok (sgn * Z.of_N (N.of_uint u))
    | None => Raise ValueError
    end in
  match strip s with
  | String c t =>
      if Ascii.eqb c "-" then body (-1) t
      else if Ascii.eqb c "+" then body 1 t
      else body 1 (String c t)
  | EmptyString => body 1 EmptyString
  end.

(** [str(n)] *)
Definition str_of_int (n : Z) : string :=
  match n with
  | Z0 => "0"
  | Zpos p => NilEmpty.string_of_uint (Pos.to_uint p)
  | Zneg p => String "-" (NilEmpty.string_of_uint (Pos.to_uint p))
  end.

(** [f"{n:02d}"]: padded with zeros to two characters, the sign included. *)
Definition fmt_02d (n : Z) : string :=
  if (0 <=? n) && (n <? 10) then String "0" (str_of_int n) else str_of_int n.

(** ["%04d" % n]: padded with zeros to four characters, the sign included. *)
Fixpoint zeros (k : nat) : string :=
  match k with
  | O => EmptyString
  | S k' => String "0" (zeros k')
  end.

Definition fmt_04d (n : Z) : string :=
  match n with
  | Zneg p =>
      let ds := NilEmpty.string_of_uint (Pos.to_uint p) in
      String "-" (zeros (3 - String.length ds) +:+ ds)
  | _ => let ds := str_of_int n in zeros (4 - String.length ds) +:+ ds
  end.

End Py.


(* ===================================================================== *)
(** ** Values, dictionaries and the member record *)
(* ===================================================================== *)

Inductive value : Type :=
| VNone
| VStr (s : string)
| VInt (n : Z).

#[global] Instance value_eq_dec : EqDecision value.
Proof. solve_decision. Defined.

(** [f"{v}"] *)
Definition fmt (v : value) : string :=
  match v with
  | VNone => "None"
  | VStr s => s
  | VInt n => Py.str_of_int n
  end.

(** [f"{v:02d}"]: only an integer accepts the format. *)
Definition fmt_d02 (v : value) : res string :=
  match v with
  | VInt n => Ok (Py.fmt_02d n)
  | VStr _ => Raise ValueError
  | VNone => Raise TypeError
  end.

(** [int(v)] *)
Definition int_of (v : value) : res Z :=
  match v with
  | VInt n => Ok n
  | VStr s => Py.int_of_str s
  | VNone => Raise TypeError
  end.

(** [not v] for the values a record holds. *)
Definition falsy (v : option value) : bool :=
  match v with
  | None | Some VNone | Some (VStr EmptyString) | Some (VInt Z0) => true
  | _ => false
  end.

(** [d.get(k, default)] and [d[k]] *)
Definition get (d : gmap string value) (k : string) (default : value) : value :=
  match d !! k with
  | Some v => v
  | None => default
  end.

Definition getitem (d : gmap string value) (k : string) : res value :=
  match d !! k with
  | Some v => Ok v
  | None => Raise KeyError
  end.

(** [models/member.py]: the dataclass [Member].  [end_date] is declared
    [str], but the status update stores [data.get('end_date')] there, which
    is [None] when the document has no end-date line; the optional fields
    are options. *)
Record Member : Type := mkMember {
  id : string;
  name : string;
  phone : string;
  blood : string;
  gender : string;
  cnic : string;
  day : Z;
  month : Z;
  year : Z;
  membership_months : Z;
  package : string;
  end_date : option string;
  status : string;
  photo_path : option string;
  fingerprint_data : option string
}.

Definition opt_str (o : option string) : value :=
  match o with
  | Some s => VStr s
  | None => VNone
  end.

(** [member.__dict__] *)
Definition member_dict (m : Member) : gmap string value :=
  <["id" := VStr (id m)]> (
  <["name" := VStr (name m)]> (
  <["phone" := VStr (phone m)]> (
  <["blood" := VStr (blood m)]> (
  <["gender" := VStr (gender m)]> (
  <["cnic" := VStr (cnic m)]> (
  <["day" := VInt (day m)]> (
  <["month" := VInt (month m)]> (
  <["year" := VInt (year m)]> (
  <["membership_months" := VInt (membership_months m)]> (
  <["package" := VStr (package m)]> (
  <["end_date" := opt_str (end_date m)]> (
  <["status" := VStr (status m)]> (
  <["photo_path" := opt_str (photo_path m)]> (
  <["fingerprint_data" := opt_str (fingerprint_data m)]> ∅)))))))))))))).

(* ===================================================================== *)
(** ** config.py *)
(* ===================================================================== *)

Module config.
Definition CREATOR_NAME : string := "Sayyam Shahbaz".
Definition SOCIALS : list (string * string) :=
  [ ("LinkedIn", "https://www.linkedin.com/in/sayyam-shahbaz-05894a194/");
    ("Instagram", "https://www.instagram.com/safderkhan0800_/") ].
End config.

(* ===================================================================== *)
(** ** Record codec: the text of a member card *)
(* ===================================================================== *)

(** The rendering library is outside the repository.  A document is
    modelled by the strings drawn on its page, in drawing order; text
    extraction gives them back one per line. *)

(** U+1F4AA, which opens the header, in its UTF-8 bytes. *)
Definition flexed_biceps : string :=
  String (ascii_of_N 240) (String (ascii_of_N 159)
    (String (ascii_of_N 146) (String (ascii_of_N 170) EmptyString))).

Definition standard_fields : list string :=
  ["id"; "name"; "phone"; "blood"; "gender"; "cnic"].

(** The strings [create_member_pdf] draws, in order. *)
Definition card_lines (member_dict : gmap string value) : res (list string) :=
  let header :=
    flexed_biceps +:+ " SOLID GYM (" +:+ fmt (get member_dict "id" (VStr "Unknown")) +:+ ")" in
  let body :=
    (fun field => Py.title field +:+ ": " +:+ fmt (get member_dict field (VStr "N/A")))
      <$> standard_fields in
  d ← fmt_d02 (get member_dict "day" (VInt 0));
  m ← fmt_d02 (get member_dict "month" (VInt 0));
  let y := fmt (get member_dict "year" (VInt 0)) in
  let join := "Join Date: " +:+ d +:+ "/" +:+ m +:+ "/" +:+ y in
  membership ←
    match member_dict !! "membership_months" with
    | Some n =>
        Ok [ "Membership: " +:+ fmt n +:+ " months";
             "Package: " +:+ fmt (get member_dict "package" (VStr "Bronze"));
             "End Date: " +:+ fmt (get member_dict "end_date" (VStr "N/A"));
             "Status: " +:+ fmt (get member_dict "status" (VStr "N/A")) ]
    | None => Ok []
    end;
  let footer :=
    ("Created by: " +:+ config.CREATOR_NAME)
      :: ((fun '(n, u) => n +:+ ": " +:+ u) <$> config.SOCIALS) in
  Ok (header :: body ++ join :: membership ++ footer).

(** The text a reader extracts from a page holding [lines]. *)
Definition extract_text (lines : list string) : string :=
  Py.join (String (ascii_of_N 10) EmptyString) lines.

(** *** Decoding *)

Definition set_str (key : string) (ln : string) (d : gmap string value)
  : res (gmap string value) :=
  v ← Py.index (Py.split1 ":" ln) 1;
  Ok (<[key := VStr (Py.strip v)]> d).

(** One pass of the inner loop over the standard fields. *)
Definition parse_standard (ln : string) (d : gmap string value)
  : res (gmap string value) :=
  foldl (fun acc key =>
           d ← acc;
           if Py.startswith (Py.lower ln) (key +:+ ":")
           then catch is_IndexError (set_str key ln d) (Ok d)
           else Ok d)
        (Ok d) standard_fields.

Definition parse_join_date (ln : string) (d : gmap string value)
  : res (gmap string value) :=
  field ← Py.index (Py.split ":" ln) 1;
  let parts := Py.split "/" (Py.strip field) in
  p0 ← Py.index parts 0; dd ← Py.int_of_str p0;
  p1 ← Py.index parts 1; mm ← Py.int_of_str p1;
  p2 ← Py.index parts 2; yy ← Py.int_of_str p2;
  Ok (<["year" := VInt yy]> (<["month" := VInt mm]> (<["day" := VInt dd]> d))).

Definition parse_membership (ln : string) (d : gmap string value)
  : res (gmap string value) :=
  field ← Py.index (Py.split ":" ln) 1;
  w ← Py.index (Py.split_ws (Py.strip field)) 0;
  n ← Py.int_of_str w;
  Ok (<["membership_months" := VInt n]> d).

(** The body of [for ln in text.splitlines()]. *)
Definition parse_line (d : gmap string value) (ln : string)
  : res (gmap string value) :=
  d ← parse_standard ln d;
  d ← (if Py.startswith ln "Package:"
       then catch is_IndexError (set_str "package" ln d) (Ok d) else Ok d);
  d ← (if Py.startswith ln "Join Date:"
       then catch is_Index_or_ValueError (parse_join_date ln d) (Ok d) else Ok d);
  d ← (if Py.startswith ln "Membership:"
       then catch is_Index_or_ValueError (parse_membership ln d) (Ok d) else Ok d);
  d ← (if Py.startswith ln "End Date:"
       then catch is_IndexError (set_str "end_date" ln d) (Ok d) else Ok d);
  if Py.startswith ln "Status:"
  then catch is_IndexError (set_str "status" ln d) (Ok d) else Ok d.

Fixpoint parse_lines (d : gmap string value) (lns : list string)
  : res (gmap string value) :=
  match lns with
  | [] => Ok d
  | ln :: rest => d ← parse_line d ln; parse_lines d rest
  end.

Definition parse_defaults : gmap string value :=
  <["year" := VNone]> (<["month" := VNone]> (<["day" := VNone]> (
  <["package" := VStr ""]> (<["cnic" := VStr ""]> (<["gender" := VStr ""]> (
  <["blood" := VStr ""]> (<["phone" := VStr ""]> (<["name" := VStr ""]> (
  <["id" := VStr ""]> ∅))))))))).

(** [parse_member_from_pdf] after the text has been read: [stem] is
    [pdf_path.stem]. *)
Definition parse_text (stem : string) (text : string) : res (gmap string value) :=
  d ← parse_lines parse_defaults (Py.splitlines text);
  if falsy (d !! "id") then Ok (<["id" := VStr stem]> d) else Ok d.

(* ===================================================================== *)
(** ** core/utils.py *)
(* ===================================================================== *)

Module utils.

Definition MINYEAR : Z := 1.
Definition MAXYEAR : Z := 9999.

Record date : Type := mkdate { year : Z; month : Z; day : Z }.

Definition isleap (y : Z) : bool :=
  (y mod 4 =? 0) && (negb (y mod 100 =? 0) || (y mod 400 =? 0)).

(** [calendar.mdays] *)
Definition mdays (m : Z) : Z :=
  match m with
  | 1 => 31 | 2 => 28 | 3 => 31 | 4 => 30 | 5 => 31 | 6 => 30
  | 7 => 31 | 8 => 31 | 9 => 30 | 10 => 31 | 11 => 30 | 12 => 31
  | _ => 0
  end.

Definition days_in_month (y m : Z) : Z :=
  mdays m + (if (m =? 2) && isleap y then 1 else 0).

(** [calendar.monthrange(y, m)[1]]: any year, a month from 1 to 12. *)
Definition monthrange (y m : Z) : res Z :=
  if (1 <=? m) && (m <=? 12) then Ok (days_in_month y m) else Raise ValueError.

Definition valid (d : date) : Prop :=
  MINYEAR <= year d <= MAXYEAR /\ 1 <= month d <= 12 /\
  1 <= day d <= days_in_month (year d) (month d).

(** [datetime.date(y, m, d)] *)
Definition new_date (y m d : Z) : res date :=
  if (MINYEAR <=? y) && (y <=? MAXYEAR) && (1 <=? m) && (m <=? 12)
     && (1 <=? d) && (d <=? days_in_month y m)
  then Ok (mkdate y m d) else Raise ValueError.

(** [date(1900, m, 1).strftime("%B")] *)
Definition month_name (m : Z) : res string :=
  match m with
  | 1 => Ok "January" | 2 => Ok "February" | 3 => Ok "March"
  | 4 => Ok "April" | 5 => Ok "May" | 6 => Ok "June"
  | 7 => Ok "July" | 8 => Ok "August" | 9 => Ok "September"
  | 10 => Ok "October" | 11 => Ok "November" | 12 => Ok "December"
  | _ => Raise ValueError
  end.

(** [//] and [%] round towards minus infinity, as [Z.div] and [Z.modulo]
    do for the positive divisor 12. *)
Definition add_months (start_date : date) (months : Z) : res date :=
  let month0 := month start_date - 1 + months in
  let year' := year start_date + month0 / 12 in
  let month' := month0 mod 12 + 1 in
  days_in_new_month ← monthrange year' month';
  let day' := Z.min (day start_date) days_in_new_month in
  new_date year' month' day'.

(** The position of a date's month on the line of all months. *)
Definition month_index (d : date) : Z := 12 * year d + (month d - 1).

(** What it means for [r] to be [d] moved [n] months ahead, the day
    clamped to the length of the month reached. *)
Definition advanced (d : date) (n : Z) (r : date) : Prop :=
  1 <= month r <= 12 /\
  month_index r = month_index d + n /\
  day r = Z.min (day d) (days_in_month (year r) (month r)).

(** [date.toordinal()]: the days of the years before, of the months
    before, and of this month; 0001-01-01 is day 1. *)
Definition days_before_year (y : Z) : Z :=
  let y' := y - 1 in y' * 365 + y' / 4 - y' / 100 + y' / 400.

Definition days_before_month (y m : Z) : Z :=
  match m with
  | 1 => 0 | 2 => 31 | 3 => 59 | 4 => 90 | 5 => 120 | 6 => 151
  | 7 => 181 | 8 => 212 | 9 => 243 | 10 => 273 | 11 => 304 | 12 => 334
  | _ => 0
  end + (if (2 <? m) && isleap y then 1 else 0).

Definition toordinal (d : date) : Z :=
  days_before_year (year d) + days_before_month (year d) (month d) + day d.

(** [days_until(end_date)], [today] being [datetime.date.today()]. *)
Definition days_until (today end_date : date) : Z :=
  toordinal end_date - toordinal today.

(** [str(d)]: [yyyy-mm-dd]. *)
Definition isoformat (d : date) : string :=
  Py.fmt_04d (year d) +:+ "-" +:+ Py.fmt_02d (month d) +:+ "-" +:+ Py.fmt_02d (day d).

(** The ordinal of the last day before the month at position [i] on the
    line of all months. *)
Definition month_start (i : Z) : Z :=
  days_before_year (i / 12) + days_before_month (i / 12) (i mod 12 + 1).

(** [a] is an earlier day than [b]. *)
Definition before (a b : date) : Prop :=
  year a < year b \/
  (year a = year b /\ (month a < month b \/ (month a = month b /\ day a < day b))).

End utils.


(* ===================================================================== *)
(** ** ai_module/analytics.py *)
(* ===================================================================== *)

Module GymAI.

Inductive churn : Type :=
| NoHistory      (* "No attendance history." *)
| HighRisk       (* "High Risk (Absent 3+ weeks)" *)
| MediumRisk     (* "Medium Risk (Absent 2 weeks)" *)
| LowRisk.       (* "Low Risk (Active)" *)

Definition churn_message (c : churn) : string :=
  match c with
  | NoHistory => "No attendance history."
  | HighRisk => "High Risk (Absent 3+ weeks)"
  | MediumRisk => "Medium Risk (Absent 2 weeks)"
  | LowRisk => "Low Risk (Active)"
  end.

Definition microseconds_per_day : Z := 86400 * 1000000.
Definition microseconds_per_hour : Z := 3600 * 1000000.

(** [dt.hour] of an instant. *)
Definition hour (t : Z) : Z := (t / microseconds_per_hour) mod 24.

(** [Counter(hours)]: a count per hour, in the order the hours are first
    seen. *)
Fixpoint count_up (h : Z) (c : list (Z * Z)) : list (Z * Z) :=
  match c with
  | [] => [(h, 1)]
  | (k, n) :: rest => if k =? h then (k, n + 1) :: rest else (k, n) :: count_up h rest
  end.

Definition Counter (hours : list Z) : list (Z * Z) :=
  foldl (fun c h => count_up h c) [] hours.

(** [c.most_common(1)] is [max(c.items(), key=count)] in a list: the
    first of the most frequent. *)
Fixpoint max_count_from (best : Z * Z) (l : list (Z * Z)) : Z * Z :=
  match l with
  | [] => best
  | x :: rest => max_count_from (if best.2 <? x.2 then x else best) rest
  end.

Definition most_common_1 (c : list (Z * Z)) : list (Z * Z) :=
  match c with
  | [] => []
  | x :: rest => [max_count_from x rest]
  end.

(** [timedelta.days] of a difference of two instants. *)
Definition timedelta_days (later earlier : Z) : Z :=
  (later - earlier) / microseconds_per_day.

Section Analytics.

(** [datetime.strptime(s, "%Y-%m-%d %H:%M:%S")] belongs to the Python
    library: an instant is the number of microseconds since the start of
    the calendar, and a timestamp of another shape raises [ValueError]. *)
Variable strptime : string -> res Z.

(** The loop of [get_churn_risk] over the rows (member id, timestamp). *)
Fixpoint last_visit_from (last_visit : option Z) (member_id : string)
    (data : list (string * string)) : res (option Z) :=
  match data with
  | [] => Ok last_visit
  | (mid, timestamp) :: rest =>
      last_visit' ←
        (if String.eqb mid member_id then
           catch is_ValueError
             (dt ← strptime timestamp;
              match last_visit with
              | None => Ok (Some dt)
              | Some lv => if lv <? dt then Ok (Some dt) else Ok last_visit
              end)
             (Ok last_visit)
         else Ok last_visit);
      last_visit_from last_visit' member_id rest
  end.

Definition get_churn_risk (now : Z) (data : list (string * string))
    (member_id : string) : res churn :=
  last_visit ← last_visit_from None member_id data;
  match last_visit with
  | None => Ok NoHistory
  | Some lv =>
      let days_since := timedelta_days now lv in
      if 21 <? days_since then Ok HighRisk
      else if 14 <? days_since then Ok MediumRisk
      else Ok LowRisk
  end.

(** The instants of the member's visits whose timestamp parses. *)
Definition visits (member_id : string) (data : list (string * string)) : list Z :=
  omap (fun row => if String.eqb row.1 member_id
                   then match strptime row.2 with
                        | Ok t => Some t
                        | Raise _ => None
                        end
                   else None) data.

(** [o] is the latest of [l], or nothing when [l] is empty. *)
Definition is_latest (l : list Z) (o : option Z) : Prop :=
  match o with
  | None => l = []
  | Some t => t ∈ l /\ forall t', t' ∈ l -> t' <= t
  end.

(** The classification, as the specification words it. *)
Definition classify (now : Z) (last_visit : option Z) : churn :=
  match last_visit with
  | None => NoHistory
  | Some t =>
      let days := timedelta_days now t in
      if days <=? 14 then LowRisk
      else if (15 <=? days) && (days <=? 21) then MediumRisk
      else HighRisk
  end.

Definition keep_later (acc : option Z) (t : Z) : option Z :=
  match acc with
  | None => Some t
  | Some lv => if lv <? t then Some t else acc
  end.

(** The loop of [predict_peak_hours] over the rows. *)
Fixpoint hours_from (hours : list Z) (data : list (string * string)) : res (list Z) :=
  match data with
  | [] => Ok hours
  | row :: rest =>
      hours' ← catch is_Index_or_ValueError
                 (dt ← strptime row.2; Ok (hours ++ [hour dt]))
                 (Ok hours);
      hours_from hours' rest
  end.

Definition predict_peak_hours (data : list (string * string)) : res string :=
  match data with
  | [] => Ok "Not enough data to predict peak hours yet."
  | _ =>
      hours ← hours_from [] data;
      match hours with
      | [] => Ok "Insufficient daily data."
      | _ =>
          '(most_common, count) ← Py.index (most_common_1 (Counter hours)) 0;
          if most_common =? 0 then Ok "Peak time is Midnight."
          else if most_common =? 12 then Ok "Peak time is 12 PM (Noon)."
          else if most_common <? 12
               then Ok ("Peak time is " +:+ Py.str_of_int most_common +:+ " AM.")
               else Ok ("Peak time is " +:+ Py.str_of_int (most_common - 12) +:+ " PM.")
      end
  end.

(** The hours of the rows whose timestamp parses, in order. *)
Definition parsed_hours (data : list (string * string)) : list Z :=
  omap (fun row => match strptime row.2 with
                   | Ok t => Some (hour t)
                   | Raise _ => None
                   end) data.

End Analytics.

(** The count a counter holds for [h]. *)
Fixpoint count_in (c : list (Z * Z)) (h : Z) : Z :=
  match c with
  | [] => 0
  | (k, n) :: rest => if k =? h then n else count_in rest h
  end.

(** How often [h] occurs in [hours]. *)
Definition occurrences (h : Z) (hours : list Z) : Z :=
  Z.of_nat (List.length (filter (fun x => x = h) hours)).

(** The risk levels in order of severity. *)
Definition severity (c : churn) : Z :=
  match c with
  | NoHistory => 0
  | LowRisk => 1
  | MediumRisk => 2
  | HighRisk => 3
  end.

End GymAI.

(* ===================================================================== *)
(** ** The file system *)
(* ===================================================================== *)

(** A path is its list of components; [[]] is the root, which always
    exists.  Components are kept as written ([..] is not resolved). *)
Definition path : Type := list string.

Inductive content : Type :=
| Pdf (lines : list string)      (* a document and the strings on its page *)
| Bytes (text : string).         (* anything a PDF reader cannot open *)

Inductive kind : Type :=
| Dir
| File (c : content).

Record entry : Type := mkEntry { e_path : path; e_kind : kind; st_mtime : Z }.

Definition is_dir_kind (k : kind) : bool :=
  match k with Dir => true | File _ => false end.

(** [p.name], [p.stem], [p.parent], [str(p)], [p / s] *)
Definition name_of (p : path) : string := default "" (last p).

Fixpoint rfind (c : ascii) (s : string) : option nat :=
  match s with
  | EmptyString => None
  | String a t =>
      match rfind c t with
      | Some i => Some (S i)
      | None => if Ascii.eqb a c then Some O else None
      end
  end.

Definition stem_of_name (nm : string) : string :=
  match rfind "." nm with
  | Some i =>
      if ((0 <? i) && (i <? String.length nm - 1))%nat
      then String.substring 0 i nm else nm
  | None => nm
  end.

Definition stem (p : path) : string := stem_of_name (name_of p).

Definition parent (p : path) : path := removelast p.

Definition str_of_path (p : path) : string := Py.join "/" p.

Definition path_div (p : path) (s : string) : path :=
  p ++ filter (fun c => c ≠ "" ∧ c ≠ ".") (Py.split "/" s).

Definition endswith (s suffix : string) : bool :=
  let n := String.length s in
  let k := String.length suffix in
  ((k <=? n)%nat && String.eqb (String.substring (n - k) k s) suffix).

Fixpoint lookup_entry (fs : list entry) (p : path) : option entry :=
  match fs with
  | [] => None
  | e :: rest => if bool_decide (e_path e = p) then Some e else lookup_entry rest p
  end.

Definition exists_ (fs : list entry) (p : path) : bool :=
  match p with
  | [] => true
  | _ => bool_decide (is_Some (lookup_entry fs p))
  end.

Definition is_dir (fs : list entry) (p : path) : bool :=
  match p with
  | [] => true
  | _ => match lookup_entry fs p with
         | Some e => is_dir_kind (e_kind e)
         | None => false
         end
  end.

Definition is_child (base p : path) : bool :=
  bool_decide (List.length p = S (List.length base) ∧ take (List.length base) p = base).

Definition is_under (base p : path) : bool :=
  bool_decide ((List.length base < List.length p)%nat ∧ take (List.length base) p = base).

(** [base.iterdir()] *)
Definition iterdir (fs : list entry) (base : path) : list entry :=
  filter (fun e => is_child base (e_path e)) fs.

(** [base.glob("*.pdf")] and [base.rglob("*.pdf")]: entries of any kind
    whose name ends in [.pdf]. *)
Definition glob_pdf (fs : list entry) (base : path) : list entry :=
  filter (fun e => endswith (name_of (e_path e)) ".pdf") (iterdir fs base).

Definition rglob_pdf (fs : list entry) (base : path) : list entry :=
  if is_dir fs base
  then filter (fun e => is_under base (e_path e) && endswith (name_of (e_path e)) ".pdf") fs
  else [].

(** Creating or replacing an entry of a directory stamps the directory. *)
Definition touch (now : Z) (p : path) (fs : list entry) : list entry :=
  (fun e => if bool_decide (e_path e = p) then mkEntry (e_path e) (e_kind e) now else e)
    <$> fs.

Definition mkdir1 (now : Z) (fs : list entry) (q : path) : res (list entry) :=
  match lookup_entry fs q with
  | Some e => if is_dir_kind (e_kind e) then Ok fs else Raise OSError
  | None => Ok (touch now (parent q) fs ++ [mkEntry q Dir now])
  end.

Fixpoint mkdir_from (now : Z) (fs : list entry) (pre : path) (rest : list string)
  : res (list entry) :=
  match rest with
  | [] => Ok fs
  | c :: rest' =>
      fs' ← mkdir1 now fs (pre ++ [c]);
      mkdir_from now fs' (pre ++ [c]) rest'
  end.

(** [p.mkdir(parents=True, exist_ok=True)] *)
Definition mkdir_parents (now : Z) (fs : list entry) (p : path) : res (list entry) :=
  mkdir_from now fs [] p.

(** Replaces the entry [lookup_entry] finds at [p]. *)
Fixpoint set_entry (fs : list entry) (p : path) (new : entry) : list entry :=
  match fs with
  | [] => []
  | e :: rest =>
      if bool_decide (e_path e = p) then new :: rest else e :: set_entry rest p new
  end.

(** Writing a whole file. *)
Definition write_file (now : Z) (fs : list entry) (p : path) (c : content)
  : res (list entry) :=
  match lookup_entry fs p with
  | Some e =>
      if is_dir_kind (e_kind e) then Raise OSError
      else Ok (set_entry fs p (mkEntry p (File c) now))
  | None =>
      if is_dir fs (parent p)
      then Ok (touch now (parent p) fs ++ [mkEntry p (File c) now])
      else Raise OSError
  end.

(** [open(p, "a").write(s)].  A file under the log's name that holds a
    document is never read by the store (its name does not end in [.pdf]);
    it is left as it is. *)
Definition append_file (now : Z) (fs : list entry) (p : path) (s : string)
  : res (list entry) :=
  match lookup_entry fs p with
  | Some e =>
      match e_kind e with
      | Dir => Raise OSError
      | File (Bytes t) => write_file now fs p (Bytes (t +:+ s))
      | File (Pdf l) => write_file now fs p (Pdf l)
      end
  | None => write_file now fs p (Bytes s)
  end.

(** [p] is [folder] or lies in it, at any depth. *)
Definition is_within (folder p : path) : bool :=
  bool_decide (take (List.length folder) p = folder).

(** [shutil.rmtree(folder)]: the folder goes with all it holds. *)
Definition rmtree (now : Z) (fs : list entry) (folder : path) : list entry :=
  touch now (parent folder) (filter (fun e => negb (is_within folder (e_path e))) fs).

(** [p.read_text(encoding="utf-8")]: a text file holds the text written
    to it; a document is not text. *)
Definition read_utf8 (fs : list entry) (p : path) : res string :=
  match lookup_entry fs p with
  | Some e =>
      match e_kind e with
      | File (Bytes t) => Ok t
      | File (Pdf _) => Raise ValueError
      | Dir => Raise OSError
      end
  | None => Raise OSError
  end.

(** [max(l, key=lambda p: p.stat().st_mtime)]: the first of the latest. *)
Fixpoint max_mtime_from (best : entry) (l : list entry) : entry :=
  match l with
  | [] => best
  | e :: rest =>
      max_mtime_from (if st_mtime best <? st_mtime e then e else best) rest
  end.

Definition max_mtime (l : list entry) : option entry :=
  match l with
  | [] => None
  | e :: rest => Some (max_mtime_from e rest)
  end.

(* ===================================================================== *)
(** ** services/pdf_service.py and services/member_service.py *)
(* ===================================================================== *)

(** U+2014, the dash of the log and listing lines, in its UTF-8 bytes. *)
Definition em_dash : string :=
  String (ascii_of_N 226) (String (ascii_of_N 128) (String (ascii_of_N 148) EmptyString)).

(** [v.lower()], [v.strip()]: methods of [str] only. *)
Definition lower_of (v : value) : res string :=
  match v with VStr s => Ok (Py.lower s) | _ => Raise AttributeError end.
Definition strip_of (v : value) : res string :=
  match v with VStr s => Ok (Py.strip s) | _ => Raise AttributeError end.

(** The truth value of a decoded record or of an absent one. *)
Definition truthy (o : option (gmap string value)) : bool :=
  match o with
  | Some d => bool_decide (d ≠ ∅)
  | None => false
  end.

(** [PdfReader(str(pdf_path))] and the text of its pages. *)
Definition read_text (e : entry) : res string :=
  match e_kind e with
  | File (Pdf lines) => Ok (extract_text lines)
  | _ => Raise OSError
  end.

Definition parse_member_from_pdf (e : entry) : res (option (gmap string value)) :=
  match read_text e with
  | Raise _ => Ok None
  | Ok text => d ← parse_text (stem (e_path e)) text; Ok (Some d)
  end.

(** [{"matches": ..., "parsed": ...}]: [parsed] is [None] when the key is
    missing and [Some None] when it holds [None]. *)
Record search_result : Type := mkResult {
  matches : list string;
  parsed : option (option (gmap string value));
  access_denied : bool
}.

Record summary : Type := mkSummary {
  s_id : string; s_name : string; s_gender : string; s_date : string; s_path : string
}.

(** The fields a [Member] is built from are strings in every decoded
    record; another value is reported here rather than carried along. *)
Definition as_str (v : value) : res string :=
  match v with VStr s => Ok s | _ => Raise TypeError end.

Definition as_opt_str (v : option value) : res (option string) :=
  match v with
  | Some (VStr s) => Ok (Some s)
  | Some VNone | None => Ok None
  | Some (VInt _) => Raise TypeError
  end.

(** Insertion-ordered [dict] keyed by member id. *)
Fixpoint assoc_get {A : Type} (k : value) (l : list (value * A)) : option A :=
  match l with
  | [] => None
  | (k', a) :: rest => if bool_decide (k' = k) then Some a else assoc_get k rest
  end.

Fixpoint assoc_set {A : Type} (k : value) (a : A) (l : list (value * A))
  : list (value * A) :=
  match l with
  | [] => [(k, a)]
  | (k', a') :: rest =>
      if bool_decide (k' = k) then (k, a) :: rest else (k', a') :: assoc_set k a rest
  end.

(** [sorted(items, key=..., reverse=True)]: stable, latest first. *)
Fixpoint insert_desc {A : Type} (key : A -> Z) (x : A) (l : list A) : list A :=
  match l with
  | [] => [x]
  | y :: rest =>
      if key y <? key x then x :: y :: rest else y :: insert_desc key x rest
  end.

Definition sorted_desc {A : Type} (key : A -> Z) (l : list A) : list A :=
  foldl (fun acc x => insert_desc key x acc) [] l.

(** What [get_monthly_list] returns: a text, or the report
    [f"Error reading log file: {e}"] of the exception [e]. *)
Inductive listing : Type :=
| Text (s : string)
| ErrorReading (e : exn).

Section Store.

(** [config.BASE_FOLDER] and [config.PHOTOS_FOLDER], set at start-up. *)
Variable BASE_FOLDER : path.
Variable PHOTOS_FOLDER : path.

Definition create_member_pdf (now : Z) (fs : list entry) (save_path : path)
    (member_dict : gmap string value) : res (list entry) :=
  fs ← mkdir_parents now fs (parent save_path);
  lines ← card_lines member_dict;
  write_file now fs save_path (Pdf lines).

Definition save_new_member (now : Z) (fs : list entry) (member : Member)
  : res (list entry * string) :=
  let year' := Py.str_of_int (year member) in
  monthn ← utils.month_name (month member);
  let day' := Py.fmt_02d (day member) in
  let base :=
    path_div (path_div (path_div (path_div BASE_FOLDER year') monthn) day') (id member) in
  fs ← mkdir_parents now fs base;
  let existing := glob_pdf fs base in
  '(fs, save_path) ←
    match existing with
    | _ :: _ =>
        let count :=
          (List.length (filter (fun d => is_dir_kind (e_kind d)) (iterdir fs base)) + 1)%nat in
        let re_dir := path_div base ("ReAdmission_" +:+ Py.str_of_int (Z.of_nat count)) in
        fs ← mkdir_parents now fs re_dir;
        Ok (fs, path_div re_dir (id member +:+ ".pdf"))
    | [] => Ok (fs, path_div base (id member +:+ ".pdf"))
    end;
  fs ← create_member_pdf now fs save_path (member_dict member);
  let log_file :=
    path_div (path_div (path_div BASE_FOLDER year') monthn) "monthly_members.txt" in
  fs ← mkdir_parents now fs (parent log_file);
  let entry :=
    id member +:+ " " +:+ em_dash +:+ " " +:+ name member +:+ " " +:+ em_dash +:+ " "
    +:+ day' +:+ "/" +:+ Py.fmt_02d (month member)
    +:+ "/" +:+ year'
    +:+ " " +:+ em_dash +:+ " " +:+ status member +:+ String (ascii_of_N 10) EmptyString in
  let fs := match append_file now fs log_file entry with
            | Ok fs' => fs'
            | Raise _ => fs
            end in
  Ok (fs, str_of_path save_path).

Definition photo_extensions : list string := [".jpg"; ".png"; ".jpeg"; ".bmp"].

Fixpoint first_existing (fs : list entry) (candidates : list path) : option path :=
  match candidates with
  | [] => None
  | p :: rest => if exists_ fs p then Some p else first_existing fs rest
  end.

Definition find_photo (fs : list entry) (member_id : value) : res (option string) :=
  if negb (exists_ fs PHOTOS_FOLDER) then Ok None
  else
    match first_existing fs
            ((fun ext => path_div PHOTOS_FOLDER (fmt member_id +:+ ext)) <$> photo_extensions) with
    | Some p => Ok (Some (str_of_path p))
    | None =>
        clean_id ← Py.lower <$> strip_of member_id;
        if is_dir fs PHOTOS_FOLDER then
          Ok (str_of_path ∘ e_path <$>
                head (filter (fun f => Py.lower (stem (e_path f)) = clean_id)
                             (iterdir fs PHOTOS_FOLDER)))
        else Raise OSError
    end.

(** [if data: photo = find_photo(data.get('id', '')); ...] *)
Definition attach_photo (fs : list entry) (data : option (gmap string value))
  : res (option (gmap string value)) :=
  match data with
  | Some d =>
      if truthy data then
        photo ← find_photo fs (get d "id" (VStr ""));
        match photo with
        | Some p => if bool_decide (p ≠ "") then Ok (Some (<["photo_path" := VStr p]> d))
                    else Ok data
        | None => Ok data
        end
      else Ok data
  | None => Ok None
  end.

(** The deep pass of [search_members]: every document is decoded. *)
Definition name_matches (ql : string) (e : entry) : bool :=
  match (p ← parse_member_from_pdf e;
         match p with
         | Some d => if truthy p then
                       nm ← lower_of (get d "name" (VStr "")); Ok (Py.contains ql nm)
                     else Ok false
         | None => Ok false
         end) with
  | Ok b => b
  | Raise _ => false
  end.

(** [search_members]; the second component lists the documents handed to
    [parse_member_from_pdf], in order. *)
Definition search_members (fs : list entry) (query : string)
  : res (search_result * list path) :=
  let ql := Py.strip (Py.lower query) in
  let all := rglob_pdf fs BASE_FOLDER in
  let quick := filter (fun p => Py.contains ql (Py.lower (stem (e_path p)))) all in
  let '(found, decoded) :=
    match quick with
    | [] => (filter (name_matches ql) all, e_path <$> all)
    | _ => (quick, [])
    end in
  match max_mtime found with
  | None => Ok (mkResult [] None false, decoded)
  | Some latest =>
      p ← parse_member_from_pdf latest;
      p ← attach_photo fs p;
      Ok (mkResult (str_of_path ∘ e_path <$> found) (Some p) false,
          decoded ++ [e_path latest])
  end.

Definition get_member_by_id (fs : list entry) (member_id : string)
  : res (option (gmap string value)) :=
  let found_pdfs :=
    filter (fun p => Py.lower (stem (e_path p)) = Py.strip (Py.lower member_id))
           (rglob_pdf fs BASE_FOLDER) in
  match max_mtime found_pdfs with
  | None => Ok None
  | Some latest_pdf =>
      data ← parse_member_from_pdf latest_pdf;
      attach_photo fs data
  end.

(** [f"{data.get(k)}"] *)
Definition fmt_get (d : gmap string value) (k : string) : string :=
  fmt (default VNone (d !! k)).

Definition pending_summary (e : entry) : res (option summary) :=
  data ← parse_member_from_pdf e;
  match data with
  | Some d =>
      if truthy data then
        st ← lower_of (get d "status" (VStr ""));
        if bool_decide (st = "pending") then
          Ok (Some (mkSummary (fmt (get d "id" (VStr "Unknown")))
                              (fmt (get d "name" (VStr "Unknown")))
                              (fmt (get d "gender" (VStr "Unknown")))
                              (fmt_get d "day" +:+ "/" +:+ fmt_get d "month"
                                 +:+ "/" +:+ fmt_get d "year")
                              (str_of_path (e_path e))))
        else Ok None
      else Ok None
  | None => Ok None
  end.

Definition get_pending_members (fs : list entry) : list summary :=
  if negb (exists_ fs BASE_FOLDER) then []
  else
    omap (fun e => match pending_summary e with
                   | Ok o => o
                   | Raise _ => None
                   end) (rglob_pdf fs BASE_FOLDER).

Definition update_member_status (now : Z) (fs : list entry)
    (member_id new_status : string) : res (list entry) :=
  data ← get_member_by_id fs member_id;
  match data with
  | Some d =>
      if truthy data then
        i ← getitem d "id" ≫= as_str;
        n ← getitem d "name" ≫= as_str;
        ph ← as_str (get d "phone" VNone);
        bl ← as_str (get d "blood" VNone);
        ge ← as_str (get d "gender" VNone);
        cn ← as_str (get d "cnic" VNone);
        dd ← int_of (get d "day" (VInt 1));
        mm ← int_of (get d "month" (VInt 1));
        yy ← int_of (get d "year" (VInt 2000));
        mo ← int_of (get d "membership_months" (VInt 1));
        pk ← as_str (get d "package" VNone);
        ed ← as_opt_str (d !! "end_date");
        pp ← as_opt_str (d !! "photo_path");
        fp ← as_opt_str (d !! "fingerprint_data");
        fst <$> save_new_member now fs
                  (mkMember i n ph bl ge cn dd mm yy mo pk ed new_status pp fp)
      else Raise ValueError
  | None => Raise ValueError
  end.

(** The scan of [get_members_by_status]: the status test comes first,
    then the newest document per id among those that passed it. *)
Definition status_step (status : string)
    (member_dict : list (value * (gmap string value * Z))) (e : entry)
  : res (list (value * (gmap string value * Z))) :=
  p ← parse_member_from_pdf e;
  match p with
  | Some d =>
      if truthy p then
        st ← lower_of (get d "status" (VStr ""));
        if bool_decide (st = Py.lower status) then
          let member_id := get d "id" (VStr "") in
          match assoc_get member_id member_dict with
          | Some (_, t) =>
              if t <? st_mtime e
              then Ok (assoc_set member_id (d, st_mtime e) member_dict)
              else Ok member_dict
          | None => Ok (assoc_set member_id (d, st_mtime e) member_dict)
          end
        else Ok member_dict
      else Ok member_dict
  | None => Ok member_dict
  end.

Definition status_scan (status : string) (pdfs : list entry)
  : list (value * (gmap string value * Z)) :=
  foldl (fun acc e => match status_step status acc e with
                      | Ok acc' => acc'
                      | Raise _ => acc
                      end) [] pdfs.

Definition status_line (d : gmap string value) : res string :=
  i ← getitem d "id";
  n ← getitem d "name";
  s ← getitem d "status";
  Ok (fmt i +:+ " " +:+ em_dash +:+ " " +:+ fmt n +:+ " " +:+ em_dash
        +:+ " Status: " +:+ fmt s).

Fixpoint mapM {A B : Type} (f : A -> res B) (l : list A) : res (list B) :=
  match l with
  | [] => Ok []
  | a :: rest => b ← f a; bs ← mapM f rest; Ok (b :: bs)
  end.

Definition get_members_by_status (fs : list entry) (status : string) : res string :=
  if negb (exists_ fs BASE_FOLDER)
  then Ok ("No members found with status: " +:+ status)
  else
    let member_dict := status_scan status (rglob_pdf fs BASE_FOLDER) in
    let sorted_members := sorted_desc (fun x => snd (snd x)) member_dict in
    lines ← mapM (fun x => status_line (fst (snd x))) sorted_members;
    match lines with
    | [] => Ok ("No members found with status: " +:+ status)
    | _ => Ok (Py.join (String (ascii_of_N 10) EmptyString) lines)
    end.

Definition renew_membership (now : Z) (fs : list entry) (member_id : string)
    (new_start_date new_end_date : utils.date) (months_added : Z)
  : res (list entry * string) :=
  current_data ← get_member_by_id fs member_id;
  match current_data with
  | Some d =>
      if truthy current_data then
        i ← getitem d "id" ≫= as_str;
        n ← getitem d "name" ≫= as_str;
        ph ← as_str (get d "phone" (VStr ""));
        bl ← as_str (get d "blood" (VStr ""));
        ge ← as_str (get d "gender" (VStr ""));
        cn ← as_str (get d "cnic" (VStr ""));
        pk ← as_str (get d "package" (VStr "Bronze"));
        pp ← as_opt_str (d !! "photo_path");
        fp ← as_opt_str (d !! "fingerprint_data");
        save_new_member now fs
          (mkMember i n ph bl ge cn
                    (utils.day new_start_date) (utils.month new_start_date)
                    (utils.year new_start_date) months_added pk
                    (Some (utils.isoformat new_end_date)) "Active" pp fp)
      else Raise ValueError
  | None => Raise ValueError
  end.

Definition get_monthly_list (fs : list entry) (year' month' : Z) : res listing :=
  monthn ← utils.month_name month';
  let file_path :=
    path_div (path_div (path_div BASE_FOLDER (Py.str_of_int year')) monthn)
             "monthly_members.txt" in
  if negb (exists_ fs file_path) then Ok (Text "No new members recorded this month.")
  else
    match read_utf8 fs file_path with
    | Ok t =>
        let t' := Py.strip t in
        Ok (Text (if bool_decide (t' = "") then "No entries found." else t'))
    | Raise e => Ok (ErrorReading e)
    end.

(** [Path.rglob(pattern)] for a pattern made of a member id belongs to
    the Python library: given the store, the folder and the pattern it
    yields entries of the store. *)
Variable rglob : list entry -> path -> string -> res (list entry).

(** The body of the loop of [delete_member]. *)
Definition delete_step (now : Z) (member_id : string)
    (acc : list entry * bool) (folder : entry) : list entry * bool :=
  let '(fs, deleted) := acc in
  if is_dir fs (e_path folder) && String.eqb (name_of (e_path folder)) member_id
  then (rmtree now fs (e_path folder), true)
  else (fs, deleted).

Definition delete_member (now : Z) (fs : list entry) (member_id : string)
  : res (list entry * bool) :=
  folders ← rglob fs BASE_FOLDER member_id;
  Ok (foldl (delete_step now member_id) (fs, false) folders).

End Store.

(* ===================================================================== *)
(** ** workers/search_worker.py *)
(* ===================================================================== *)

Module SearchWorker.

Inductive signal : Type :=
| finished (result : search_result)
| error (e : exn).

(** [SearchWorker(query, is_admin, user_gender).run()] *)
Definition run (BASE_FOLDER PHOTOS_FOLDER : path) (fs : list entry)
    (query : string) (is_admin : bool) (user_gender : option string) : signal :=
  let body : res search_result :=
    result ← fst <$> search_members BASE_FOLDER PHOTOS_FOLDER fs query;
    let deliver := Ok result in
    match parsed result with
    | Some (Some p) =>
        if negb is_admin && truthy (Some p) then
          member_gender ← Py.lower <$> strip_of (get p "gender" (VStr ""));
          let my_gender :=
            match user_gender with
            | Some g => if bool_decide (g ≠ "") then Py.lower (Py.strip g) else ""
            | None => ""
            end in
          if bool_decide (my_gender ≠ "") && bool_decide (member_gender ≠ my_gender)
          then Ok (mkResult [] None true)
          else deliver
        else deliver
    | _ => deliver
    end in
  match body with
  | Ok r => finished r
  | Raise e => error e
  end.

End SearchWorker.

(* ===================================================================== *)
(** ** workers/save_worker.py and workers/report_worker.py *)
(* ===================================================================== *)

(** The signal a worker emits: [finished] with its result or [error]
    with the exception. *)
Inductive emitted (A : Type) : Type :=
| Finished (a : A)
| Failed (e : exn).
Arguments Finished {A} a.
Arguments Failed {A} e.

Definition emit {A : Type} (c : res A) : emitted A :=
  match c with
  | Ok a => Finished a
  | Raise e => Failed e
  end.

Module SaveWorker.
(** [SaveWorker(member).run()]: the signal, with the store the save
    leaves. *)
Definition run (BASE_FOLDER : path) (now : Z) (fs : list entry) (member : Member)
  : emitted (list entry * string) :=
  emit (save_new_member BASE_FOLDER now fs member).
End SaveWorker.

Module MonthlyListWorker.
Definition run (BASE_FOLDER : path) (fs : list entry) (year' month' : Z) : emitted listing :=
  emit (get_monthly_list BASE_FOLDER fs year' month').
End MonthlyListWorker.

Module StatusListWorker.
Definition run (BASE_FOLDER : path) (fs : list entry) (status : string) : emitted string :=
  emit (get_members_by_status BASE_FOLDER fs status).
End StatusListWorker.


(* ===================================================================== *)
(** ** Notions the properties are stated with *)
(* ===================================================================== *)

(** A line whose number cannot be read: a join-date or a membership line
    whose conversion raises. *)
Definition numeric_failure (ln : string) : Prop :=
  (Py.startswith ln "Join Date:" = true /\ forall d, raises (parse_join_date ln d)) \/
  (Py.startswith ln "Membership:" = true /\ forall d, raises (parse_membership ln d)).

(** The fields of a decoded record that always hold text. *)
Definition text_fields : list string :=
  ["id"; "name"; "phone"; "blood"; "gender"; "cnic"; "package"].

Definition text_fields_ok (d : gmap string value) : Prop :=
  forall k, k ∈ text_fields -> exists s, d !! k = Some (VStr s).

(** *** Strings, lines and pages *)

(** Every character of [s] satisfies [P]. *)
Fixpoint all_chars (P : ascii -> bool) (s : string) : bool :=
  match s with
  | EmptyString => true
  | String c t => P c && all_chars P t
  end.

Definition not_char (x : ascii) (c : ascii) : bool := negb (Ascii.eqb c x).
Definition not_linebreak (c : ascii) : bool := negb (Py.is_linebreak c).
Definition not_space (c : ascii) : bool := negb (Py.is_space c).
Definition is_digit (c : ascii) : bool := ((48 <=? Py.code c) && (Py.code c <=? 57))%N.
Definition is_numeric (c : ascii) : bool := is_digit c || Ascii.eqb c "-".

Definition newline : string := String (ascii_of_N 10) EmptyString.

(** A line [label: value]. *)
Definition labelled (label v : string) : string :=
  label +:+ String ":" (String " " v).

(** The text of a join date: [dd/mm/yyyy]. *)
Definition date_text (dd mm yy : Z) : string :=
  Py.fmt_02d dd +:+ String "/" (Py.fmt_02d mm +:+ String "/" (Py.str_of_int yy)).

(** The text of a membership: [n months]. *)
Definition months_text (n : Z) : string := Py.str_of_int n +:+ String " " "months".

(** The page of a member whose end date is [e]. *)
Definition card_of (m : Member) (e : string) : list string :=
  [ flexed_biceps +:+ (" SOLID GYM (" +:+ id m +:+ ")");
    labelled "Id" (id m); labelled "Name" (name m); labelled "Phone" (phone m);
    labelled "Blood" (blood m); labelled "Gender" (gender m); labelled "Cnic" (cnic m);
    labelled "Join Date" (date_text (day m) (month m) (year m));
    labelled "Membership" (months_text (membership_months m));
    labelled "Package" (package m); labelled "End Date" e; labelled "Status" (status m);
    "Created by: Sayyam Shahbaz";
    "LinkedIn: https://www.linkedin.com/in/sayyam-shahbaz-05894a194/";
    "Instagram: https://www.instagram.com/safderkhan0800_/" ].

(** The side conditions of the round trip.  [plain] is the one the
    specification names; [clean] adds what decoding needs. *)
Definition plain (v : string) : Prop :=
  v ≠ "" /\ all_chars (not_char ":") v = true.

Definition clean (v : string) : Prop :=
  plain v /\ all_chars not_linebreak v = true /\ Py.strip v = v.

Definition text_values (m : Member) : list string :=
  [id m; name m; phone m; blood m; gender m; cnic m; package m; status m]
  ++ match end_date m with Some e => [e] | None => [] end.

(** Decoding the page encoded for [m], stored under any name, gives back
    every field of the defined field set. *)
Definition roundtrips (m : Member) (stem : string) : Prop :=
  exists lines d,
    card_lines (member_dict m) = Ok lines /\
    parse_text stem (extract_text lines) = Ok d /\
    d !! "id" = Some (VStr (id m)) /\
    d !! "name" = Some (VStr (name m)) /\
    d !! "phone" = Some (VStr (phone m)) /\
    d !! "blood" = Some (VStr (blood m)) /\
    d !! "gender" = Some (VStr (gender m)) /\
    d !! "cnic" = Some (VStr (cnic m)) /\
    d !! "day" = Some (VInt (day m)) /\
    d !! "month" = Some (VInt (month m)) /\
    d !! "year" = Some (VInt (year m)) /\
    d !! "membership_months" = Some (VInt (membership_months m)) /\
    d !! "package" = Some (VStr (package m)) /\
    d !! "end_date" = Some (opt_str (end_date m)) /\
    d !! "status" = Some (VStr (status m)).

(** *** The passes of a search *)

Definition normalized (query : string) : string := Py.strip (Py.lower query).

(** The documents whose stem contains the query. *)
Definition filename_pass (B : path) (fs : list entry) (query : string) : list entry :=
  filter (fun p => Py.contains (normalized query) (Py.lower (stem (e_path p))))
         (rglob_pdf fs B).

(** The documents whose decoded name contains the query. *)
Definition content_pass (B : path) (fs : list entry) (query : string) : list entry :=
  filter (name_matches (normalized query)) (rglob_pdf fs B).

(** The content pass is consulted only when the filename pass is empty. *)
Definition candidates (B : path) (fs : list entry) (query : string) : list entry :=
  match filename_pass B fs query with
  | [] => content_pass B fs query
  | found => found
  end.

(** The documents decoded to build the candidate list. *)
Definition content_trace (B : path) (fs : list entry) (query : string) : list path :=
  match filename_pass B fs query with
  | [] => e_path <$> rglob_pdf fs B
  | _ => []
  end.

(** *** The shape of a store *)

(** What the path scheme observes of a store: which paths exist, in walk
    order, and which of them are directories. *)
Definition shape (fs : list entry) : list (path * bool) :=
  (fun e => (e_path e, is_dir_kind (e_kind e))) <$> fs.

Fixpoint kind_at (sh : list (path * bool)) (q : path) : option bool :=
  match sh with
  | [] => None
  | x :: rest => if bool_decide (x.1 = q) then Some x.2 else kind_at rest q
  end.

(** The entries below [base], at any depth. *)
Definition below (base : path) (sh : list (path * bool)) : list (path * bool) :=
  filter (fun x => is_under base x.1) sh.

(** [base] and the folders above it, the root left out. *)
Definition ancestors (base : path) : list path :=
  (fun n => take (S n) base) <$> seq 0 (List.length base).

(** A name that is one component of a path. *)
Definition component (s : string) : Prop :=
  s ≠ "" /\ s ≠ "." /\ all_chars (not_char "/") s = true.

(** The folder of a member: [BASE / year / month name / day / id]. *)
Definition month_label (mm : Z) : string :=
  match utils.month_name mm with Ok s => s | Raise _ => "" end.

Definition id_folder (B : path) (m : Member) : path :=
  B ++ [Py.str_of_int (year m); month_label (month m); Py.fmt_02d (day m); id m].

Definition readmission (n : Z) : string := "ReAdmission_" +:+ Py.str_of_int n.

Definition pdf_name (m : Member) : string := id m +:+ ".pdf".

(** The tests of [save_new_member] on the folder of a member: a document
    directly in it, a folder directly in it. *)
Definition pdf_child (base : path) (x : path * bool) : bool :=
  is_child base x.1 && endswith (name_of x.1) ".pdf".

Definition dir_child (base : path) (x : path * bool) : bool :=
  is_child base x.1 && x.2.

(** What [save_new_member] does once the target is chosen. *)
Definition finish_save (B : path) (now : Z) (fs : list entry) (save_path : path)
    (m : Member) : res (list entry * string) :=
  fs ← create_member_pdf now fs save_path (member_dict m);
  let log_file :=
    path_div (path_div (path_div B (Py.str_of_int (year m))) (month_label (month m)))
             "monthly_members.txt" in
  fs ← mkdir_parents now fs (parent log_file);
  let entry :=
    id m +:+ " " +:+ em_dash +:+ " " +:+ name m +:+ " " +:+ em_dash +:+ " "
    +:+ Py.fmt_02d (day m) +:+ "/" +:+ Py.fmt_02d (month m)
    +:+ "/" +:+ Py.str_of_int (year m)
    +:+ " " +:+ em_dash +:+ " " +:+ status m +:+ String (ascii_of_N 10) EmptyString in
  let fs := match append_file now fs log_file entry with
            | Ok fs' => fs'
            | Raise _ => fs
            end in
  Ok (fs, str_of_path save_path).

(** The last character of [s] is [c]. *)
Fixpoint ends_with_char (c : ascii) (s : string) : bool :=
  match s with
  | EmptyString => false
  | String a EmptyString => Ascii.eqb a c
  | String _ t => ends_with_char c t
  end.

(** The store holds the folder of [m] with all the folders above it, and
    below that folder exactly the entries [V]. *)
Definition settled (B : path) (m : Member) (fs : list entry) (V : list (path * bool)) : Prop :=
  (forall q, q ∈ ancestors (id_folder B m) -> kind_at (shape fs) q = Some true) /\
  below (id_folder B m) (shape fs) = V.

(** The number of folders directly in [base]. *)
Definition count_dirs (fs : list entry) (base : path) : nat :=
  List.length (filter (fun d => is_dir_kind (e_kind d)) (iterdir fs base)).

(** Two records of the same admission: same id, same join date. *)
Definition same_admission (m m' : Member) : Prop :=
  id m' = id m /\ day m' = day m /\ month m' = month m /\ year m' = year m.

(** *** Records and cards *)

(** The text [create_member_pdf] prints for the end date of [m]. *)
Definition end_text (m : Member) : string := fmt (opt_str (end_date m)).

(** [r] holds what decoding makes of the card of [m] stored under the
    name [stem]: every text trimmed, every number as it is, and the
    stem for an id that is blank. *)
Definition card_record (m : Member) (stem : string) (r : gmap string value) : Prop :=
  r !! "id" = Some (VStr (if decide (Py.strip (id m) = "") then stem else Py.strip (id m))) /\
  r !! "name" = Some (VStr (Py.strip (name m))) /\
  r !! "phone" = Some (VStr (Py.strip (phone m))) /\
  r !! "blood" = Some (VStr (Py.strip (blood m))) /\
  r !! "gender" = Some (VStr (Py.strip (gender m))) /\
  r !! "cnic" = Some (VStr (Py.strip (cnic m))) /\
  r !! "day" = Some (VInt (day m)) /\
  r !! "month" = Some (VInt (month m)) /\
  r !! "year" = Some (VInt (year m)) /\
  r !! "membership_months" = Some (VInt (membership_months m)) /\
  r !! "package" = Some (VStr (Py.strip (package m))) /\
  r !! "end_date" = Some (VStr (Py.strip (end_text m))) /\
  r !! "status" = Some (VStr (Py.strip (status m))).

(** A text without a line break. *)
Definition single_line (v : string) : Prop := all_chars not_linebreak v = true.

(** A text as decoding leaves it: trimmed, on one line. *)
Definition tidy (v : string) : Prop := Py.strip v = v /\ single_line v.

(** The texts a card prints: those of [text_values], the end date read
    as [None] when it is absent. *)
Definition printed_values (m : Member) : list string :=
  [id m; name m; phone m; blood m; gender m; cnic m; package m; status m; end_text m].

(** The text keys the line [ln] is read into: a standard field whose
    label opens the line in any letter case, or one of the three fields
    whose label must be written as the card writes it. *)
Definition text_key_of (ln key : string) : Prop :=
  (key ∈ standard_fields /\ Py.startswith (Py.lower ln) (key +:+ ":") = true) \/
  (key = "package" /\ Py.startswith ln "Package:" = true) \/
  (key = "end_date" /\ Py.startswith ln "End Date:" = true) \/
  (key = "status" /\ Py.startswith ln "Status:" = true).

(** Every text of the record is tidy. *)
Definition tidy_record (d : gmap string value) : Prop :=
  forall k s, d !! k = Some (VStr s) -> tidy s.

(** *** Documents and the log *)

(** The log of the month [m] joined in. *)
Definition log_file (B : path) (m : Member) : path :=
  path_div (path_div (path_div B (Py.str_of_int (year m))) (month_label (month m)))
           "monthly_members.txt".

(** The line [save_new_member] adds to the log, its line feed left out. *)
Definition log_line (m : Member) : string :=
  id m +:+ " " +:+ em_dash +:+ " " +:+ name m +:+ " " +:+ em_dash +:+ " "
  +:+ Py.fmt_02d (day m) +:+ "/" +:+ Py.fmt_02d (month m) +:+ "/" +:+ Py.str_of_int (year m)
  +:+ " " +:+ em_dash +:+ " " +:+ status m.

(** The entry a card is stored as. *)
Definition card_entry (save_path : path) (m : Member) (now : Z) : entry :=
  mkEntry save_path (File (Pdf (card_of m (end_text m)))) now.

(** The entries [get_member_by_id] takes for documents of the member
    [i]: below [B], named [*.pdf], the stem being [i] up to letter case. *)
Definition is_card_of (B : path) (i : string) (e : entry) : bool :=
  is_under B (e_path e) && endswith (name_of (e_path e)) ".pdf"
  && bool_decide (Py.lower (stem (e_path e)) = Py.strip (Py.lower i)).

(** An id under which a card can be stored and found again: one path
    component, tidy, not itself named like a document. *)
Definition storable (i : string) : Prop :=
  component i /\ tidy i /\ endswith i ".pdf" = false.

(** The photo folder is a folder, or is not there. *)
Definition photos_ready (P : path) (fs : list entry) : Prop :=
  is_dir fs P = true \/ exists_ fs P = false.

(** The day, month and year of a decoded record are numbers, or [None]
    when no join-date line was read. *)
Definition dated (d : gmap string value) : Prop :=
  forall k, k ∈ ["day"; "month"; "year"] ->
            d !! k = Some VNone \/ exists n, d !! k = Some (VInt n).

(** The fields a status update and a renewal carry over. *)
Definition carried_fields : list string :=
  ["id"; "name"; "phone"; "blood"; "gender"; "cnic"; "package"].

(* ===================================================================== *)
(** ** Sample data *)
(* ===================================================================== *)

Module sample.

(** Three timestamps and their instants, in microseconds since
    0001-01-01 00:00:00. *)
Definition strptime (s : string) : res Z :=
  if String.eqb s "2024-03-01 09:00:00" then Ok 63844880400000000
  else if String.eqb s "2024-02-10 18:30:00" then Ok 63843186600000000
  else if String.eqb s "2024-03-23 10:00:00" then Ok 63846784800000000
  else Raise ValueError.

Definition attendance : list (string * string) :=
  [ ("M1", "2024-02-10 18:30:00"); ("M2", "2024-03-23 10:00:00");
    ("M1", "not a timestamp"); ("M1", "2024-03-01 09:00:00") ].

(** 2024-03-23 10:00:00 *)
Definition now : Z := 63846784800000000.

Definition BASE_FOLDER : path := ["Gym Data"].
Definition PHOTOS_FOLDER : path := ["Member Photos"].

Definition ann : Member :=
  mkMember "M1" "Ann Lee" "0300-1234567" "O+" "Female" "35202-1" 5 3 2024 3 "Gold"
           (Some "2024-06-05") "Active" None None.

Definition dan : Member :=
  mkMember "M2" "Dan Mann" "0301-7654321" "A-" "Male" "35202-2" 9 3 2024 1 "Bronze"
           (Some "2024-04-09") "Active" None None.

(** Ann again, her name typed with a space in front. *)
Definition padded : Member :=
  mkMember "M1" " Ann Lee" "0300-1234567" "O+" "Female" "35202-1" 5 3 2024 3 "Gold"
           (Some "2024-06-05") "Active" None None.

(** The page [create_member_pdf] draws for a member. *)
Definition card (m : Member) : content :=
  Pdf (match card_lines (member_dict m) with Ok l => l | Raise _ => [] end).

Definition folders : list entry :=
  [ mkEntry ["Gym Data"] Dir 10;
    mkEntry ["Gym Data"; "2024"] Dir 10;
    mkEntry ["Gym Data"; "2024"; "March"] Dir 10;
    mkEntry ["Gym Data"; "2024"; "March"; "05"] Dir 10;
    mkEntry ["Gym Data"; "2024"; "March"; "05"; "M1"] Dir 10;
    mkEntry ["Gym Data"; "2024"; "March"; "09"] Dir 10;
    mkEntry ["Gym Data"; "2024"; "March"; "09"; "M2"] Dir 10 ].

(** Two members whose names both contain "ann"; Ann's card is the newer. *)
Definition store : list entry :=
  folders ++
  [ mkEntry ["Gym Data"; "2024"; "March"; "09"; "M2"; "M2.pdf"] (File (card dan)) 50;
    mkEntry ["Gym Data"; "2024"; "March"; "05"; "M1"; "M1.pdf"] (File (card ann)) 100 ].

(** A member admitted again: the first card says Active, the card of the
    re-admission, written later, says Banned. *)
Definition cy (status : string) : Member :=
  mkMember "M3" "Cy Orr" "0302-1112223" "B+" "Male" "35202-3" 5 3 2024 1 "Silver"
           (Some "2024-04-05") status None None.

Definition readmitted : list entry :=
  folders ++
  [ mkEntry ["Gym Data"; "2024"; "March"; "05"; "M3"] Dir 200;
    mkEntry ["Gym Data"; "2024"; "March"; "05"; "M3"; "M3.pdf"] (File (card (cy "Active"))) 100;
    mkEntry ["Gym Data"; "2024"; "March"; "05"; "M3"; "ReAdmission_1"] Dir 200;
    mkEntry ["Gym Data"; "2024"; "March"; "05"; "M3"; "ReAdmission_1"; "M3.pdf"]
            (File (card (cy "Banned"))) 200 ].

(** A card edited by hand: the join-date line is gone. *)
Definition undated : list entry :=
  folders ++
  [ mkEntry ["Gym Data"; "2024"; "March"; "05"; "M9"] Dir 300;
    mkEntry ["Gym Data"; "2024"; "March"; "05"; "M9"; "M9.pdf"]
            (File (Pdf ["Id: M9"; "Name: Zed Kay"; "Gender: Male"; "Membership: 1 months";
                        "Package: Bronze"; "End Date: 2024-04-05"; "Status: Pending"])) 300 ].

(** A request that waits for approval. *)
Definition waiting : list entry :=
  folders ++
  [ mkEntry ["Gym Data"; "2024"; "March"; "05"; "M3"] Dir 100;
    mkEntry ["Gym Data"; "2024"; "March"; "05"; "M3"; "M3.pdf"] (File (card (cy "Pending"))) 100 ].

(** [rglob] for a pattern without wildcards: the entries below the
    folder that bear the name. *)
Definition rglob (fs : list entry) (base : path) (pattern : string) : res (list entry) :=
  Ok (filter (fun e => is_under base (e_path e) && String.eqb (name_of (e_path e)) pattern) fs).

End sample.

(* ===================================================================== *)
(** * Properties *)
(* ===================================================================== *)

(** ** Sanity checks of the embedding *)

Example strip_ex : Py.strip "  a b  " = "a b". Proof. reflexivity. Qed.
Example split_ex : Py.split ":" "a:b:c" = ["a"; "b"; "c"]. Proof. reflexivity. Qed.
Example split1_ex : Py.split1 ":" "a:b:c" = ["a"; "b:c"]. Proof. reflexivity. Qed.
Example split1_none : Py.split1 ":" "abc" = ["abc"]. Proof. reflexivity. Qed.
Example split_ws_ex : Py.split_ws " 3  months " = ["3"; "months"]. Proof. reflexivity. Qed.
Example title_ex : Py.title "cnic" = "Cnic". Proof. reflexivity. Qed.
Example int_ex1 : Py.int_of_str " 007 " = Ok 7. Proof. reflexivity. Qed.
Example int_ex2 : Py.int_of_str "-1_0" = Ok (-10). Proof. reflexivity. Qed.
Example int_ex3 : Py.int_of_str "1__0" = Raise ValueError. Proof. reflexivity. Qed.
Example int_ex4 : Py.int_of_str "" = Raise ValueError. Proof. reflexivity. Qed.
Example fmt_ex1 : Py.fmt_02d 5 = "05". Proof. reflexivity. Qed.
Example fmt_ex2 : Py.fmt_02d (-5) = "-5". Proof. reflexivity. Qed.
Example fmt_ex3 : Py.fmt_02d 2024 = "2024". Proof. reflexivity. Qed.
Example add_months_jan31_2023 :
  utils.add_months (utils.mkdate 2023 1 31) 1 = Ok (utils.mkdate 2023 2 28).
Proof. reflexivity. Qed.
Example add_months_rollover :
  utils.add_months (utils.mkdate 2023 11 30) 3 = Ok (utils.mkdate 2024 2 29).
Proof. reflexivity. Qed.

(** The listing by status is case-insensitive and shows the newest first. *)
Example listing_newest_first :
  get_members_by_status sample.BASE_FOLDER sample.store "ACTIVE"
  = Ok ("M1 " +:+ em_dash +:+ " Ann Lee " +:+ em_dash +:+ " Status: Active" +:+ newline
        +:+ "M2 " +:+ em_dash +:+ " Dan Mann " +:+ em_dash +:+ " Status: Active").
Proof. vm_compute. reflexivity. Qed.

(** A search by a part of an id decodes the best match and nothing else. *)
Example search_by_id_prefix :
  snd <$> search_members sample.BASE_FOLDER sample.PHOTOS_FOLDER sample.store " m1 "
  = Ok [["Gym Data"; "2024"; "March"; "05"; "M1"; "M1.pdf"]].
Proof. vm_compute. reflexivity. Qed.

(** A search by a part of a name decodes every document, then the best. *)
Example search_by_name :
  snd <$> search_members sample.BASE_FOLDER sample.PHOTOS_FOLDER sample.store "ANN"
  = Ok [ ["Gym Data"; "2024"; "March"; "09"; "M2"; "M2.pdf"];
         ["Gym Data"; "2024"; "March"; "05"; "M1"; "M1.pdf"];
         ["Gym Data"; "2024"; "March"; "05"; "M1"; "M1.pdf"] ].
Proof. vm_compute. reflexivity. Qed.

(** ** Calendar arithmetic ([add_months]) *)

(** Splits on the values of an integer known to lie in a range, from [k]
    upwards. *)
Ltac split_range m k :=
  first
    [ exfalso; lia
    | destruct (Z.eq_dec m k) as [->|];
      [|let k' := eval compute in (k + 1) in split_range m k'] ].

Module utils_facts.
Import utils.

Lemma days_in_month_bounds y m :
  1 <= m <= 12 -> 28 <= days_in_month y m <= 31.
Proof.
  intros Hm. unfold days_in_month.
  split_range m 1; simpl; try lia.
  destruct (isleap y); lia.
Qed.

Lemma new_date_ok y m d :
  MINYEAR <= y <= MAXYEAR -> 1 <= m <= 12 -> 1 <= d <= days_in_month y m ->
  new_date y m d = Ok (mkdate y m d).
Proof.
  intros Hy Hm Hd. unfold new_date.
  replace (MINYEAR <=? y) with true by (symmetry; apply Z.leb_le; lia).
  replace (y <=? MAXYEAR) with true by (symmetry; apply Z.leb_le; lia).
  replace (1 <=? m) with true by (symmetry; apply Z.leb_le; lia).
  replace (m <=? 12) with true by (symmetry; apply Z.leb_le; lia).
  replace (1 <=? d) with true by (symmetry; apply Z.leb_le; lia).
  replace (d <=? days_in_month y m) with true by (symmetry; apply Z.leb_le; lia).
  reflexivity.
Qed.

Lemma add_months_in_range (d : date) (n : Z) :
  valid d -> 1 <= n ->
  year d + (month d - 1 + n) / 12 <= MAXYEAR ->
  exists r, add_months d n = Ok r /\ valid r /\ advanced d n r.
Proof.
  intros (Hy & Hm & Hd) Hn Hmax.
  unfold add_months, advanced, month_index.
  remember (month d - 1 + n) as m0 eqn:E0.
  assert (Hq : 0 <= m0 / 12) by (apply Z.div_pos; lia).
  assert (Hr : 0 <= m0 mod 12 < 12) by (apply Z.mod_pos_bound; lia).
  assert (Hdm : m0 = 12 * (m0 / 12) + m0 mod 12) by (apply Z.div_mod; lia).
  pose proof (days_in_month_bounds (year d + m0 / 12) (m0 mod 12 + 1) ltac:(lia)) as Hb.
  exists (mkdate (year d + m0 / 12) (m0 mod 12 + 1)
                 (Z.min (day d) (days_in_month (year d + m0 / 12) (m0 mod 12 + 1)))).
  split; [|split].
  - unfold monthrange.
    replace (1 <=? m0 mod 12 + 1) with true by (symmetry; apply Z.leb_le; lia).
    replace (m0 mod 12 + 1 <=? 12) with true by (symmetry; apply Z.leb_le; lia).
    simpl. apply new_date_ok; unfold MINYEAR, MAXYEAR in *; lia.
  - unfold valid; simpl. unfold MINYEAR, MAXYEAR in *. lia.
  - simpl. lia.
Qed.

Lemma add_months_jan31 (y : Z) :
  MINYEAR <= y <= MAXYEAR ->
  add_months (mkdate y 1 31) 1 = Ok (mkdate y 2 (if isleap y then 29 else 28)).
Proof.
  intros Hy. unfold add_months.
  change ((month (mkdate y 1 31) - 1 + 1) / 12) with 0.
  change ((month (mkdate y 1 31) - 1 + 1) mod 12 + 1) with 2.
  change (year (mkdate y 1 31)) with y. change (day (mkdate y 1 31)) with 31.
  replace (y + 0) with y by lia.
  change (monthrange y 2) with (Ok (days_in_month y 2)).
  assert (Hdim : days_in_month y 2 = if isleap y then 29 else 28).
  { unfold days_in_month. simpl. by destruct (isleap y). }
  cbn [mbind res_bind]. rewrite Hdim.
  destruct (isleap y); (rewrite new_date_ok; [reflexivity | lia | lia | rewrite Hdim; lia ]).
Qed.

End utils_facts.

(** C5, as the code has it.  For every valid date [d] and every [n >= 1]
    whose target month is no later than December 9999, [add_months d n]
    returns a valid date [n] months ahead of [d] (the year rolls over),
    its day the source day clamped to the length of the target month; one
    month after 31 January is 28 February in a common year and 29 February
    in a leap year. *)
Theorem add_months_advances_and_clamps (d : utils.date) (n : Z) :
  utils.valid d -> 1 <= n ->
  utils.year d + (utils.month d - 1 + n) / 12 <= utils.MAXYEAR ->
  (exists r, utils.add_months d n = Ok r /\ utils.valid r /\ utils.advanced d n r) /\
  utils.add_months (utils.mkdate (utils.year d) 1 31) 1
    = Ok (utils.mkdate (utils.year d) 2 (if utils.isleap (utils.year d) then 29 else 28)).
Proof.
  intros Hv Hn Hmax. split.
  - by apply utils_facts.add_months_in_range.
  - apply utils_facts.add_months_jan31. destruct Hv as (Hy & _). exact Hy.
Qed.

Lemma add_months_advances_and_clamps_witness :
  (exists r, utils.add_months (utils.mkdate 2024 1 31) 13 = Ok r /\ utils.valid r
             /\ utils.advanced (utils.mkdate 2024 1 31) 13 r) /\
  utils.add_months (utils.mkdate 2024 1 31) 1 = Ok (utils.mkdate 2024 2 29).
Proof.
  apply (add_months_advances_and_clamps (utils.mkdate 2024 1 31) 13).
  - repeat split; vm_compute; discriminate.
  - lia.
  - vm_compute. discriminate.
Defined.

(** C5 as stated fails at the end of the calendar: one month after
    31 December 9999 there is no date to return, and [add_months] raises. *)
Lemma add_months_past_maxyear :
  ~ (forall (d : utils.date) (n : Z),
       utils.valid d -> 1 <= n ->
       exists r, utils.add_months d n = Ok r /\ utils.advanced d n r).
Proof.
  intros H.
  destruct (H (utils.mkdate 9999 12 31) 1) as (r & Hr & _).
  - repeat split; vm_compute; discriminate.
  - lia.
  - vm_compute in Hr. discriminate.
Qed.

(** ** Churn risk *)

Import GymAI.

Section ChurnFacts.

Variable strptime : string -> res Z.

(** Parsing a timestamp fails with [ValueError] and nothing else. *)
Hypothesis strptime_raises : forall s e, strptime s = Raise e -> e = ValueError.

Lemma last_visit_from_visits acc member_id data :
  last_visit_from strptime acc member_id data
  = Ok (foldl keep_later acc (visits strptime member_id data)).
Proof.
  revert acc. induction data as [|[mid ts] data IH]; intros acc; [reflexivity|].
  unfold visits. cbn [last_visit_from omap list_omap fst snd]. fold (visits strptime member_id data).
  destruct (String.eqb mid member_id).
  - destruct (strptime ts) as [t|e] eqn:Et.
    + cbn [mbind res_bind catch foldl]. destruct acc as [lv|]; cbn [keep_later].
      * destruct (lv <? t); cbn [mbind res_bind]; apply IH.
      * cbn [mbind res_bind]. apply IH.
    + apply strptime_raises in Et as ->. cbn [mbind res_bind catch is_ValueError]. apply IH.
  - cbn [mbind res_bind]. apply IH.
Qed.

Lemma foldl_keep_later_spec l acc :
  match foldl keep_later acc l with
  | None => acc = None /\ l = []
  | Some t =>
      (acc = Some t \/ t ∈ l) /\
      (forall lv, acc = Some lv -> lv <= t) /\ (forall t', t' ∈ l -> t' <= t)
  end.
Proof.
  revert acc. induction l as [|x l IH]; intros acc; cbn [foldl].
  - destruct acc as [lv|]; [|done].
    split; [by left|]. split; [intros ? [= ->]; lia|]. intros t' Ht'. inversion Ht'.
  - specialize (IH (keep_later acc x)).
    destruct (foldl keep_later (keep_later acc x) l) as [t|].
    + destruct IH as (Hin & Hacc & Hall).
      assert (Hx : x <= t).
      { destruct acc as [lv|]; cbn [keep_later] in *.
        - destruct (lv <? x) eqn:E; [apply Hacc; reflexivity|].
          apply Z.ltb_ge in E. specialize (Hacc lv eq_refl). lia.
        - apply Hacc; reflexivity. }
      split; [|split].
      * destruct Hin as [Hin|Hin]; [|right; by apply list_elem_of_further].
        destruct acc as [lv|]; cbn [keep_later] in Hin.
        -- destruct (lv <? x); [|by left].
           injection Hin as <-. right. apply list_elem_of_here.
        -- injection Hin as <-. right. apply list_elem_of_here.
      * intros lv ->. cbn [keep_later] in Hacc.
        destruct (lv <? x) eqn:E; [|by apply Hacc].
        apply Z.ltb_lt in E. lia.
      * intros t' Ht'. apply elem_of_cons in Ht' as [->|Ht']; [exact Hx|by apply Hall].
    + destruct IH as (Hk & _). destruct acc as [lv|]; cbn [keep_later] in Hk.
      * destruct (lv <? x); discriminate.
      * discriminate.
Qed.

Lemma foldl_keep_later_latest l o :
  is_latest l o -> foldl keep_later None l = o.
Proof.
  intros Ho. pose proof (foldl_keep_later_spec l None) as Hs.
  destruct (foldl keep_later None l) as [t|], o as [t'|]; cbn [is_latest] in Ho.
  - destruct Hs as ([?|Hin] & _ & Hall); [discriminate|].
    destruct Ho as (Hin' & Hall'). f_equal.
    pose proof (Hall _ Hin'). pose proof (Hall' _ Hin). lia.
  - subst l. destruct Hs as ([?|Hin] & _); [discriminate|inversion Hin].
  - destruct Hs as (_ & ->). destruct Ho as (Hin & _). inversion Hin.
  - reflexivity.
Qed.

Lemma visits_no_events member_id data :
  (forall row, row ∈ data -> row.1 <> member_id) -> visits strptime member_id data = [].
Proof.
  induction data as [|row data IH]; intros H; [reflexivity|].
  unfold visits. cbn [omap list_omap]. fold (visits strptime member_id data).
  destruct (String.eqb row.1 member_id) eqn:E.
  - apply String.eqb_eq in E. exfalso. eapply H; [apply list_elem_of_here|exact E].
  - apply IH. intros r Hr. apply H. by apply list_elem_of_further.
Qed.

End ChurnFacts.

(** C8.  Whatever the attendance log holds, [get_churn_risk] answers from
    the latest parsable visit of the member: Low when the whole days
    elapsed are at most 14, Medium from 15 to 21, High above 21; with no
    parsable visit (in particular with no event at all) it answers
    "no history", which is none of the three. *)
Theorem get_churn_risk_classifies
    (strptime : string -> res Z)
    (Hparse : forall s e, strptime s = Raise e -> e = ValueError)
    (now : Z) (data : list (string * string)) (member_id : string)
    (last : option Z) :
  is_latest (visits strptime member_id data) last ->
  GymAI.get_churn_risk strptime now data member_id = Ok (classify now last) /\
  (last = None -> classify now last = NoHistory) /\
  ((forall row, row ∈ data -> row.1 <> member_id) -> last = None) /\
  (forall t, last = Some t ->
     let days := timedelta_days now t in
     (days <= 14 -> classify now last = LowRisk) /\
     (15 <= days <= 21 -> classify now last = MediumRisk) /\
     (21 < days -> classify now last = HighRisk)).
Proof.
  intros Hlast. split; [|split; [|split]].
  - unfold get_churn_risk. rewrite (last_visit_from_visits _ Hparse).
    rewrite (foldl_keep_later_latest _ _ Hlast). cbn [mbind res_bind].
    destruct last as [t|]; [|reflexivity]. cbn [classify].
    destruct (21 <? timedelta_days now t) eqn:E1.
    + apply Z.ltb_lt in E1.
      replace (timedelta_days now t <=? 14) with false by (symmetry; apply Z.leb_gt; lia).
      replace (timedelta_days now t <=? 21) with false by (symmetry; apply Z.leb_gt; lia).
      by rewrite andb_false_r.
    + apply Z.ltb_ge in E1. destruct (14 <? timedelta_days now t) eqn:E2.
      * apply Z.ltb_lt in E2.
        replace (timedelta_days now t <=? 14) with false by (symmetry; apply Z.leb_gt; lia).
        replace (15 <=? timedelta_days now t) with true by (symmetry; apply Z.leb_le; lia).
        replace (timedelta_days now t <=? 21) with true by (symmetry; apply Z.leb_le; lia).
        reflexivity.
      * apply Z.ltb_ge in E2.
        replace (timedelta_days now t <=? 14) with true by (symmetry; apply Z.leb_le; lia).
        reflexivity.
  - by intros ->.
  - intros Hno. rewrite (visits_no_events strptime _ _ Hno) in Hlast.
    destruct last as [t|]; [|reflexivity]. destruct Hlast as (Hin & _). inversion Hin.
  - intros t -> days. subst days. cbn [classify]. repeat split; intros Hd.
    + replace (timedelta_days now t <=? 14) with true by (symmetry; apply Z.leb_le; lia).
      reflexivity.
    + replace (timedelta_days now t <=? 14) with false by (symmetry; apply Z.leb_gt; lia).
      replace (15 <=? timedelta_days now t) with true by (symmetry; apply Z.leb_le; lia).
      replace (timedelta_days now t <=? 21) with true by (symmetry; apply Z.leb_le; lia).
      reflexivity.
    + replace (timedelta_days now t <=? 14) with false by (symmetry; apply Z.leb_gt; lia).
      replace (timedelta_days now t <=? 21) with false by (symmetry; apply Z.leb_gt; lia).
      by rewrite andb_false_r.
Qed.

Lemma get_churn_risk_classifies_witness :
  GymAI.get_churn_risk sample.strptime sample.now sample.attendance "M1" = Ok HighRisk.
Proof.
  refine (proj1 (get_churn_risk_classifies sample.strptime _ sample.now
                   sample.attendance "M1" (Some 63844880400000000) _)).
  - intros s e. unfold sample.strptime.
    repeat (destruct (String.eqb s _); [discriminate|]). by intros [= <-].
  - split.
    + vm_compute. apply list_elem_of_further, list_elem_of_here.
    + intros t' Ht'. vm_compute in Ht'.
      apply elem_of_cons in Ht' as [->|Ht']; [lia|].
      apply list_elem_of_singleton in Ht' as ->. lia.
Defined.

(** ** Decoding never raises *)

Lemma index_raises {A : Type} (l : list A) (i : nat) (e : exn) :
  Py.index l i = Raise e -> e = IndexError.
Proof. unfold Py.index. destruct (l !! i); [discriminate|]. by intros [= <-]. Qed.

Lemma int_of_str_raises (s : string) (e : exn) :
  Py.int_of_str s = Raise e -> e = ValueError.
Proof.
  unfold Py.int_of_str.
  assert (H : forall sgn t,
             match Py.int_digits false t with
             | Some u => Ok (sgn * Z.of_N (N.of_uint u))
             | None => Raise ValueError
             end = @Raise Z e -> e = ValueError).
  { intros sgn t. destruct (Py.int_digits false t); [discriminate|]. by intros [= <-]. }
  destruct (Py.strip s) as [|c t]; [apply H|].
  destruct (Ascii.eqb c "-"); [apply H|]. destruct (Ascii.eqb c "+"); apply H.
Qed.

(** Destructs the computations chained by [x ← c; k], first to last. *)
Ltac step_binds :=
  repeat match goal with
         | |- context [mbind _ ?c] =>
             let E := fresh "E" in destruct c eqn:E; cbn [mbind res_bind]
         end.

Lemma set_str_raises key ln d e :
  set_str key ln d = Raise e -> e = IndexError.
Proof.
  unfold set_str. destruct (Py.index _ 1) eqn:E; cbn [mbind res_bind]; [discriminate|].
  intros [= <-]. by apply index_raises in E.
Qed.

Lemma catch_set_str_ok key ln d :
  exists d', catch is_IndexError (set_str key ln d) (Ok d) = Ok d'.
Proof.
  destruct (set_str key ln d) as [d'|e] eqn:E; [by exists d'|].
  apply set_str_raises in E as ->. by exists d.
Qed.

Lemma parse_join_date_raises ln d e :
  parse_join_date ln d = Raise e -> is_Index_or_ValueError e = true.
Proof.
  unfold parse_join_date. step_binds; try discriminate; intros [= <-];
    match goal with
    | H : Py.index _ _ = Raise _ |- _ => by apply index_raises in H as ->
    | H : Py.int_of_str _ = Raise _ |- _ => by apply int_of_str_raises in H as ->
    end.
Qed.

Lemma parse_membership_raises ln d e :
  parse_membership ln d = Raise e -> is_Index_or_ValueError e = true.
Proof.
  unfold parse_membership. step_binds; try discriminate; intros [= <-];
    match goal with
    | H : Py.index _ _ = Raise _ |- _ => by apply index_raises in H as ->
    | H : Py.int_of_str _ = Raise _ |- _ => by apply int_of_str_raises in H as ->
    end.
Qed.

Lemma catch_numeric_ok (c : res (gmap string value)) d :
  (forall e, c = Raise e -> is_Index_or_ValueError e = true) ->
  exists d', catch is_Index_or_ValueError c (Ok d) = Ok d'.
Proof.
  intros H. destruct c as [d'|e]; [by exists d'|].
  exists d. cbn [catch]. by rewrite (H e eq_refl).
Qed.

Lemma parse_standard_ok ln d : exists d', parse_standard ln d = Ok d'.
Proof.
  unfold parse_standard.
  assert (H : forall keys acc, (exists d0, acc = Ok d0) ->
            exists d', foldl (fun acc key =>
                          d ← acc;
                          if Py.startswith (Py.lower ln) (key +:+ ":")
                          then catch is_IndexError (set_str key ln d) (Ok d)
                          else Ok d) acc keys = Ok d').
  { induction keys as [|k keys IH]; intros acc [d0 ->]; [by exists d0|].
    cbn [foldl]. apply IH. cbn [mbind res_bind].
    destruct (Py.startswith _ _); [apply catch_set_str_ok|by exists d0]. }
  apply H. by exists d.
Qed.

Lemma parse_line_ok d ln : exists d', parse_line d ln = Ok d'.
Proof.
  unfold parse_line.
  destruct (parse_standard_ok ln d) as [d1 ->]. cbn [mbind res_bind].
  assert (H2 : exists d2, (if Py.startswith ln "Package:"
                then catch is_IndexError (set_str "package" ln d1) (Ok d1) else Ok d1) = Ok d2).
  { destruct (Py.startswith _ _); [apply catch_set_str_ok|by eexists]. }
  destruct H2 as [d2 ->]. cbn [mbind res_bind].
  assert (H3 : exists d3, (if Py.startswith ln "Join Date:"
                then catch is_Index_or_ValueError (parse_join_date ln d2) (Ok d2)
                else Ok d2) = Ok d3).
  { destruct (Py.startswith _ _); [|by eexists].
    apply catch_numeric_ok. apply parse_join_date_raises. }
  destruct H3 as [d3 ->]. cbn [mbind res_bind].
  assert (H4 : exists d4, (if Py.startswith ln "Membership:"
                then catch is_Index_or_ValueError (parse_membership ln d3) (Ok d3)
                else Ok d3) = Ok d4).
  { destruct (Py.startswith _ _); [|by eexists].
    apply catch_numeric_ok. apply parse_membership_raises. }
  destruct H4 as [d4 ->]. cbn [mbind res_bind].
  assert (H5 : exists d5, (if Py.startswith ln "End Date:"
                then catch is_IndexError (set_str "end_date" ln d4) (Ok d4) else Ok d4) = Ok d5).
  { destruct (Py.startswith _ _); [apply catch_set_str_ok|by eexists]. }
  destruct H5 as [d5 ->]. cbn [mbind res_bind].
  destruct (Py.startswith _ _); [apply catch_set_str_ok|by eexists].
Qed.

Lemma parse_lines_ok lns : forall d, exists d', parse_lines d lns = Ok d'.
Proof.
  induction lns as [|ln lns IH]; intros d; [by exists d|].
  cbn [parse_lines]. destruct (parse_line_ok d ln) as [d1 ->]. apply IH.
Qed.

Lemma parse_text_ok stem text : exists d, parse_text stem text = Ok d.
Proof.
  unfold parse_text.
  destruct (parse_lines_ok (Py.splitlines text) parse_defaults) as [d ->].
  cbn [mbind res_bind]. destruct (falsy _); by eexists.
Qed.

(** A line that opens with a capital J, M, ... opens with no other label. *)
Lemma join_date_line_only ln :
  Py.startswith ln "Join Date:" = true ->
  (forall key, key ∈ standard_fields -> Py.startswith (Py.lower ln) (key +:+ ":") = false) /\
  Py.startswith ln "Package:" = false /\ Py.startswith ln "Membership:" = false /\
  Py.startswith ln "End Date:" = false /\ Py.startswith ln "Status:" = false.
Proof.
  unfold Py.startswith. destruct ln as [|c ln]; [discriminate|].
  cbn [String.prefix]. destruct (Ascii.ascii_dec "J" c) as [<-|Hc]; [|discriminate].
  intros _. split; [|done].
  intros key Hk. unfold standard_fields in Hk.
  repeat (apply elem_of_cons in Hk as [->|Hk]; [reflexivity|]). inversion Hk.
Qed.

Lemma membership_line_only ln :
  Py.startswith ln "Membership:" = true ->
  (forall key, key ∈ standard_fields -> Py.startswith (Py.lower ln) (key +:+ ":") = false) /\
  Py.startswith ln "Package:" = false /\ Py.startswith ln "Join Date:" = false /\
  Py.startswith ln "End Date:" = false /\ Py.startswith ln "Status:" = false.
Proof.
  unfold Py.startswith. destruct ln as [|c ln]; [discriminate|].
  cbn [String.prefix]. destruct (Ascii.ascii_dec "M" c) as [<-|Hc]; [|discriminate].
  intros _. split; [|done].
  intros key Hk. unfold standard_fields in Hk.
  repeat (apply elem_of_cons in Hk as [->|Hk]; [reflexivity|]). inversion Hk.
Qed.

Lemma parse_standard_no_label ln d :
  (forall key, key ∈ standard_fields -> Py.startswith (Py.lower ln) (key +:+ ":") = false) ->
  parse_standard ln d = Ok d.
Proof.
  intros H. unfold parse_standard, standard_fields in *.
  cbn [foldl mbind res_bind].
  repeat (rewrite H; [|repeat first [apply list_elem_of_here | apply list_elem_of_further]]).
  reflexivity.
Qed.

Lemma catch_raises {A : Type} (handled : exn -> bool) (c : res A) (a : A) :
  raises c -> (forall e, c = Raise e -> handled e = true) ->
  catch handled c (Ok a) = Ok a.
Proof.
  destruct c as [x|e]; [done|]. intros _ H. cbn [catch]. by rewrite (H e eq_refl).
Qed.

Lemma parse_line_numeric_failure d ln :
  numeric_failure ln -> parse_line d ln = Ok d.
Proof.
  intros [[Hp Hr]|[Hp Hr]]; unfold parse_line.
  - destruct (join_date_line_only ln Hp) as (Hs & -> & -> & -> & ->).
    rewrite (parse_standard_no_label _ _ Hs), Hp. cbn [mbind res_bind].
    rewrite catch_raises; [reflexivity|apply Hr|apply parse_join_date_raises].
  - destruct (membership_line_only ln Hp) as (Hs & -> & -> & -> & ->).
    rewrite (parse_standard_no_label _ _ Hs), Hp. cbn [mbind res_bind].
    rewrite catch_raises; [reflexivity|apply Hr|apply parse_membership_raises].
Qed.

Lemma parse_lines_app l1 l2 d :
  parse_lines d (l1 ++ l2) = (d' ← parse_lines d l1; parse_lines d' l2).
Proof.
  revert d. induction l1 as [|ln l1 IH]; intros d; [reflexivity|].
  cbn [app parse_lines]. destruct (parse_line d ln); cbn [mbind res_bind]; [apply IH|reflexivity].
Qed.

(** C7.  Decoding returns for every entry of the store: an entry that
    cannot be read gives no record, a readable one gives a record; and a
    join-date or membership line whose number cannot be read leaves the
    record as it was, the lines before and after it being decoded as if
    the line were not there. *)
Theorem parse_member_from_pdf_never_raises
    (e : entry) (d : gmap string value) (before after : list string) (ln : string) :
  numeric_failure ln ->
  match read_text e with
  | Raise _ => parse_member_from_pdf e = Ok None
  | Ok _ => exists r, parse_member_from_pdf e = Ok (Some r)
  end /\
  parse_line d ln = Ok d /\
  (exists r, parse_lines d (before ++ ln :: after) = Ok r /\
             parse_lines d (before ++ after) = Ok r).
Proof.
  intros Hln. split; [|split].
  - unfold parse_member_from_pdf. destruct (read_text e) as [text|]; [|reflexivity].
    destruct (parse_text_ok (stem (e_path e)) text) as [r ->]. by exists r.
  - by apply parse_line_numeric_failure.
  - rewrite !parse_lines_app.
    destruct (parse_lines_ok before d) as [d1 ->]. cbn [mbind res_bind parse_lines].
    rewrite (parse_line_numeric_failure _ _ Hln). cbn [mbind res_bind].
    destruct (parse_lines_ok after d1) as [r ->]. by exists r.
Qed.

Lemma parse_member_from_pdf_never_raises_witness :
  parse_line parse_defaults "Join Date: 3x/02/2024" = Ok parse_defaults /\
  parse_member_from_pdf (mkEntry ["Gym Data"; "M1.pdf"] (File (Bytes "torn")) 0) = Ok None.
Proof.
  pose proof (parse_member_from_pdf_never_raises
                (mkEntry ["Gym Data"; "M1.pdf"] (File (Bytes "torn")) 0)
                parse_defaults ["Id: M1"] ["Status: Active"] "Join Date: 3x/02/2024") as H.
  destruct H as (Hread & Hline & _).
  - left. split; [reflexivity|]. intros d. vm_compute. exact I.
  - split; [exact Hline|exact Hread].
Defined.

(** ** Decoded records hold text in their text fields *)

Lemma text_fields_insert_str d k s :
  text_fields_ok d -> text_fields_ok (<[k := VStr s]> d).
Proof.
  intros H k' Hk'. destruct (decide (k = k')) as [->|Hne].
  - exists s. apply lookup_insert_eq.
  - rewrite lookup_insert_ne; [by apply H|done].
Qed.

Lemma text_fields_insert_other d k v :
  k ∉ text_fields -> text_fields_ok d -> text_fields_ok (<[k := v]> d).
Proof.
  intros Hk H k' Hk'. rewrite lookup_insert_ne; [by apply H|].
  intros ->. by apply Hk.
Qed.

Lemma text_fields_defaults : text_fields_ok parse_defaults.
Proof.
  intros k Hk. unfold text_fields in Hk.
  repeat (apply elem_of_cons in Hk as [->|Hk]; [by eexists|]). inversion Hk.
Qed.

Lemma text_fields_catch_set_str key ln d d' :
  text_fields_ok d ->
  catch is_IndexError (set_str key ln d) (Ok d) = Ok d' -> text_fields_ok d'.
Proof.
  intros Hd. unfold set_str. destruct (Py.index _ 1) as [v|e]; cbn [mbind res_bind catch].
  - intros [= <-]. by apply text_fields_insert_str.
  - destruct (is_IndexError e); [by intros [= <-]|discriminate].
Qed.

Lemma text_fields_parse_standard ln d d' :
  text_fields_ok d -> parse_standard ln d = Ok d' -> text_fields_ok d'.
Proof.
  unfold parse_standard.
  generalize standard_fields as keys. intros keys. revert d.
  induction keys as [|k keys IH]; intros d Hd; cbn [foldl mbind res_bind].
  - by intros [= <-].
  - destruct (Py.startswith _ _); [|by apply IH].
    destruct (catch_set_str_ok k ln d) as [d1 E1]. rewrite E1.
    apply IH. by eapply text_fields_catch_set_str.
Qed.

Lemma text_fields_not_numeric k :
  k ∈ ["day"; "month"; "year"; "membership_months"; "end_date"; "status"; "photo_path"] ->
  k ∉ text_fields.
Proof.
  intros Hk Hin. unfold text_fields in Hin.
  repeat (apply elem_of_cons in Hk as [->|Hk];
          [repeat (apply elem_of_cons in Hin as [Hin|Hin]; [discriminate|]); inversion Hin|]).
  inversion Hk.
Qed.

Lemma text_fields_parse_line d ln d' :
  text_fields_ok d -> parse_line d ln = Ok d' -> text_fields_ok d'.
Proof.
  intros Hd. unfold parse_line.
  destruct (parse_standard ln d) as [d1|] eqn:E1; cbn [mbind res_bind]; [|discriminate].
  apply (text_fields_parse_standard _ _ _ Hd) in E1.
  match goal with |- context [mbind _ ?c] => destruct c as [d2|] eqn:E2 end;
    cbn [mbind res_bind]; [|discriminate].
  assert (H2 : text_fields_ok d2).
  { destruct (Py.startswith ln "Package:"); [by eapply text_fields_catch_set_str|].
    by injection E2 as <-. }
  match goal with |- context [mbind _ ?c] => destruct c as [d3|] eqn:E3 end;
    cbn [mbind res_bind]; [|discriminate].
  assert (H3 : text_fields_ok d3).
  { destruct (Py.startswith ln "Join Date:"); [|by injection E3 as <-].
    unfold parse_join_date in E3.
    repeat match type of E3 with
           | context [mbind _ ?c] => destruct c; cbn [mbind res_bind catch] in E3
           end;
      try (destruct (is_Index_or_ValueError _); [|discriminate]);
      injection E3 as <-; try done.
    repeat (apply text_fields_insert_other;
            [apply text_fields_not_numeric;
             repeat first [apply list_elem_of_here | apply list_elem_of_further]|]).
    done. }
  match goal with |- context [mbind _ ?c] => destruct c as [d4|] eqn:E4 end;
    cbn [mbind res_bind]; [|discriminate].
  assert (H4 : text_fields_ok d4).
  { destruct (Py.startswith ln "Membership:"); [|by injection E4 as <-].
    unfold parse_membership in E4.
    repeat match type of E4 with
           | context [mbind _ ?c] => destruct c; cbn [mbind res_bind catch] in E4
           end;
      try (destruct (is_Index_or_ValueError _); [|discriminate]);
      injection E4 as <-; try done.
    apply text_fields_insert_other; [|done].
    apply text_fields_not_numeric;
      repeat first [apply list_elem_of_here | apply list_elem_of_further]. }
  match goal with |- context [mbind _ ?c] => destruct c as [d5|] eqn:E5 end;
    cbn [mbind res_bind]; [|discriminate].
  assert (H5 : text_fields_ok d5).
  { destruct (Py.startswith ln "End Date:"); [|by injection E5 as <-].
    by eapply text_fields_catch_set_str. }
  destruct (Py.startswith ln "Status:"); [|by intros [= <-]].
  by apply text_fields_catch_set_str.
Qed.

Lemma text_fields_parse_lines lns : forall d d',
  text_fields_ok d -> parse_lines d lns = Ok d' -> text_fields_ok d'.
Proof.
  induction lns as [|ln lns IH]; intros d d' Hd; cbn [parse_lines].
  - by intros [= <-].
  - destruct (parse_line d ln) as [d1|] eqn:E1; cbn [mbind res_bind]; [|discriminate].
    apply IH. by eapply text_fields_parse_line.
Qed.

Lemma text_fields_parse_text stem text d :
  parse_text stem text = Ok d -> text_fields_ok d.
Proof.
  unfold parse_text.
  destruct (parse_lines _ _) as [d1|] eqn:E1; cbn [mbind res_bind]; [|discriminate].
  apply (text_fields_parse_lines _ _ _ text_fields_defaults) in E1.
  destruct (falsy _); intros [= <-]; [by apply text_fields_insert_str|done].
Qed.

Lemma text_fields_parse_member e d :
  parse_member_from_pdf e = Ok (Some d) -> text_fields_ok d.
Proof.
  unfold parse_member_from_pdf. destruct (read_text e) as [text|]; [|discriminate].
  destruct (parse_text _ text) as [d1|] eqn:E1; cbn [mbind res_bind]; [|discriminate].
  intros [= <-]. by eapply text_fields_parse_text.
Qed.

(** ** The access-control overlay of the search worker *)

Import SearchWorker.

Lemma text_fields_nonempty d : text_fields_ok d -> d ≠ ∅.
Proof.
  intros H ->. destruct (H "id") as [s Hs]; [apply list_elem_of_here|].
  by rewrite lookup_empty in Hs.
Qed.

Lemma text_fields_get d k :
  text_fields_ok d -> k ∈ text_fields -> exists s, forall dflt, get d k dflt = VStr s.
Proof. intros H Hk. destruct (H k Hk) as [s Hs]. exists s. intros dflt. unfold get. by rewrite Hs. Qed.

Lemma attach_photo_text_fields P fs d r :
  text_fields_ok d -> attach_photo P fs (Some d) = Ok r ->
  exists d', r = Some d' /\ text_fields_ok d'.
Proof.
  intros Hd. unfold attach_photo.
  destruct (truthy (Some d)); [|intros [= <-]; by exists d].
  destruct (find_photo P fs _) as [[p|]|]; cbn [mbind res_bind]; [| |discriminate].
  - destruct (bool_decide (p ≠ "")); intros [= <-]; eexists; split; try reflexivity; [|done].
    by apply text_fields_insert_str.
  - intros [= <-]. by exists d.
Qed.

Lemma search_members_text_fields B P fs query r tr p :
  search_members B P fs query = Ok (r, tr) -> parsed r = Some (Some p) ->
  text_fields_ok p.
Proof.
  unfold search_members.
  match goal with |- context [let '(_, _) := ?c in _] => destruct c as [found decoded] end.
  destruct (max_mtime found) as [latest|]; [|intros [= <- _]; discriminate].
  destruct (parse_member_from_pdf latest) as [[d|]|] eqn:E; cbn [mbind res_bind]; [| |discriminate].
  - apply text_fields_parse_member in E.
    destruct (attach_photo P fs (Some d)) as [o|] eqn:Ea; cbn [mbind res_bind]; [|discriminate].
    destruct (attach_photo_text_fields _ _ _ _ E Ea) as (d' & -> & Hd').
    intros [= <- _]. cbn [parsed]. by intros [= <-].
  - cbn [attach_photo mbind res_bind]. intros [= <- _]. discriminate.
Qed.

(** C4.  A search by a caller who is not an administrator and is bound to
    a gender: when the gender of the best-match record differs from the
    caller's, both trimmed and compared without regard to case, the caller
    receives the access-denied result, whose match list is empty and which
    carries no record, whatever other candidates the search found. *)
Theorem run_denies_other_gender
    (B P : path) (fs : list entry) (query g : string)
    (r : search_result) (tr : list path) (p : gmap string value) (mg : string) :
  search_members B P fs query = Ok (r, tr) ->
  parsed r = Some (Some p) ->
  get p "gender" (VStr "") = VStr mg ->
  Py.lower (Py.strip g) ≠ "" ->
  Py.lower (Py.strip mg) ≠ Py.lower (Py.strip g) ->
  SearchWorker.run B P fs query false (Some g) = finished (mkResult [] None true).
Proof.
  intros Hs Hp Hg Hbound Hdiff. unfold SearchWorker.run. rewrite Hs. cbn [fmap res_fmap fst mbind res_bind].
  rewrite Hp. cbn [negb andb].
  pose proof (text_fields_nonempty _ (search_members_text_fields _ _ _ _ _ _ _ Hs Hp)) as Hne.
  cbn [truthy]. rewrite (bool_decide_eq_true_2 _ Hne).
  rewrite Hg. cbn [strip_of fmap res_fmap mbind res_bind].
  assert (Hg' : g ≠ "") by (intros ->; by apply Hbound).
  rewrite (bool_decide_eq_true_2 _ Hg'), (bool_decide_eq_true_2 _ Hbound),
    (bool_decide_eq_true_2 _ Hdiff).
  reflexivity.
Qed.

Lemma run_denies_other_gender_witness :
  SearchWorker.run sample.BASE_FOLDER sample.PHOTOS_FOLDER sample.store "ann" false (Some " male ")
  = finished (mkResult [] None true).
Proof.
  assert (Hx : match search_members sample.BASE_FOLDER sample.PHOTOS_FOLDER sample.store "ann" with
               | Ok (r, _) => match parsed r with
                              | Some (Some p) => Some (get p "gender" (VStr ""))
                              | _ => None
                              end
               | Raise _ => None
               end = Some (VStr "Female")) by (vm_compute; reflexivity).
  destruct (search_members sample.BASE_FOLDER sample.PHOTOS_FOLDER sample.store "ann")
    as [[r tr]|] eqn:Hs; [|discriminate].
  destruct (parsed r) as [[p|]|] eqn:Hp; [|discriminate..].
  apply (run_denies_other_gender _ _ _ _ _ r tr p "Female" Hs Hp).
  - congruence.
  - vm_compute. discriminate.
  - vm_compute. discriminate.
Defined.

(** C10.  A search by a caller who is not an administrator and whose
    gender is absent or empty is not filtered: the caller receives what
    the search returned, best match and candidate locations alike; and
    whatever the caller's gender, a search that produced no best-match
    record is delivered as it is. *)
Theorem run_unfiltered_without_gender
    (B P : path) (fs : list entry) (query : string) (user_gender : option string) :
  user_gender = None \/ user_gender = Some "" ->
  SearchWorker.run B P fs query false user_gender
  = match search_members B P fs query with
    | Ok (r, _) => finished r
    | Raise e => error e
    end /\
  forall g r tr,
    search_members B P fs query = Ok (r, tr) ->
    parsed r = None \/ parsed r = Some None ->
    SearchWorker.run B P fs query false g = finished r.
Proof.
  intros Hg. split.
  - unfold SearchWorker.run. destruct (search_members B P fs query) as [[r tr]|e] eqn:Hs;
      cbn [fmap res_fmap fst mbind res_bind]; [|reflexivity].
    destruct (parsed r) as [[p|]|] eqn:Hp; [|reflexivity..].
    pose proof (search_members_text_fields _ _ _ _ _ _ _ Hs Hp) as Hp'.
    destruct (text_fields_get p "gender" Hp') as [s Hgs];
      [repeat first [apply list_elem_of_here | apply list_elem_of_further]|].
    rewrite Hgs. cbn [negb andb strip_of fmap res_fmap mbind res_bind].
    destruct (truthy (Some p)); [|reflexivity].
    destruct Hg as [-> | ->]; reflexivity.
  - intros g r tr Hs Hp. unfold SearchWorker.run. rewrite Hs. cbn [fmap res_fmap fst mbind res_bind].
    by destruct Hp as [-> | ->].
Qed.

Lemma run_unfiltered_without_gender_witness :
  exists r tr,
    search_members sample.BASE_FOLDER sample.PHOTOS_FOLDER sample.store "ann" = Ok (r, tr) /\
    List.length (matches r) = 2%nat /\
    SearchWorker.run sample.BASE_FOLDER sample.PHOTOS_FOLDER sample.store "ann" false (Some "") = finished r.
Proof.
  assert (Hx : match search_members sample.BASE_FOLDER sample.PHOTOS_FOLDER sample.store "ann" with
               | Ok (r, _) => Some (List.length (matches r))
               | Raise _ => None
               end = Some 2%nat) by (vm_compute; reflexivity).
  destruct (search_members sample.BASE_FOLDER sample.PHOTOS_FOLDER sample.store "ann")
    as [[r tr]|] eqn:Hs; [|discriminate].
  exists r, tr. split; [reflexivity|]. split; [congruence|].
  pose proof (run_unfiltered_without_gender sample.BASE_FOLDER sample.PHOTOS_FOLDER
                sample.store "ann" (Some "") (or_intror eq_refl)) as [H _].
  rewrite Hs in H. exact H.
Defined.

(** ** Facts about the string primitives *)

(** [String.append] is kept folded by [simpl] and [cbn]. *)
Lemma append_cons c (a b : string) : String c a +:+ b = String c (a +:+ b).
Proof. reflexivity. Qed.

Lemma append_nil_l (b : string) : "" +:+ b = b.
Proof. reflexivity. Qed.

Lemma all_chars_app P a b :
  all_chars P (a +:+ b) = all_chars P a && all_chars P b.
Proof. induction a as [|c a IH]; [reflexivity|]. rewrite append_cons. cbn. by rewrite IH, andb_assoc. Qed.

Lemma all_chars_impl (P Q : ascii -> bool) s :
  (forall c, P c = true -> Q c = true) -> all_chars P s = true -> all_chars Q s = true.
Proof.
  intros H. induction s as [|c s IH]; [done|]. cbn.
  intros [Hc Hs]%andb_prop. by rewrite (H c Hc), (IH Hs).
Qed.

Lemma is_numeric_facts c :
  is_numeric c = true ->
  not_linebreak c = true /\ not_space c = true /\ not_char ":" c = true /\
  not_char "/" c = true /\ not_char "_" c = true.
Proof. destruct c as [[] [] [] [] [] [] [] []]; cbv; intros; try discriminate; done. Qed.

Lemma append_assoc (a b c : string) : (a +:+ b) +:+ c = a +:+ (b +:+ c).
Proof. induction a as [|x a IH]; [reflexivity|]. rewrite !append_cons. by rewrite IH. Qed.

Lemma append_nil_r (a : string) : a +:+ "" = a.
Proof. induction a as [|x a IH]; [reflexivity|]. rewrite append_cons. by rewrite IH. Qed.

(** *** [split] *)

Lemma split_no_sep sep s :
  all_chars (not_char sep) s = true -> Py.split sep s = [s].
Proof.
  induction s as [|c s IH]; [reflexivity|]. cbn.
  intros [Hc Hs]%andb_prop. unfold not_char in Hc.
  destruct (Ascii.eqb c sep); [discriminate|]. by rewrite (IH Hs).
Qed.

Lemma split_app_sep sep a b :
  all_chars (not_char sep) a = true ->
  Py.split sep (a +:+ String sep b) = a :: Py.split sep b.
Proof.
  induction a as [|c a IH]; rewrite ?append_cons, ?append_nil_l; cbn.
  - intros _. by rewrite Ascii.eqb_refl.
  - intros [Hc Hs]%andb_prop. unfold not_char in Hc.
    destruct (Ascii.eqb c sep); [discriminate|]. by rewrite (IH Hs).
Qed.

(** *** [strip] *)

Lemma rstrip_app a b :
  b ≠ "" -> Py.rstrip b = b -> Py.rstrip (a +:+ b) = a +:+ b.
Proof.
  intros Hb Hr. induction a as [|c a IH]; [exact Hr|].
  rewrite append_cons. cbn. rewrite IH. destruct (a +:+ b) eqn:E; [|reflexivity].
  destruct a; [rewrite append_nil_l in E; congruence|discriminate].
Qed.

Lemma rstrip_numeric s :
  all_chars is_numeric s = true -> Py.rstrip s = s.
Proof.
  induction s as [|c s IH]; [reflexivity|]. cbn.
  intros [Hc Hs]%andb_prop. rewrite (IH Hs).
  destruct (is_numeric_facts c Hc) as (_ & Hsp & _). unfold not_space in Hsp.
  destruct s; [|reflexivity]. by destruct (Py.is_space c).
Qed.

Lemma lstrip_numeric s :
  all_chars is_numeric s = true -> Py.lstrip s = s.
Proof.
  destruct s as [|c s]; [reflexivity|]. cbn.
  intros [Hc Hs]%andb_prop.
  destruct (is_numeric_facts c Hc) as (_ & Hsp & _). unfold not_space in Hsp.
  by destruct (Py.is_space c).
Qed.

Lemma lstrip_app_numeric a b :
  a ≠ "" -> all_chars is_numeric a = true -> Py.lstrip (a +:+ b) = a +:+ b.
Proof.
  destruct a as [|c a]; [done|]. intros _. rewrite append_cons. cbn.
  intros [Hc Hs]%andb_prop.
  destruct (is_numeric_facts c Hc) as (_ & Hsp & _). unfold not_space in Hsp.
  by destruct (Py.is_space c).
Qed.

(** *** [splitlines] *)

Lemma splitlines_from_no_break cur s :
  all_chars not_linebreak s = true ->
  Py.splitlines_from cur s
  = match cur +:+ s with EmptyString => [] | l => [l] end.
Proof.
  revert cur. induction s as [|c s IH]; intros cur; cbn.
  - intros _. rewrite append_nil_r. by destruct cur.
  - intros [Hc Hs]%andb_prop. unfold not_linebreak in Hc.
    destruct (Py.is_linebreak c); [discriminate|].
    rewrite (IH _ Hs), append_assoc. reflexivity.
Qed.

Lemma splitlines_from_line cur s rest :
  all_chars not_linebreak s = true ->
  Py.splitlines_from cur (s +:+ newline +:+ rest)
  = (cur +:+ s) :: Py.splitlines_from "" rest.
Proof.
  revert cur. induction s as [|c s IH]; intros cur.
  - intros _. rewrite append_nil_r, append_nil_l. unfold newline.
    rewrite append_cons, append_nil_l. cbn. by destruct rest.
  - cbn [all_chars]. intros [Hc Hs]%andb_prop. unfold not_linebreak in Hc.
    rewrite append_cons. cbn [Py.splitlines_from].
    destruct (Py.is_linebreak c); [discriminate|].
    rewrite (IH _ Hs), append_assoc. reflexivity.
Qed.

Lemma splitlines_join lines :
  Forall (fun l => l ≠ "" /\ all_chars not_linebreak l = true) lines ->
  Py.splitlines (Py.join newline lines) = lines.
Proof.
  unfold Py.splitlines.
  induction lines as [|x lines IH]; [reflexivity|].
  intros Hall. apply Forall_cons in Hall as [[Hx Hbx] Hall].
  destruct lines as [|y lines].
  - cbn [Py.join]. rewrite (splitlines_from_no_break _ _ Hbx). cbn.
    by destruct x.
  - change (Py.join newline (x :: y :: lines))
      with (x +:+ newline +:+ Py.join newline (y :: lines)).
    rewrite (splitlines_from_line _ _ _ Hbx), append_nil_l.
    by rewrite (IH Hall).
Qed.

(** ** Integers written and read back *)

Lemma string_of_uint_digits u : all_chars is_digit (NilEmpty.string_of_uint u) = true.
Proof. induction u; cbn; by rewrite ?IHu. Qed.

Lemma string_of_uint_nonempty u : u ≠ Decimal.Nil -> NilEmpty.string_of_uint u ≠ "".
Proof. by destruct u. Qed.

Lemma int_digits_string_of_uint u b :
  u ≠ Decimal.Nil \/ b = true ->
  Py.int_digits b (NilEmpty.string_of_uint u) = Some u.
Proof.
  revert b. induction u; intros b Hb;
    try (cbn; rewrite IHu; [reflexivity|by right]).
  destruct Hb as [Hb| ->]; [done|reflexivity].
Qed.

Lemma digit_numeric c : is_digit c = true -> is_numeric c = true.
Proof. unfold is_numeric. by intros ->. Qed.

Lemma str_of_int_numeric n :
  Py.str_of_int n ≠ "" /\ all_chars is_numeric (Py.str_of_int n) = true.
Proof.
  destruct n as [|p|p]; cbn [Py.str_of_int].
  - done.
  - split; [apply string_of_uint_nonempty, DecimalPos.Unsigned.to_uint_nonnil|].
    eapply all_chars_impl; [apply digit_numeric|apply string_of_uint_digits].
  - split; [done|]. cbn [all_chars]. rewrite andb_true_iff. split; [reflexivity|].
    eapply all_chars_impl; [apply digit_numeric|apply string_of_uint_digits].
Qed.

Lemma fmt_02d_numeric n :
  Py.fmt_02d n ≠ "" /\ all_chars is_numeric (Py.fmt_02d n) = true.
Proof.
  unfold Py.fmt_02d. destruct ((0 <=? n) && (n <? 10)); [|apply str_of_int_numeric].
  split; [done|]. cbn [all_chars]. rewrite andb_true_iff. split; [reflexivity|].
  apply str_of_int_numeric.
Qed.

Lemma strip_numeric s : all_chars is_numeric s = true -> Py.strip s = s.
Proof. intros H. unfold Py.strip. by rewrite (lstrip_numeric _ H), (rstrip_numeric _ H). Qed.

(** A string of digits opens with neither sign. *)
Lemma digits_head u c t :
  NilEmpty.string_of_uint u = String c t ->
  Ascii.eqb c "-" = false /\ Ascii.eqb c "+" = false.
Proof. destruct u; cbn; intros [= <- _]; done. Qed.

Lemma int_of_str_unsigned u :
  u ≠ Decimal.Nil ->
  Py.int_of_str (NilEmpty.string_of_uint u) = Ok (Z.of_N (N.of_uint u)).
Proof.
  intros Hu. unfold Py.int_of_str.
  rewrite strip_numeric
    by (eapply all_chars_impl; [apply digit_numeric|apply string_of_uint_digits]).
  pose proof (int_digits_string_of_uint u false (or_introl Hu)) as Hd.
  destruct (NilEmpty.string_of_uint u) as [|c t] eqn:E.
  - by apply string_of_uint_nonempty in E.
  - destruct (digits_head _ _ _ E) as [-> ->]. rewrite Hd. f_equal. lia.
Qed.

Lemma int_of_str_str_of_int n : Py.int_of_str (Py.str_of_int n) = Ok n.
Proof.
  destruct n as [|p|p]; cbn [Py.str_of_int].
  - reflexivity.
  - rewrite int_of_str_unsigned by apply DecimalPos.Unsigned.to_uint_nonnil.
    unfold N.of_uint. by rewrite DecimalPos.Unsigned.of_to.
  - unfold Py.int_of_str.
    assert (Hs : all_chars is_numeric (String "-" (NilEmpty.string_of_uint (Pos.to_uint p))) = true).
    { cbn [all_chars]. rewrite andb_true_iff. split; [reflexivity|].
      eapply all_chars_impl; [apply digit_numeric|apply string_of_uint_digits]. }
    rewrite (strip_numeric _ Hs).
    rewrite int_digits_string_of_uint by (left; apply DecimalPos.Unsigned.to_uint_nonnil).
    unfold N.of_uint. rewrite DecimalPos.Unsigned.of_to. reflexivity.
Qed.

Lemma int_of_str_fmt_02d n : Py.int_of_str (Py.fmt_02d n) = Ok n.
Proof.
  unfold Py.fmt_02d. destruct ((0 <=? n) && (n <? 10)) eqn:E; [|apply int_of_str_str_of_int].
  apply andb_prop in E as [H0 H10]. apply Z.leb_le in H0. apply Z.ltb_lt in H10.
  split_range n 0; reflexivity.
Qed.

(** *** The first word of a line *)

Lemma split_ws_from_word cur s rest :
  all_chars not_space s = true ->
  Py.split_ws_from (Some cur) (s +:+ String " " rest)
  = (cur +:+ s) :: Py.split_ws_from None rest.
Proof.
  revert cur. induction s as [|c s IH]; intros cur.
  - intros _. by rewrite append_nil_l, append_nil_r.
  - cbn [all_chars]. intros [Hc Hs]%andb_prop. unfold not_space in Hc.
    rewrite append_cons. cbn [Py.split_ws_from].
    destruct (Py.is_space c); [discriminate|].
    rewrite (IH _ Hs), append_assoc. reflexivity.
Qed.

Lemma split_ws_first s rest :
  s ≠ "" -> all_chars not_space s = true ->
  exists ws, Py.split_ws (s +:+ String " " rest) = s :: ws.
Proof.
  destruct s as [|c s]; [done|]. intros _. cbn [all_chars].
  intros [Hc Hs]%andb_prop. unfold not_space in Hc.
  unfold Py.split_ws. rewrite append_cons. cbn [Py.split_ws_from].
  destruct (Py.is_space c); [discriminate|].
  rewrite (split_ws_from_word _ _ _ Hs). by eexists.
Qed.

(** ** Encoding then decoding *)

Lemma prefix_label (k l rest : string) :
  all_chars (not_char ":") k = true -> all_chars (not_char ":") l = true ->
  String.prefix (k +:+ ":") (l +:+ String ":" rest) = String.eqb k l.
Proof.
  revert l. induction k as [|c k IH]; intros [|c' l]; rewrite ?append_cons, ?append_nil_l;
    cbn [all_chars String.prefix String.eqb]; unfold not_char.
  - intros _ _. destruct (ascii_dec ":" ":"); [by destruct rest|done].
  - intros _ [Hc _]%andb_prop. destruct (ascii_dec ":" c') as [<-|]; [discriminate|reflexivity].
  - intros [Hc _]%andb_prop _. destruct (ascii_dec c ":") as [->|]; [discriminate|reflexivity].
  - intros [_ Hk]%andb_prop [_ Hl]%andb_prop.
    destruct (ascii_dec c c') as [<-|Hne].
    + rewrite Ascii.eqb_refl. by apply IH.
    + apply Ascii.eqb_neq in Hne. by rewrite Hne.
Qed.

Lemma lower_app a b : Py.lower (a +:+ b) = Py.lower a +:+ Py.lower b.
Proof. induction a as [|c a IH]; [reflexivity|]. rewrite append_cons. cbn. by rewrite IH. Qed.

Lemma lower_labelled label v :
  Py.lower (labelled label v) = Py.lower label +:+ String ":" (Py.lower (String " " v)).
Proof. unfold labelled. by rewrite lower_app. Qed.

Lemma split1_app_sep sep a b :
  all_chars (not_char sep) a = true ->
  Py.split1 sep (a +:+ String sep b) = [a; b].
Proof.
  induction a as [|c a IH]; rewrite ?append_cons, ?append_nil_l; cbn.
  - intros _. by rewrite Ascii.eqb_refl.
  - intros [Hc Hs]%andb_prop. unfold not_char in Hc.
    destruct (Ascii.eqb c sep); [discriminate|]. by rewrite (IH Hs).
Qed.

Lemma strip_after_space v : Py.strip (String " " v) = Py.strip v.
Proof. reflexivity. Qed.

(** Decides the closed tests on labels left in the goal. *)
Ltac decide_labels :=
  repeat match goal with
         | |- context [String.eqb ?a ?b] =>
             let r := eval vm_compute in (String.eqb a b) in
             change (String.eqb a b) with r
         end.

Ltac labelled_step :=
  first
    [ rewrite prefix_label by (vm_compute; reflexivity)
    | progress decide_labels
    | progress cbn [mbind res_bind catch] ].

Ltac labelled_line :=
  unfold parse_line, parse_standard, standard_fields, Py.startswith;
  cbn [foldl mbind res_bind];
  rewrite ?lower_labelled; unfold labelled;
  change "Package:" with ("Package" +:+ ":");
  change "Join Date:" with ("Join Date" +:+ ":");
  change "Membership:" with ("Membership" +:+ ":");
  change "End Date:" with ("End Date" +:+ ":");
  change "Status:" with ("Status" +:+ ":");
  repeat labelled_step.

Lemma set_str_labelled key label v d :
  all_chars (not_char ":") label = true ->
  set_str key (label +:+ String ":" (String " " v)) d = Ok (<[key := VStr (Py.strip v)]> d).
Proof.
  intros Hl. unfold set_str. rewrite (split1_app_sep _ _ _ Hl).
  cbn [Py.index lookup list_lookup mbind res_bind]. reflexivity.
Qed.

Ltac text_line :=
  labelled_line;
  rewrite set_str_labelled by (vm_compute; reflexivity);
  repeat labelled_step; reflexivity.

Lemma parse_line_id d v :
  parse_line d (labelled "Id" v) = Ok (<["id" := VStr (Py.strip v)]> d).
Proof. text_line. Qed.

Lemma parse_line_name d v :
  parse_line d (labelled "Name" v) = Ok (<["name" := VStr (Py.strip v)]> d).
Proof. text_line. Qed.

Lemma parse_line_phone d v :
  parse_line d (labelled "Phone" v) = Ok (<["phone" := VStr (Py.strip v)]> d).
Proof. text_line. Qed.

Lemma parse_line_blood d v :
  parse_line d (labelled "Blood" v) = Ok (<["blood" := VStr (Py.strip v)]> d).
Proof. text_line. Qed.

Lemma parse_line_gender d v :
  parse_line d (labelled "Gender" v) = Ok (<["gender" := VStr (Py.strip v)]> d).
Proof. text_line. Qed.

Lemma parse_line_cnic d v :
  parse_line d (labelled "Cnic" v) = Ok (<["cnic" := VStr (Py.strip v)]> d).
Proof. text_line. Qed.

Lemma parse_line_package d v :
  parse_line d (labelled "Package" v) = Ok (<["package" := VStr (Py.strip v)]> d).
Proof. text_line. Qed.

Lemma parse_line_end_date d v :
  parse_line d (labelled "End Date" v) = Ok (<["end_date" := VStr (Py.strip v)]> d).
Proof. text_line. Qed.

Lemma parse_line_status d v :
  parse_line d (labelled "Status" v) = Ok (<["status" := VStr (Py.strip v)]> d).
Proof. text_line. Qed.

Lemma numeric_no_char s :
  all_chars is_numeric s = true ->
  all_chars (not_char ":") s = true /\ all_chars (not_char "/") s = true /\
  all_chars not_space s = true /\ all_chars not_linebreak s = true.
Proof.
  intros H. repeat split; (eapply all_chars_impl; [|exact H]);
    intros c Hc; by destruct (is_numeric_facts c Hc) as (? & ? & ? & ? & ?).
Qed.

Lemma date_text_facts dd mm yy :
  all_chars (not_char ":") (date_text dd mm yy) = true /\
  all_chars not_linebreak (date_text dd mm yy) = true /\
  Py.strip (date_text dd mm yy) = date_text dd mm yy /\
  Py.split "/" (date_text dd mm yy) = [Py.fmt_02d dd; Py.fmt_02d mm; Py.str_of_int yy].
Proof.
  destruct (fmt_02d_numeric dd) as [Hd0 Hd], (fmt_02d_numeric mm) as [Hm0 Hm],
    (str_of_int_numeric yy) as [Hy0 Hy].
  destruct (numeric_no_char _ Hd) as (Hd1 & Hd2 & Hd3 & Hd4),
    (numeric_no_char _ Hm) as (Hm1 & Hm2 & Hm3 & Hm4),
    (numeric_no_char _ Hy) as (Hy1 & Hy2 & Hy3 & Hy4).
  unfold date_text. repeat split.
  - rewrite !all_chars_app. cbn [all_chars]. rewrite !all_chars_app. cbn [all_chars].
    by rewrite Hd1, Hm1, Hy1.
  - rewrite !all_chars_app. cbn [all_chars]. rewrite !all_chars_app. cbn [all_chars].
    by rewrite Hd4, Hm4, Hy4.
  - unfold Py.strip. rewrite (lstrip_app_numeric _ _ Hd0 Hd).
    change (String "/" (Py.fmt_02d mm +:+ String "/" (Py.str_of_int yy)))
      with ("/" +:+ (Py.fmt_02d mm +:+ ("/" +:+ Py.str_of_int yy))).
    rewrite <- !append_assoc.
    apply rstrip_app; [exact Hy0|by apply rstrip_numeric].
  - rewrite (split_app_sep _ _ _ Hd2), (split_app_sep _ _ _ Hm2), (split_no_sep _ _ Hy2).
    reflexivity.
Qed.

Lemma parse_join_date_written d dd mm yy :
  parse_join_date (labelled "Join Date" (date_text dd mm yy)) d
  = Ok (<["year" := VInt yy]> (<["month" := VInt mm]> (<["day" := VInt dd]> d))).
Proof.
  destruct (date_text_facts dd mm yy) as (Hc & _ & Hs & Hsp).
  unfold parse_join_date, labelled.
  rewrite split_app_sep by reflexivity.
  rewrite split_no_sep by (cbn [all_chars]; by rewrite Hc).
  cbn [Py.index lookup list_lookup mbind res_bind].
  rewrite strip_after_space, Hs, Hsp.
  cbn [Py.index lookup list_lookup mbind res_bind].
  rewrite !int_of_str_fmt_02d, int_of_str_str_of_int.
  reflexivity.
Qed.

Lemma parse_line_join_date d dd mm yy :
  parse_line d (labelled "Join Date" (date_text dd mm yy))
  = Ok (<["year" := VInt yy]> (<["month" := VInt mm]> (<["day" := VInt dd]> d))).
Proof.
  pose proof (parse_join_date_written d dd mm yy) as Hj. unfold labelled in Hj.
  labelled_line. rewrite Hj. repeat labelled_step. reflexivity.
Qed.

Lemma months_text_facts n :
  all_chars (not_char ":") (months_text n) = true /\
  all_chars not_linebreak (months_text n) = true /\
  Py.strip (months_text n) = months_text n /\
  exists ws, Py.split_ws (months_text n) = Py.str_of_int n :: ws.
Proof.
  destruct (str_of_int_numeric n) as [Hn0 Hn].
  destruct (numeric_no_char _ Hn) as (Hn1 & Hn2 & Hn3 & Hn4).
  unfold months_text. repeat split.
  - rewrite all_chars_app, Hn1. reflexivity.
  - rewrite all_chars_app, Hn4. reflexivity.
  - unfold Py.strip. rewrite (lstrip_app_numeric _ _ Hn0 Hn).
    apply rstrip_app; [done|reflexivity].
  - by apply split_ws_first.
Qed.

Lemma parse_membership_written d n :
  parse_membership (labelled "Membership" (months_text n)) d
  = Ok (<["membership_months" := VInt n]> d).
Proof.
  destruct (months_text_facts n) as (Hc & _ & Hs & ws & Hw).
  unfold parse_membership, labelled.
  rewrite split_app_sep by reflexivity.
  rewrite split_no_sep by (cbn [all_chars]; by rewrite Hc).
  cbn [Py.index lookup list_lookup mbind res_bind].
  rewrite strip_after_space, Hs, Hw.
  cbn [Py.index lookup list_lookup mbind res_bind].
  rewrite int_of_str_str_of_int. reflexivity.
Qed.

Lemma parse_line_membership d n :
  parse_line d (labelled "Membership" (months_text n))
  = Ok (<["membership_months" := VInt n]> d).
Proof.
  pose proof (parse_membership_written d n) as Hm. unfold labelled in Hm.
  labelled_line. rewrite Hm. repeat labelled_step. reflexivity.
Qed.

(** The lines that carry no field. *)
Lemma parse_line_header d x :
  parse_line d (flexed_biceps +:+ x) = Ok d.
Proof. vm_compute. reflexivity. Qed.

Lemma parse_line_creator d : parse_line d "Created by: Sayyam Shahbaz" = Ok d.
Proof. vm_compute. reflexivity. Qed.

Lemma parse_line_linkedin d :
  parse_line d "LinkedIn: https://www.linkedin.com/in/sayyam-shahbaz-05894a194/" = Ok d.
Proof. vm_compute. reflexivity. Qed.

Lemma parse_line_instagram d :
  parse_line d "Instagram: https://www.instagram.com/safderkhan0800_/" = Ok d.
Proof. vm_compute. reflexivity. Qed.

Lemma card_lines_member m e :
  end_date m = Some e -> card_lines (member_dict m) = Ok (card_of m e).
Proof.
  intros He. unfold card_lines, member_dict. rewrite He.
  reflexivity.
Qed.

Lemma labelled_line_ok label v :
  all_chars not_linebreak label = true -> all_chars not_linebreak v = true ->
  labelled label v ≠ "" /\ all_chars not_linebreak (labelled label v) = true.
Proof.
  intros Hl Hv. unfold labelled. split.
  - destruct label; discriminate.
  - rewrite all_chars_app, Hl. cbn [all_chars]. by rewrite Hv.
Qed.

Lemma card_of_lines_ok m e :
  Forall (fun v => all_chars not_linebreak v = true) (text_values m) ->
  end_date m = Some e ->
  Forall (fun l => l ≠ "" /\ all_chars not_linebreak l = true) (card_of m e).
Proof.
  unfold text_values. intros Hall He. rewrite He in Hall.
  repeat (apply Forall_cons in Hall as [? Hall]).
  destruct (date_text_facts (day m) (month m) (year m)) as (_ & Hd & _).
  destruct (months_text_facts (membership_months m)) as (_ & Hm & _).
  unfold card_of.
  repeat (apply Forall_cons; split); try apply Forall_nil;
    try (apply labelled_line_ok; [reflexivity|assumption]);
    try (split; [discriminate|reflexivity]); try exact I.
  split; [discriminate|]. rewrite !all_chars_app.
  repeat (apply andb_true_intro; split); done.
Qed.

(** C2, as the code has it.  For every member record whose text fields
    are non-empty, contain no colon and no line break, and neither start
    nor end with white space, decoding the document that encodes the
    record gives back every field of the defined field set: id, name,
    phone, blood, gender, cnic, the day, month and year of the join date,
    the membership months, package, end date and status. *)
Theorem decode_encode_roundtrip (m : Member) (stem : string) :
  is_Some (end_date m) -> Forall clean (text_values m) -> roundtrips m stem.
Proof.
  intros [e He] Hclean.
  assert (Hbreak : Forall (fun v => all_chars not_linebreak v = true) (text_values m)).
  { eapply Forall_impl; [exact Hclean|]. by intros v (_ & ? & _). }
  assert (Hstrip : Forall (fun v => Py.strip v = v) (text_values m)).
  { eapply Forall_impl; [exact Hclean|]. by intros v (_ & _ & ?). }
  assert (Hid : id m ≠ "").
  { apply Forall_inv in Hclean. by destruct Hclean as ((? & _) & _). }
  pose proof (card_of_lines_ok m e Hbreak He) as Hlines.
  unfold text_values in Hstrip. rewrite He in Hstrip.
  repeat (apply Forall_cons in Hstrip as [? Hstrip]).
  exists (card_of m e).
  eexists. split; [by apply card_lines_member|].
  unfold parse_text, extract_text.
  change (String (ascii_of_N 10) "") with newline.
  rewrite (splitlines_join _ Hlines). unfold card_of.
  cbn [parse_lines].
  rewrite parse_line_header. cbn [mbind res_bind].
  rewrite parse_line_id. cbn [mbind res_bind].
  rewrite parse_line_name. cbn [mbind res_bind].
  rewrite parse_line_phone. cbn [mbind res_bind].
  rewrite parse_line_blood. cbn [mbind res_bind].
  rewrite parse_line_gender. cbn [mbind res_bind].
  rewrite parse_line_cnic. cbn [mbind res_bind].
  rewrite parse_line_join_date. cbn [mbind res_bind].
  rewrite parse_line_membership. cbn [mbind res_bind].
  rewrite parse_line_package. cbn [mbind res_bind].
  rewrite parse_line_end_date. cbn [mbind res_bind].
  rewrite parse_line_status. cbn [mbind res_bind].
  rewrite parse_line_creator. cbn [mbind res_bind].
  rewrite parse_line_linkedin. cbn [mbind res_bind].
  rewrite parse_line_instagram. cbn [mbind res_bind].
  repeat match goal with H : Py.strip ?v = ?v |- _ => rewrite H; clear H end.
  match goal with |- context [falsy (?d0 !! "id")] => set (d := d0) end.
  assert (Hl : d !! "id" = Some (VStr (id m))) by reflexivity.
  assert (Hf : falsy (Some (VStr (id m))) = false).
  { cbn [falsy]. by destruct (id m). }
  rewrite Hl, Hf. split; [reflexivity|]. rewrite He.
  repeat split; reflexivity.
Qed.

Lemma decode_encode_roundtrip_witness : roundtrips sample.ann "M1".
Proof.
  apply decode_encode_roundtrip.
  - by eexists.
  - unfold text_values, clean, plain; cbn.
    repeat (apply Forall_cons; split); try apply Forall_nil;
      repeat split; try discriminate; reflexivity.
Defined.

(** C2 as stated fails for a value that starts or ends with white space:
    such a value is non-empty and free of colons, and decoding trims it. *)
Lemma roundtrip_trims_spaces :
  ~ (forall (m : Member) (stem : string),
       is_Some (end_date m) -> Forall plain (text_values m) -> roundtrips m stem).
Proof.
  intros H.
  destruct (H sample.padded "M1") as (lines & d & Hc & Hp & _ & Hname & _).
  - by eexists.
  - unfold text_values, plain; cbn.
    repeat (apply Forall_cons; split); try apply Forall_nil;
      repeat split; try discriminate; reflexivity.
  - assert (El : match card_lines (member_dict sample.padded) with
                 | Ok l => l
                 | Raise _ => []
                 end = lines) by (by rewrite Hc).
    assert (Hx : match parse_text "M1"
                         (extract_text match card_lines (member_dict sample.padded) with
                                       | Ok l => l
                                       | Raise _ => []
                                       end) with
                 | Ok d => d !! "name"
                 | Raise _ => None
                 end = Some (VStr "Ann Lee")) by (vm_compute; reflexivity).
    rewrite El, Hp, Hname in Hx. discriminate.
Qed.

(** ** Listing by status *)

(** C1 is not what [get_members_by_status] does.  In the store below the
    newest document of member M3 says Banned and an older one says
    Active; the listing for Active still shows M3, from the older
    document: the status test runs before the newest document per id is
    chosen, so the choice is made among the documents of that status
    only. *)
Theorem get_members_by_status_lists_superseded :
  match get_member_by_id sample.BASE_FOLDER sample.PHOTOS_FOLDER sample.readmitted "M3" with
  | Ok (Some d) => d !! "status"
  | _ => None
  end = Some (VStr "Banned") /\
  get_members_by_status sample.BASE_FOLDER sample.readmitted "Active"
  = Ok ("M3 " +:+ em_dash +:+ " Cy Orr " +:+ em_dash +:+ " Status: Active") /\
  get_members_by_status sample.BASE_FOLDER sample.readmitted "Banned"
  = Ok ("M3 " +:+ em_dash +:+ " Cy Orr " +:+ em_dash +:+ " Status: Banned").
Proof. repeat split; vm_compute; reflexivity. Qed.

(** ** Status update of a record without a join date *)

Lemma get_member_by_id_text_fields B P fs member_id d :
  get_member_by_id B P fs member_id = Ok (Some d) -> text_fields_ok d.
Proof.
  unfold get_member_by_id.
  destruct (max_mtime _) as [latest|]; [|discriminate].
  destruct (parse_member_from_pdf latest) as [[d0|]|] eqn:E; cbn [mbind res_bind];
    [|discriminate..].
  apply text_fields_parse_member in E. intros Ha.
  destruct (attach_photo_text_fields _ _ _ _ E Ha) as (d' & [= <-] & Hd'). exact Hd'.
Qed.

(** Whenever the newest document of a member decodes without a day, the
    status update stops with [TypeError] at [int(None)]; nothing is
    written. *)
Lemma update_member_status_without_day B P now fs member_id new_status d :
  get_member_by_id B P fs member_id = Ok (Some d) ->
  d !! "day" = Some VNone ->
  update_member_status B P now fs member_id new_status = Raise TypeError.
Proof.
  intros Hget Hday. unfold update_member_status. rewrite Hget. cbn [mbind res_bind].
  pose proof (get_member_by_id_text_fields _ _ _ _ _ Hget) as Htf.
  cbn [truthy]. rewrite (bool_decide_eq_true_2 _ (text_fields_nonempty _ Htf)).
  assert (Hk : forall k, k ∈ text_fields -> exists s, d !! k = Some (VStr s)) by exact Htf.
  destruct (Hk "id") as [s1 H1]; [repeat first [apply list_elem_of_here | apply list_elem_of_further]|].
  destruct (Hk "name") as [s2 H2]; [repeat first [apply list_elem_of_here | apply list_elem_of_further]|].
  destruct (Hk "phone") as [s3 H3]; [repeat first [apply list_elem_of_here | apply list_elem_of_further]|].
  destruct (Hk "blood") as [s4 H4]; [repeat first [apply list_elem_of_here | apply list_elem_of_further]|].
  destruct (Hk "gender") as [s5 H5]; [repeat first [apply list_elem_of_here | apply list_elem_of_further]|].
  destruct (Hk "cnic") as [s6 H6]; [repeat first [apply list_elem_of_here | apply list_elem_of_further]|].
  unfold getitem, get. rewrite H1, H2, H3, H4, H5, H6, Hday.
  reflexivity.
Qed.

(** C9.  There is a stored record whose newest document has no join-date
    line: it decodes, with day, month and year absent; it is listed, by
    the pending listing and by the listing by status; and for every new
    status the status update raises [TypeError] (from [int(None)])
    instead of rewriting the record. *)
Theorem update_member_status_raises_without_join_date :
  exists (fs : list entry) (member_id : string) (d : gmap string value),
    (forall e lines, e ∈ fs -> e_kind e = File (Pdf lines) ->
       Forall (fun ln => Py.startswith ln "Join Date:" = false) lines) /\
    get_member_by_id sample.BASE_FOLDER sample.PHOTOS_FOLDER fs member_id = Ok (Some d) /\
    d !! "day" = Some VNone /\ d !! "month" = Some VNone /\ d !! "year" = Some VNone /\
    (forall now new_status,
       update_member_status sample.BASE_FOLDER sample.PHOTOS_FOLDER now fs member_id new_status
       = Raise TypeError) /\
    s_id <$> get_pending_members sample.BASE_FOLDER fs = [member_id] /\
    get_members_by_status sample.BASE_FOLDER fs "Pending"
    = Ok ("M9 " +:+ em_dash +:+ " Zed Kay " +:+ em_dash +:+ " Status: Pending").
Proof.
  assert (Hx : match get_member_by_id sample.BASE_FOLDER sample.PHOTOS_FOLDER sample.undated "M9" with
               | Ok (Some d) => (d !! "day", d !! "month", d !! "year")
               | _ => (None, None, None)
               end = (Some VNone, Some VNone, Some VNone)) by (vm_compute; reflexivity).
  destruct (get_member_by_id sample.BASE_FOLDER sample.PHOTOS_FOLDER sample.undated "M9")
    as [[d|]|] eqn:Hget; [|discriminate..].
  injection Hx as Hd Hm Hy.
  exists sample.undated, "M9", d.
  split.
  { intros e lines He Hk. unfold sample.undated, sample.folders in He. cbn [app] in He.
    repeat (apply elem_of_cons in He as [->|He]; [cbn in Hk; try discriminate Hk|]).
    - injection Hk as <-. repeat (apply Forall_cons; split; [reflexivity|]). constructor.
    - inversion He. }
  split; [exact Hget|]. split; [exact Hd|]. split; [exact Hm|]. split; [exact Hy|].
  split; [|split].
  - intros now new_status. by eapply update_member_status_without_day.
  - vm_compute. reflexivity.
  - vm_compute. reflexivity.
Qed.

(** ** Search: the two passes and the best match *)

Lemma max_mtime_from_spec l : forall best,
  (max_mtime_from best l = best \/ max_mtime_from best l ∈ l) /\
  st_mtime best <= st_mtime (max_mtime_from best l) /\
  forall c, c ∈ l -> st_mtime c <= st_mtime (max_mtime_from best l).
Proof.
  induction l as [|e l IH]; intros best; cbn [max_mtime_from].
  - split; [by left|]. split; [lia|]. intros c Hc. inversion Hc.
  - destruct (IH (if st_mtime best <? st_mtime e then e else best)) as (Hin & Hge & Hall).
    destruct (st_mtime best <? st_mtime e) eqn:E.
    + apply Z.ltb_lt in E. split; [|split].
      * right. destruct Hin as [-> | Hin]; [apply list_elem_of_here|by apply list_elem_of_further].
      * lia.
      * intros c [-> | Hc]%elem_of_cons; [exact Hge|by apply Hall].
    + apply Z.ltb_ge in E. split; [|split].
      * destruct Hin as [Hin | Hin]; [by left|right; by apply list_elem_of_further].
      * exact Hge.
      * intros c [-> | Hc]%elem_of_cons; [lia|by apply Hall].
Qed.

Lemma max_mtime_spec l :
  match max_mtime l with
  | None => l = []
  | Some latest => latest ∈ l /\ forall c, c ∈ l -> st_mtime c <= st_mtime latest
  end.
Proof.
  destruct l as [|e l]; [reflexivity|]. cbn [max_mtime].
  destruct (max_mtime_from_spec l e) as (Hin & Hge & Hall). split.
  - destruct Hin as [-> | Hin]; [apply list_elem_of_here|by apply list_elem_of_further].
  - intros c [-> | Hc]%elem_of_cons; [exact Hge|by apply Hall].
Qed.

(** With the photo folder a directory, or absent, looking a photo up
    cannot fail. *)
Lemma find_photo_ok P fs s :
  is_dir fs P = true \/ exists_ fs P = false ->
  exists o, find_photo P fs (VStr s) = Ok o.
Proof.
  intros HP. unfold find_photo.
  destruct (exists_ fs P) eqn:Ex; cbn [negb]; [|by eexists].
  destruct HP as [HP|HP]; [|discriminate].
  destruct (first_existing _ _); [by eexists|].
  cbn [strip_of fmap res_fmap mbind res_bind]. rewrite HP. by eexists.
Qed.

Lemma attach_photo_ok P fs o :
  is_dir fs P = true \/ exists_ fs P = false ->
  (forall d, o = Some d -> text_fields_ok d) ->
  exists r, attach_photo P fs o = Ok r.
Proof.
  intros HP Ho. destruct o as [d|]; [|by eexists]. unfold attach_photo.
  destruct (truthy (Some d)); [|by eexists].
  destruct (text_fields_get d "id" (Ho d eq_refl)) as [s Hs]; [apply list_elem_of_here|].
  rewrite Hs. destruct (find_photo_ok P fs s HP) as [[p|] ->]; cbn [mbind res_bind].
  - destruct (bool_decide _); by eexists.
  - by eexists.
Qed.

(** C3.  With the photo folder a directory or absent, [search_members]
    returns.  Its candidates are those of the filename pass when that
    pass found any, and those of the content pass otherwise; documents
    are decoded to build the list only in the second case.  When there
    are candidates, the record returned is decoded from a candidate whose
    modification time no other candidate exceeds, that decoding is the
    only one made after the passes, and the locations of all candidates
    are returned with it; when there are none the result has no match. *)
Theorem search_members_passes_and_best
    (B P : path) (fs : list entry) (query : string) :
  is_dir fs P = true \/ exists_ fs P = false ->
  exists r tr,
    search_members B P fs query = Ok (r, tr) /\
    matches r = (str_of_path ∘ e_path) <$> candidates B fs query /\
    match candidates B fs query with
    | [] => parsed r = None /\ tr = content_trace B fs query
    | _ :: _ =>
        exists latest best,
          latest ∈ candidates B fs query /\
          (forall c, c ∈ candidates B fs query -> st_mtime c <= st_mtime latest) /\
          (parse_member_from_pdf latest ≫= attach_photo P fs) = Ok best /\
          parsed r = Some best /\
          tr = content_trace B fs query ++ [e_path latest]
    end.
Proof.
  intros HP. unfold search_members.
  fold (normalized query). fold (filename_pass B fs query).
  assert (Hpair :
    match filename_pass B fs query with
    | [] => (filter (name_matches (normalized query)) (rglob_pdf fs B),
             e_path <$> rglob_pdf fs B)
    | _ :: _ => (filename_pass B fs query, [])
    end = (candidates B fs query, content_trace B fs query)).
  { unfold candidates, content_trace, content_pass.
    by destruct (filename_pass B fs query). }
  rewrite Hpair. clear Hpair.
  pose proof (max_mtime_spec (candidates B fs query)) as Hmax.
  destruct (max_mtime (candidates B fs query)) as [latest|].
  - destruct Hmax as [Hin Hall].
    destruct (parse_member_from_pdf latest) as [o|] eqn:Ep.
    2:{ unfold parse_member_from_pdf in Ep. destruct (read_text latest); [|discriminate].
        destruct (parse_text_ok (stem (e_path latest)) a) as [d Hd].
        rewrite Hd in Ep. discriminate. }
    destruct (attach_photo_ok P fs o HP) as [best Hbest].
    { intros d ->. by eapply text_fields_parse_member. }
    cbn [mbind res_bind]. rewrite Hbest. cbn [mbind res_bind].
    eexists _, _. split; [reflexivity|]. split; [reflexivity|].
    destruct (candidates B fs query) as [|c0 cs]; [inversion Hin|].
    exists latest, best. rewrite Ep. cbn [mbind res_bind]. by repeat split.
  - rewrite Hmax. eexists _, _. split; [reflexivity|]. by repeat split.
Qed.

Lemma search_members_passes_and_best_witness :
  exists r tr,
    search_members sample.BASE_FOLDER sample.PHOTOS_FOLDER sample.store "ann" = Ok (r, tr) /\
    matches r = ["Gym Data/2024/March/09/M2/M2.pdf"; "Gym Data/2024/March/05/M1/M1.pdf"] /\
    (exists best, parsed r = Some (Some best) /\ best !! "id" = Some (VStr "M1")).
Proof.
  destruct (search_members_passes_and_best sample.BASE_FOLDER sample.PHOTOS_FOLDER
              sample.store "ann") as (r & tr & Hs & Hm & _).
  - right. reflexivity.
  - exists r, tr. split; [exact Hs|]. split.
    + rewrite Hm. vm_compute. reflexivity.
    + assert (Hx : match search_members sample.BASE_FOLDER sample.PHOTOS_FOLDER
                           sample.store "ann" with
                   | Ok (r, _) => match parsed r with
                                  | Some (Some best) => best !! "id"
                                  | _ => None
                                  end
                   | Raise _ => None
                   end = Some (VStr "M1")) by (vm_compute; reflexivity).
      rewrite Hs in Hx. destruct (parsed r) as [[best|]|]; [|discriminate..].
      exists best. split; [reflexivity|exact Hx].
Defined.

(** ** The path scheme *)

Lemma shape_app a b : shape (a ++ b) = shape a ++ shape b.
Proof. unfold shape. apply fmap_app. Qed.

Lemma shape_touch now q fs : shape (touch now q fs) = shape fs.
Proof.
  unfold shape, touch. rewrite <- list_fmap_compose. apply list_fmap_ext.
  intros i e _. cbn. by destruct (bool_decide _).
Qed.

Lemma kind_at_lookup fs q :
  kind_at (shape fs) q = (fun e => is_dir_kind (e_kind e)) <$> lookup_entry fs q.
Proof.
  induction fs as [|e fs IH]; [reflexivity|]. cbn.
  destruct (bool_decide (e_path e = q)); [reflexivity|exact IH].
Qed.

Lemma kind_at_app a b q :
  kind_at (a ++ b) q = match kind_at a q with Some k => Some k | None => kind_at b q end.
Proof.
  induction a as [|x a IH]; [reflexivity|]. cbn.
  destruct (bool_decide (x.1 = q)); [reflexivity|exact IH].
Qed.

Lemma is_dir_kind_at fs q :
  q ≠ [] -> is_dir fs q = match kind_at (shape fs) q with Some true => true | _ => false end.
Proof.
  intros Hq. unfold is_dir. destruct q; [done|]. rewrite kind_at_lookup.
  destruct (lookup_entry fs _) as [e|]; cbn; [by destruct (is_dir_kind _)|reflexivity].
Qed.

(** *** Creating folders and files, seen on the shape *)

Lemma mkdir1_present now fs q :
  kind_at (shape fs) q = Some true -> mkdir1 now fs q = Ok fs.
Proof.
  rewrite kind_at_lookup. unfold mkdir1. destruct (lookup_entry fs q) as [e|]; [|discriminate].
  cbn. by intros [= ->].
Qed.

Lemma mkdir1_absent now fs q :
  kind_at (shape fs) q = None ->
  exists fs', mkdir1 now fs q = Ok fs' /\ shape fs' = shape fs ++ [(q, true)].
Proof.
  rewrite kind_at_lookup. unfold mkdir1. destruct (lookup_entry fs q) as [e|]; [discriminate|].
  intros _. eexists. split; [reflexivity|]. by rewrite shape_app, shape_touch.
Qed.

Lemma mkdir_from_present now fs rest : forall pre,
  (forall n, (n < List.length rest)%nat ->
             kind_at (shape fs) (pre ++ take (S n) rest) = Some true) ->
  mkdir_from now fs pre rest = Ok fs.
Proof.
  induction rest as [|c rest IH]; intros pre H; [reflexivity|].
  cbn [mkdir_from]. rewrite mkdir1_present.
  - cbn [mbind res_bind]. apply IH. intros n Hn.
    rewrite <- app_assoc. apply (H (S n)). cbn. lia.
  - apply (H 0%nat). cbn. lia.
Qed.

Lemma ancestors_spec base q :
  q ∈ ancestors base <-> exists n, (n < List.length base)%nat /\ q = take (S n) base.
Proof.
  unfold ancestors. rewrite list_elem_of_fmap. split.
  - intros (n & -> & Hn). apply elem_of_seq in Hn. exists n. split; [lia|reflexivity].
  - intros (n & Hn & ->). exists n. split; [reflexivity|]. apply elem_of_seq. lia.
Qed.

Lemma mkdir_parents_present now fs p :
  (forall q, q ∈ ancestors p -> kind_at (shape fs) q = Some true) ->
  mkdir_parents now fs p = Ok fs.
Proof.
  intros H. apply mkdir_from_present. intros n Hn. cbn [app].
  apply H. apply ancestors_spec. by exists n.
Qed.

Lemma take_S_app_cons {A : Type} (pre : list A) c rest n :
  pre ++ take (S n) (c :: rest) = (pre ++ [c]) ++ take n rest.
Proof. by rewrite <- app_assoc. Qed.

(** Whatever [mkdir_from] adds is a directory at one of the paths it was
    asked for, and afterwards all of them are directories. *)
Lemma mkdir_from_effect now rest : forall fs pre fs',
  mkdir_from now fs pre rest = Ok fs' ->
  exists added,
    shape fs' = shape fs ++ added /\
    (forall x, x ∈ added ->
       x.2 = true /\ exists n, (n < List.length rest)%nat /\ x.1 = pre ++ take (S n) rest) /\
    (forall n, (n < List.length rest)%nat ->
       kind_at (shape fs') (pre ++ take (S n) rest) = Some true).
Proof.
  induction rest as [|c rest IH]; intros fs pre fs'; cbn [mkdir_from].
  - intros [= <-]. exists []. rewrite app_nil_r. split; [reflexivity|].
    split; [intros x Hx; inversion Hx|]. intros n Hn. cbn in Hn. lia.
  - destruct (mkdir1 now fs (pre ++ [c])) as [fs1|] eqn:E1; cbn [mbind res_bind]; [|discriminate].
    intros Hrest. destruct (IH _ _ _ Hrest) as (added & Hsh & Hadd & Hkinds).
    assert (H1 : exists a1, shape fs1 = shape fs ++ a1 /\
                   kind_at (shape fs1) (pre ++ [c]) = Some true /\
                   (a1 = [] \/ a1 = [(pre ++ [c], true)])).
    { destruct (kind_at (shape fs) (pre ++ [c])) as [[]|] eqn:Ek.
      - rewrite (mkdir1_present _ _ _ Ek) in E1. injection E1 as <-.
        exists []. rewrite app_nil_r. split; [reflexivity|]. split; [exact Ek|by left].
      - rewrite kind_at_lookup in Ek. unfold mkdir1 in E1.
        destruct (lookup_entry fs (pre ++ [c])) as [e|]; [|discriminate].
        cbn in Ek. injection Ek as Ek. rewrite Ek in E1. discriminate.
      - destruct (mkdir1_absent now _ _ Ek) as (fs1' & E1' & Hs1).
        rewrite E1' in E1. injection E1 as <-.
        exists [(pre ++ [c], true)]. split; [exact Hs1|]. split; [|by right].
        rewrite Hs1, kind_at_app, Ek. cbn. by rewrite bool_decide_eq_true_2. }
    destruct H1 as (a1 & Hs1 & Hk1 & Ha1).
    exists (a1 ++ added). split; [by rewrite Hsh, Hs1, app_assoc|]. split.
    + intros x [Hx|Hx]%elem_of_app.
      * destruct Ha1 as [-> | ->]; [inversion Hx|].
        apply list_elem_of_singleton in Hx as ->. split; [reflexivity|].
        exists 0%nat. split; [cbn; lia|reflexivity].
      * destruct (Hadd x Hx) as (Hd & n & Hn & Hp). split; [exact Hd|].
        exists (S n). split; [cbn; lia|]. by rewrite take_S_app_cons.
    + intros [|n] Hn.
      * change (take 1 (c :: rest)) with [c]. rewrite Hsh, kind_at_app, Hk1. reflexivity.
      * rewrite take_S_app_cons. apply Hkinds. cbn in Hn. lia.
Qed.

Lemma mkdir_from_succeeds now rest : forall fs pre,
  (forall n, (n < List.length rest)%nat ->
     kind_at (shape fs) (pre ++ take (S n) rest) ≠ Some false) ->
  exists fs', mkdir_from now fs pre rest = Ok fs'.
Proof.
  induction rest as [|c rest IH]; intros fs pre H; cbn [mkdir_from]; [by eexists|].
  assert (H1 : exists fs1 a1, mkdir1 now fs (pre ++ [c]) = Ok fs1 /\
                 shape fs1 = shape fs ++ a1 /\
                 (a1 = [] \/ a1 = [(pre ++ [c], true)])).
  { destruct (kind_at (shape fs) (pre ++ [c])) as [[]|] eqn:Ek.
    - exists fs, []. rewrite app_nil_r.
      split; [by apply mkdir1_present|]. split; [reflexivity|by left].
    - exfalso. apply (H 0%nat); [cbn; lia|exact Ek].
    - destruct (mkdir1_absent now _ _ Ek) as (fs1 & E1 & Hs1).
      exists fs1, [(pre ++ [c], true)]. split; [exact E1|]. split; [exact Hs1|by right]. }
  destruct H1 as (fs1 & a1 & -> & Hs1 & Ha1). cbn [mbind res_bind].
  apply IH. intros n Hn. rewrite Hs1, kind_at_app, <- take_S_app_cons.
  destruct (kind_at (shape fs) (pre ++ take (S (S n)) (c :: rest))) as [k|] eqn:Ek.
  - intros [= ->]. apply (H (S n)); [cbn; lia|exact Ek].
  - destruct Ha1 as [-> | ->]; [discriminate|]. cbn. by destruct (bool_decide _).
Qed.

Lemma mkdir_parents_effect now fs p fs' :
  mkdir_parents now fs p = Ok fs' ->
  exists added,
    shape fs' = shape fs ++ added /\
    (forall x, x ∈ added -> x.2 = true /\ x.1 ∈ ancestors p) /\
    (forall q, q ∈ ancestors p -> kind_at (shape fs') q = Some true).
Proof.
  intros H. destruct (mkdir_from_effect _ _ _ _ _ H) as (added & Hsh & Hadd & Hk).
  exists added. split; [exact Hsh|]. split.
  - intros x Hx. destruct (Hadd x Hx) as (Hd & n & Hn & Hp). split; [exact Hd|].
    apply ancestors_spec. by exists n.
  - intros q (n & Hn & ->)%ancestors_spec. by apply (Hk n).
Qed.

Lemma mkdir_parents_succeeds now fs p :
  (forall q, q ∈ ancestors p -> kind_at (shape fs) q ≠ Some false) ->
  exists fs', mkdir_parents now fs p = Ok fs'.
Proof.
  intros H. apply mkdir_from_succeeds. intros n Hn. cbn [app].
  apply H, ancestors_spec. by exists n.
Qed.

(** *** Writing *)

Lemma shape_set_entry fs p new e :
  lookup_entry fs p = Some e -> e_path new = p ->
  is_dir_kind (e_kind new) = is_dir_kind (e_kind e) ->
  shape (set_entry fs p new) = shape fs.
Proof.
  intros Hl Hp Hk. induction fs as [|x fs IH]; [discriminate|].
  cbn [lookup_entry set_entry] in *. destruct (bool_decide (e_path x = p)) eqn:E.
  - injection Hl as ->. apply bool_decide_eq_true_1 in E.
    unfold shape. rewrite !fmap_cons. by rewrite Hp, Hk, E.
  - unfold shape in *. rewrite !fmap_cons. by rewrite (IH Hl).
Qed.

Lemma write_file_absent now fs p c :
  kind_at (shape fs) p = None -> is_dir fs (parent p) = true ->
  exists fs', write_file now fs p c = Ok fs' /\ shape fs' = shape fs ++ [(p, false)].
Proof.
  rewrite kind_at_lookup. unfold write_file.
  destruct (lookup_entry fs p); [discriminate|]. intros _ ->.
  eexists. split; [reflexivity|]. by rewrite shape_app, shape_touch.
Qed.

Lemma write_file_effect now fs p c fs' :
  write_file now fs p c = Ok fs' ->
  shape fs' = shape fs \/ shape fs' = shape fs ++ [(p, false)].
Proof.
  unfold write_file. destruct (lookup_entry fs p) as [e|] eqn:El.
  - destruct (is_dir_kind (e_kind e)) eqn:Ek; [discriminate|]. intros [= <-]. left.
    by apply (shape_set_entry _ _ _ e).
  - destruct (is_dir fs (parent p)); [|discriminate]. intros [= <-]. right.
    by rewrite shape_app, shape_touch.
Qed.

Lemma append_file_effect now fs p s fs' :
  append_file now fs p s = Ok fs' ->
  shape fs' = shape fs \/ shape fs' = shape fs ++ [(p, false)].
Proof.
  unfold append_file. destruct (lookup_entry fs p) as [e|].
  - destruct (e_kind e) as [|[l|t]]; [discriminate|..]; apply write_file_effect.
  - apply write_file_effect.
Qed.

(** *** Components and the folder of a member *)

Lemma path_div_component p s : component s -> path_div p s = p ++ [s].
Proof.
  intros (H0 & H1 & Hs). unfold path_div. rewrite (split_no_sep _ _ Hs).
  rewrite filter_cons_True by done. reflexivity.
Qed.

Lemma numeric_component s :
  s ≠ "" -> all_chars is_numeric s = true -> component s.
Proof.
  intros H0 Hn. split; [exact H0|]. split.
  - intros ->. discriminate.
  - by destruct (numeric_no_char _ Hn) as (_ & ? & _).
Qed.

Lemma str_of_int_component n : component (Py.str_of_int n).
Proof. destruct (str_of_int_numeric n). by apply numeric_component. Qed.

Lemma fmt_02d_component n : component (Py.fmt_02d n).
Proof. destruct (fmt_02d_numeric n). by apply numeric_component. Qed.

Lemma month_label_component mm :
  1 <= mm <= 12 -> utils.month_name mm = Ok (month_label mm) /\ component (month_label mm).
Proof.
  intros Hm.
  split_range mm 1; (split; [reflexivity|repeat split; discriminate]).
Qed.

Lemma readmission_component n : component (readmission n).
Proof.
  unfold readmission. split; [discriminate|]. split; [discriminate|].
  rewrite all_chars_app. destruct (str_of_int_component n) as (_ & _ & ->). reflexivity.
Qed.

Lemma pdf_name_component m : component (id m) -> component (pdf_name m).
Proof.
  intros (H0 & _ & Hs). unfold pdf_name. split; [|split].
  - destruct (id m); [done|discriminate].
  - destruct (id m) as [|c [|c' i]]; [done|discriminate..].
  - rewrite all_chars_app, Hs. reflexivity.
Qed.

Lemma log_name_component : component "monthly_members.txt".
Proof. repeat split; discriminate. Qed.

(** *** Names that cannot coincide *)

Lemma ends_with_char_app c a b :
  b ≠ "" -> ends_with_char c (a +:+ b) = ends_with_char c b.
Proof.
  intros Hb. induction a as [|x a IH]; [reflexivity|].
  rewrite append_cons. cbn [ends_with_char]. rewrite IH.
  destruct (a +:+ b) eqn:E; [|reflexivity].
  destruct a; [rewrite append_nil_l in E; congruence|discriminate].
Qed.

Lemma ends_with_char_none (P : ascii -> bool) c s :
  P c = false -> all_chars P s = true -> ends_with_char c s = false.
Proof.
  intros Hc. induction s as [|x s IH]; [reflexivity|]. cbn [all_chars ends_with_char].
  intros [Hx Hs]%andb_prop. destruct s as [|y s].
  - destruct (Ascii.eqb_spec x c) as [->|]; [congruence|reflexivity].
  - by apply IH.
Qed.

Lemma pdf_name_not_readmission m n : pdf_name m ≠ readmission n.
Proof.
  intros H. assert (Hf : ends_with_char "f" (pdf_name m) = true).
  { unfold pdf_name. by rewrite ends_with_char_app. }
  rewrite H in Hf. unfold readmission in Hf.
  destruct (str_of_int_numeric n) as [H0 Hn].
  rewrite (ends_with_char_app _ _ _ H0) in Hf.
  by rewrite (ends_with_char_none is_numeric "f" _ eq_refl Hn) in Hf.
Qed.

Lemma length_append (a b : string) :
  String.length (a +:+ b) = (String.length a + String.length b)%nat.
Proof. induction a as [|c a IH]; [reflexivity|]. rewrite append_cons. cbn. by rewrite IH. Qed.

Lemma substring_all (s : string) : String.substring 0 (String.length s) s = s.
Proof. induction s as [|c s IH]; [reflexivity|]. cbn. by rewrite IH. Qed.

Lemma substring_skip (a b : string) n :
  String.substring (String.length a) n (a +:+ b) = String.substring 0 n b.
Proof. induction a as [|c a IH]; [reflexivity|]. rewrite append_cons. cbn. exact IH. Qed.

Lemma endswith_app a suffix : endswith (a +:+ suffix) suffix = true.
Proof.
  unfold endswith. rewrite length_append.
  replace (String.length a + String.length suffix - String.length suffix)%nat
    with (String.length a) by lia.
  rewrite substring_skip, substring_all, String.eqb_refl.
  rewrite andb_true_r. apply Nat.leb_le. lia.
Qed.

(** *** Places relative to a folder *)

Lemma name_of_snoc p x : name_of (p ++ [x]) = x.
Proof. unfold name_of. by rewrite last_snoc. Qed.

Lemma parent_snoc p x : parent (p ++ [x]) = p.
Proof. unfold parent. apply removelast_last. Qed.

Lemma is_child_snoc base x : is_child base (base ++ [x]) = true.
Proof.
  unfold is_child. apply bool_decide_eq_true_2. split.
  - rewrite length_app. cbn. lia.
  - by rewrite take_app_length.
Qed.

Lemma is_child_length base q :
  List.length q ≠ S (List.length base) -> is_child base q = false.
Proof. intros H. unfold is_child. apply bool_decide_eq_false_2. by intros [? _]. Qed.

Lemma is_under_app base l : l ≠ [] -> is_under base (base ++ l) = true.
Proof.
  intros Hl. unfold is_under. apply bool_decide_eq_true_2. split.
  - rewrite length_app. destruct l; [done|cbn; lia].
  - by rewrite take_app_length.
Qed.

Lemma is_under_short base q :
  (List.length q <= List.length base)%nat -> is_under base q = false.
Proof. intros H. unfold is_under. apply bool_decide_eq_false_2. intros [? _]. lia. Qed.

Lemma ancestor_length base q : q ∈ ancestors base -> (List.length q <= List.length base)%nat.
Proof. intros (n & Hn & ->)%ancestors_spec. rewrite length_take. lia. Qed.

Lemma is_child_under base q : is_child base q = true -> is_under base q = true.
Proof.
  unfold is_child, is_under. intros [Hl Ht]%bool_decide_eq_true_1.
  apply bool_decide_eq_true_2. split; [lia|exact Ht].
Qed.

Lemma ancestors_snoc p x : ancestors (p ++ [x]) = ancestors p ++ [p ++ [x]].
Proof.
  unfold ancestors. rewrite length_app. cbn [List.length].
  replace (List.length p + 1)%nat with (S (List.length p)) by lia.
  rewrite seq_S, fmap_app. cbn [fmap list_fmap]. f_equal.
  - apply list_fmap_ext. intros i n Hn. apply lookup_seq in Hn as [-> Hlt]. cbn [Nat.add].
    rewrite take_app_le by lia. reflexivity.
  - cbn [Nat.add]. f_equal. rewrite take_app_ge by lia.
    replace (S (List.length p) - List.length p)%nat with 1%nat by lia. reflexivity.
Qed.

Lemma ancestors_app_l p l q : q ∈ ancestors p -> q ∈ ancestors (p ++ l).
Proof.
  intros (n & Hn & ->)%ancestors_spec. apply ancestors_spec. exists n. split.
  - rewrite length_app. lia.
  - rewrite take_app_le by lia. reflexivity.
Qed.

(** *** What the tests see *)

Lemma filter_true {A : Type} (P : A -> bool) x l :
  P x = true -> filter (fun x => P x) (x :: l) = x :: filter (fun x => P x) l.
Proof. intros H. apply filter_cons_True. by rewrite H. Qed.

Lemma filter_false {A : Type} (P : A -> bool) x l :
  P x = false -> filter (fun x => P x) (x :: l) = filter (fun x => P x) l.
Proof. intros H. apply filter_cons_False. rewrite H. exact (fun f => f). Qed.

Lemma below_app base a b : below base (a ++ b) = below base a ++ below base b.
Proof. unfold below. apply filter_app. Qed.

Lemma below_ancestors base added :
  (forall x, x ∈ added -> x.1 ∈ ancestors base) -> below base added = [].
Proof.
  intros H. unfold below. induction added as [|x added IH]; [reflexivity|].
  rewrite (filter_false (fun x => is_under base x.1)).
  - apply IH. intros y Hy. apply H. by apply list_elem_of_further.
  - apply is_under_short, ancestor_length, H, list_elem_of_here.
Qed.

Lemma kind_at_below base sh q :
  is_under base q = true -> kind_at sh q = kind_at (below base sh) q.
Proof.
  intros Hq. unfold below. induction sh as [|x sh IH]; [reflexivity|].
  cbn [kind_at]. destruct (bool_decide (x.1 = q)) eqn:E.
  - apply bool_decide_eq_true_1 in E.
    rewrite (filter_true (fun x => is_under base x.1)) by (by rewrite E).
    cbn [kind_at]. by rewrite bool_decide_eq_true_2.
  - destruct (is_under base x.1) eqn:Eu.
    + rewrite (filter_true (fun x => is_under base x.1)) by exact Eu.
      cbn [kind_at]. by rewrite E.
    + rewrite (filter_false (fun x => is_under base x.1)) by exact Eu. exact IH.
Qed.

Lemma filter_below base (P : path * bool -> bool) sh :
  (forall x, P x = true -> is_under base x.1 = true) ->
  filter (fun x => P x) sh = filter (fun x => P x) (below base sh).
Proof.
  intros HP. unfold below. induction sh as [|x sh IH]; [reflexivity|].
  destruct (P x) eqn:Ex.
  - rewrite (filter_true P) by exact Ex.
    rewrite (filter_true (fun x => is_under base x.1)) by (by apply HP).
    rewrite (filter_true P) by exact Ex. by rewrite IH.
  - rewrite (filter_false P) by exact Ex.
    destruct (is_under base x.1) eqn:Eu.
    + rewrite (filter_true (fun x => is_under base x.1)) by exact Eu.
      rewrite (filter_false P) by exact Ex. exact IH.
    + rewrite (filter_false (fun x => is_under base x.1)) by exact Eu. exact IH.
Qed.

Lemma glob_pdf_shape fs base :
  shape (glob_pdf fs base) = filter (fun x => pdf_child base x) (shape fs).
Proof.
  unfold glob_pdf, iterdir, shape. induction fs as [|e fs IH]; [reflexivity|].
  rewrite fmap_cons.
  destruct (is_child base (e_path e)) eqn:Ec.
  - rewrite (filter_true (fun e => is_child base (e_path e))) by exact Ec.
    destruct (endswith (name_of (e_path e)) ".pdf") eqn:Ee.
    + rewrite (filter_true (fun e => endswith (name_of (e_path e)) ".pdf")) by exact Ee.
      rewrite (filter_true (pdf_child base)) by (unfold pdf_child; cbn [fst snd]; by rewrite Ec, Ee).
      rewrite fmap_cons. by rewrite IH.
    + rewrite (filter_false (fun e => endswith (name_of (e_path e)) ".pdf")) by exact Ee.
      rewrite (filter_false (pdf_child base)) by (unfold pdf_child; cbn [fst snd]; by rewrite Ec, Ee).
      exact IH.
  - rewrite (filter_false (fun e => is_child base (e_path e))) by exact Ec.
    rewrite (filter_false (pdf_child base)) by (unfold pdf_child; cbn [fst snd]; by rewrite Ec).
    exact IH.
Qed.

Lemma count_dirs_shape fs base :
  List.length (filter (fun d => is_dir_kind (e_kind d)) (iterdir fs base))
  = List.length (filter (fun x => dir_child base x) (shape fs)).
Proof.
  unfold iterdir, shape. induction fs as [|e fs IH]; [reflexivity|].
  rewrite fmap_cons.
  destruct (is_child base (e_path e)) eqn:Ec.
  - rewrite (filter_true (fun e => is_child base (e_path e))) by exact Ec.
    destruct (is_dir_kind (e_kind e)) eqn:Ee.
    + rewrite (filter_true (fun d => is_dir_kind (e_kind d))) by exact Ee.
      rewrite (filter_true (dir_child base)) by (unfold dir_child; cbn [fst snd]; by rewrite ?Ec, ?Ee).
      cbn [List.length]. by rewrite IH.
    + rewrite (filter_false (fun d => is_dir_kind (e_kind d))) by exact Ee.
      rewrite (filter_false (dir_child base)) by (unfold dir_child; cbn [fst snd]; by rewrite ?Ec, ?Ee).
      exact IH.
  - rewrite (filter_false (fun e => is_child base (e_path e))) by exact Ec.
    rewrite (filter_false (dir_child base)) by (unfold dir_child; cbn [fst snd]; by rewrite Ec).
    exact IH.
Qed.

(** *** One save *)

Lemma card_lines_ok m : exists l, card_lines (member_dict m) = Ok l.
Proof. eexists. unfold card_lines, member_dict. reflexivity. Qed.

Lemma mkdir_from_app now a : forall fs pre b,
  mkdir_from now fs pre (a ++ b)
  = (fs1 ← mkdir_from now fs pre a; mkdir_from now fs1 (pre ++ a) b).
Proof.
  induction a as [|c a IH]; intros fs pre b.
  - cbn. by rewrite app_nil_r.
  - cbn [app mkdir_from]. destruct (mkdir1 now fs (pre ++ [c])); cbn [mbind res_bind]; [|reflexivity].
    rewrite IH. by rewrite <- app_assoc.
Qed.

Lemma mkdir_parents_new_leaf now fs p x :
  (forall q, q ∈ ancestors p -> kind_at (shape fs) q = Some true) ->
  kind_at (shape fs) (p ++ [x]) = None ->
  exists fs', mkdir_parents now fs (p ++ [x]) = Ok fs' /\
              shape fs' = shape fs ++ [(p ++ [x], true)].
Proof.
  intros Hp Hx. unfold mkdir_parents. rewrite mkdir_from_app.
  fold (mkdir_parents now fs p). rewrite (mkdir_parents_present _ _ _ Hp).
  cbn [mbind res_bind app mkdir_from].
  destruct (mkdir1_absent now _ _ Hx) as (fs' & -> & Hs). cbn [mbind res_bind].
  by exists fs'.
Qed.

Lemma self_ancestor p : p ≠ [] -> p ∈ ancestors p.
Proof.
  intros Hp. apply ancestors_spec. exists (List.length p - 1)%nat.
  destruct p as [|c p]; [done|]. cbn [List.length]. split; [lia|].
  replace (S (S (List.length p) - 1)) with (List.length (c :: p)) by (cbn; lia).
  by rewrite firstn_all.
Qed.

Lemma id_folder_split B m :
  id_folder B m
  = (B ++ [Py.str_of_int (year m); month_label (month m)]) ++ [Py.fmt_02d (day m); id m].
Proof. unfold id_folder. by rewrite <- app_assoc. Qed.

Lemma log_path B m :
  1 <= month m <= 12 ->
  path_div (path_div (path_div B (Py.str_of_int (year m))) (month_label (month m)))
           "monthly_members.txt"
  = (B ++ [Py.str_of_int (year m); month_label (month m)]) ++ ["monthly_members.txt"].
Proof.
  intros Hm. destruct (month_label_component _ Hm) as [_ Hc].
  rewrite (path_div_component _ _ (str_of_int_component _)),
    (path_div_component _ _ Hc), (path_div_component _ _ log_name_component).
  by rewrite <- !app_assoc.
Qed.

(** The end of a save: the card is written at the target and a line is
    appended to the log of the month, if that can be done. *)
Lemma finish_save_effect B now fs p x m :
  1 <= month m <= 12 -> p ≠ [] ->
  (forall q, q ∈ ancestors p -> kind_at (shape fs) q = Some true) ->
  (forall q, q ∈ ancestors (id_folder B m) -> kind_at (shape fs) q = Some true) ->
  kind_at (shape fs) (p ++ [x]) = None ->
  exists fs' alog,
    finish_save B now fs (p ++ [x]) m = Ok (fs', str_of_path (p ++ [x])) /\
    shape fs' = shape fs ++ (p ++ [x], false) :: alog /\
    (forall y, y ∈ alog ->
       y.1 = (B ++ [Py.str_of_int (year m); month_label (month m)]) ++ ["monthly_members.txt"]).
Proof.
  intros Hm Hp Hanc Hbase Hx. unfold finish_save, create_member_pdf.
  rewrite parent_snoc, (mkdir_parents_present _ _ _ Hanc). cbn [mbind res_bind].
  destruct (card_lines_ok m) as [l ->]. cbn [mbind res_bind].
  destruct (write_file_absent now fs (p ++ [x]) (Pdf l) Hx) as (fs1 & -> & Hs1).
  { rewrite parent_snoc, (is_dir_kind_at _ _ Hp), (Hanc p (self_ancestor p Hp)). reflexivity. }
  cbn [mbind res_bind].
  rewrite (log_path B m Hm).
  rewrite parent_snoc. rewrite mkdir_parents_present.
  2:{ intros q Hq. rewrite Hs1, kind_at_app, Hbase; [reflexivity|].
      rewrite id_folder_split. by apply ancestors_app_l. }
  cbn [mbind res_bind].
  match goal with |- context [append_file now fs1 ?lp ?s] =>
    destruct (append_file now fs1 lp s) as [fs2|] eqn:Ea end.
  - exists fs2. destruct (append_file_effect _ _ _ _ _ Ea) as [Hs2|Hs2].
    + exists []. split; [reflexivity|]. split; [by rewrite Hs2, Hs1|].
      intros y Hy. inversion Hy.
    + eexists [_]. split; [reflexivity|]. split.
      * rewrite Hs2, Hs1, <- app_assoc. reflexivity.
      * intros y ->%list_elem_of_singleton. reflexivity.
  - exists fs1, []. split; [reflexivity|]. split; [exact Hs1|].
    intros y Hy. inversion Hy.
Qed.

Lemma save_new_member_unfold B now fs m :
  component (id m) -> 1 <= month m <= 12 ->
  save_new_member B now fs m
  = (fs1 ← mkdir_parents now fs (id_folder B m);
     match glob_pdf fs1 (id_folder B m) with
     | _ :: _ =>
         fs2 ← mkdir_parents now fs1
                 (id_folder B m ++ [readmission (Z.of_nat (count_dirs fs1 (id_folder B m) + 1))]);
         finish_save B now fs2
           (id_folder B m ++ [readmission (Z.of_nat (count_dirs fs1 (id_folder B m) + 1))]
              ++ [pdf_name m]) m
     | [] => finish_save B now fs1 (id_folder B m ++ [pdf_name m]) m
     end).
Proof.
  intros Hid Hm. destruct (month_label_component _ Hm) as [Hmn Hmc].
  assert (Hbase : path_div (path_div (path_div (path_div B (Py.str_of_int (year m)))
                     (month_label (month m))) (Py.fmt_02d (day m))) (id m) = id_folder B m).
  { rewrite (path_div_component _ _ (str_of_int_component _)),
      (path_div_component _ _ Hmc), (path_div_component _ _ (fmt_02d_component _)),
      (path_div_component _ _ Hid).
    unfold id_folder. by rewrite <- !app_assoc. }
  unfold save_new_member. rewrite Hmn. cbn [mbind res_bind]. rewrite Hbase.
  destruct (mkdir_parents now fs (id_folder B m)) as [fs1|]; cbn [mbind res_bind]; [|reflexivity].
  destruct (glob_pdf fs1 (id_folder B m)) as [|e es].
  - cbn [mbind res_bind]. rewrite (path_div_component _ _ (pdf_name_component _ Hid)).
    reflexivity.
  - fold (count_dirs fs1 (id_folder B m)). fold (readmission (Z.of_nat (count_dirs fs1 (id_folder B m) + 1))).
    rewrite (path_div_component _ _ (readmission_component _)).
    destruct (mkdir_parents now fs1 _) as [fs2|]; cbn [mbind res_bind]; [|reflexivity].
    fold (pdf_name m).
    rewrite (path_div_component _ _ (pdf_name_component _ Hid)), <- app_assoc.
    reflexivity.
Qed.

Lemma log_not_below B m alog :
  (forall y, y ∈ alog ->
     y.1 = (B ++ [Py.str_of_int (year m); month_label (month m)]) ++ ["monthly_members.txt"]) ->
  below (id_folder B m) alog = [].
Proof.
  intros H. unfold below. induction alog as [|y alog IH]; [reflexivity|].
  rewrite (filter_false (fun x => is_under (id_folder B m) x.1)).
  - apply IH. intros z Hz. apply H. by apply list_elem_of_further.
  - pose proof (H y (list_elem_of_here _ _)) as Hy. destruct y as [yp yk]. cbn [fst] in *.
    subst yp. apply is_under_short. unfold id_folder. rewrite !length_app. cbn. lia.
Qed.

Lemma kind_at_ancestor_app sh added base q :
  (forall q, q ∈ ancestors base -> kind_at sh q = Some true) ->
  q ∈ ancestors base -> kind_at (sh ++ added) q = Some true.
Proof. intros H Hq. by rewrite kind_at_app, (H q Hq). Qed.

Lemma id_folder_nonempty B m : id_folder B m ≠ [].
Proof. unfold id_folder. by destruct B. Qed.

(** The first save of a member: the folder is new, or empty. *)
Lemma save_first B now fs m :
  component (id m) -> 1 <= month m <= 12 ->
  (forall q, q ∈ ancestors (id_folder B m) -> kind_at (shape fs) q ≠ Some false) ->
  below (id_folder B m) (shape fs) = [] ->
  exists fs',
    save_new_member B now fs m = Ok (fs', str_of_path (id_folder B m ++ [pdf_name m])) /\
    settled B m fs' [(id_folder B m ++ [pdf_name m], false)].
Proof.
  intros Hid Hm Hanc Hbelow. rewrite (save_new_member_unfold _ _ _ _ Hid Hm).
  destruct (mkdir_parents_succeeds now fs _ Hanc) as [fs1 E1]. rewrite E1. cbn [mbind res_bind].
  destruct (mkdir_parents_effect _ _ _ _ E1) as (added & Hs1 & Hadd & Hk1).
  assert (Hb1 : below (id_folder B m) (shape fs1) = []).
  { rewrite Hs1, below_app, Hbelow. apply below_ancestors. intros x Hx. by apply Hadd. }
  assert (Hg : glob_pdf fs1 (id_folder B m) = []).
  { apply (fmap_nil_inv (fun e => (e_path e, is_dir_kind (e_kind e)))).
    fold (shape (glob_pdf fs1 (id_folder B m))). rewrite glob_pdf_shape.
    rewrite (filter_below (id_folder B m) (pdf_child (id_folder B m))), Hb1; [reflexivity|].
    intros x [Hc _]%andb_prop. by apply is_child_under. }
  rewrite Hg.
  destruct (finish_save_effect B now fs1 (id_folder B m) (pdf_name m) m Hm
              (id_folder_nonempty B m) Hk1 Hk1)
    as (fs' & alog & -> & Hs' & Hlog).
  { rewrite (kind_at_below (id_folder B m)), Hb1; [reflexivity|]. by apply is_under_app. }
  exists fs'. split; [reflexivity|]. split.
  - intros q Hq. rewrite Hs'. by apply (kind_at_ancestor_app _ _ (id_folder B m)).
  - rewrite Hs', below_app, Hb1. cbn [app].
    change ((id_folder B m ++ [pdf_name m], false) :: alog)
      with ([(id_folder B m ++ [pdf_name m], false)] ++ alog).
    rewrite below_app, (log_not_below _ _ _ Hlog), app_nil_r.
    unfold below. rewrite (filter_true (fun x => is_under (id_folder B m) x.1)); [reflexivity|].
    by apply is_under_app.
Qed.

(** A later save: a document is in the folder already. *)
Lemma save_again B now fs m V n :
  component (id m) -> 1 <= month m <= 12 ->
  settled B m fs V ->
  filter (fun x => pdf_child (id_folder B m) x) V ≠ [] ->
  List.length (filter (fun x => dir_child (id_folder B m) x) V) = n ->
  kind_at V (id_folder B m ++ [readmission (Z.of_nat (n + 1))]) = None ->
  kind_at V (id_folder B m ++ [readmission (Z.of_nat (n + 1))] ++ [pdf_name m]) = None ->
  exists fs',
    save_new_member B now fs m
    = Ok (fs', str_of_path (id_folder B m ++ [readmission (Z.of_nat (n + 1))] ++ [pdf_name m])) /\
    settled B m fs'
      (V ++ [(id_folder B m ++ [readmission (Z.of_nat (n + 1))], true);
             (id_folder B m ++ [readmission (Z.of_nat (n + 1))] ++ [pdf_name m], false)]).
Proof.
  intros Hid Hm [Hanc HV] Hpdf Hn HR HP.
  set (base := id_folder B m) in *. set (R := readmission (Z.of_nat (n + 1))) in *.
  rewrite (save_new_member_unfold _ _ _ _ Hid Hm). fold base.
  rewrite (mkdir_parents_present _ _ _ Hanc). cbn [mbind res_bind].
  assert (Hcount : count_dirs fs base = n).
  { unfold count_dirs. rewrite count_dirs_shape.
    rewrite (filter_below base (dir_child base)), HV; [exact Hn|].
    intros x [Hc _]%andb_prop. by apply is_child_under. }
  destruct (glob_pdf fs base) as [|e es] eqn:Hg.
  { exfalso. apply Hpdf. rewrite <- HV.
    rewrite <- (filter_below base (pdf_child base)).
    - rewrite <- glob_pdf_shape, Hg. reflexivity.
    - intros x [Hc _]%andb_prop. by apply is_child_under. }
  rewrite Hcount. fold R.
  assert (HR' : kind_at (shape fs) (base ++ [R]) = None).
  { rewrite (kind_at_below base), HV; [exact HR|]. by apply is_under_app. }
  destruct (mkdir_parents_new_leaf now fs base R Hanc HR') as (fs2 & -> & Hs2).
  cbn [mbind res_bind].
  assert (Hanc2 : forall q, q ∈ ancestors base -> kind_at (shape fs2) q = Some true).
  { intros q Hq. rewrite Hs2. by apply (kind_at_ancestor_app _ _ base). }
  assert (HancR : forall q, q ∈ ancestors (base ++ [R]) -> kind_at (shape fs2) q = Some true).
  { intros q Hq. rewrite ancestors_snoc in Hq. apply elem_of_app in Hq as [Hq|Hq].
    - by apply Hanc2.
    - apply list_elem_of_singleton in Hq as ->. rewrite Hs2, kind_at_app, HR'.
      cbn [kind_at fst snd]. by rewrite bool_decide_eq_true_2. }
  rewrite app_assoc.
  destruct (finish_save_effect B now fs2 (base ++ [R]) (pdf_name m) m Hm) as
    (fs' & alog & -> & Hs' & Hlog); try assumption.
  { by destruct base. }
  { rewrite Hs2, kind_at_app.
    rewrite (kind_at_below base), HV by (rewrite <- app_assoc; by apply is_under_app).
    rewrite <- app_assoc, HP. cbn [kind_at fst snd].
    rewrite bool_decide_eq_false_2; [reflexivity|].
    intros Heq. apply (f_equal List.length) in Heq. rewrite !length_app in Heq. cbn in Heq. lia. }
  exists fs'. split; [by rewrite <- app_assoc|]. split.
  - intros q Hq. rewrite Hs'. by apply (kind_at_ancestor_app _ _ base).
  - fold base. rewrite Hs', Hs2, <- (app_assoc (shape fs)), below_app, HV. f_equal. cbn [app].
    change ((base ++ [R], true) :: ((base ++ [R]) ++ [pdf_name m], false) :: alog)
      with ([(base ++ [R], true); ((base ++ [R]) ++ [pdf_name m], false)] ++ alog).
    pose proof (log_not_below B m alog Hlog) as Hl. change (id_folder B m) with base in Hl.
    rewrite below_app, Hl, app_nil_r.
    unfold below. rewrite !(filter_true (fun x => is_under base x.1)).
    + by rewrite <- app_assoc.
    + cbn [fst]. rewrite <- app_assoc. by apply is_under_app.
    + by apply is_under_app.
Qed.

Lemma finish_save_path B now fs save_path m fs' p :
  finish_save B now fs save_path m = Ok (fs', p) -> p = str_of_path save_path.
Proof.
  unfold finish_save.
  destruct (create_member_pdf _ _ _ _); cbn [mbind res_bind]; [|discriminate].
  destruct (mkdir_parents _ _ _); cbn [mbind res_bind]; [|discriminate].
  by intros [= _ <-].
Qed.

Lemma no_child_among_ancestors base (P : path * bool -> bool) added :
  (forall x, P x = true -> is_child base x.1 = true) ->
  (forall x, x ∈ added -> x.1 ∈ ancestors base) ->
  filter (fun x => P x) added = [].
Proof.
  intros HP H. induction added as [|x added IH]; [reflexivity|].
  rewrite (filter_false P).
  - apply IH. intros y Hy. apply H. by apply list_elem_of_further.
  - destruct (P x) eqn:E; [|reflexivity]. apply HP, is_child_under in E.
    rewrite is_under_short in E; [discriminate|].
    apply ancestor_length, H, list_elem_of_here.
Qed.

(** The rule of the path scheme: with a document directly in the folder
    of the member, a save that succeeds goes to the re-admission folder
    numbered one more than the folders directly in it. *)
Lemma save_targets_readmission B now fs m fs' p :
  component (id m) -> 1 <= month m <= 12 ->
  save_new_member B now fs m = Ok (fs', p) ->
  glob_pdf fs (id_folder B m) ≠ [] ->
  p = str_of_path
        (id_folder B m ++ [readmission (Z.of_nat (count_dirs fs (id_folder B m) + 1));
                           pdf_name m]).
Proof.
  intros Hid Hm Hsave Hglob. rewrite (save_new_member_unfold _ _ _ _ Hid Hm) in Hsave.
  destruct (mkdir_parents now fs (id_folder B m)) as [fs1|] eqn:E1;
    cbn [mbind res_bind] in Hsave; [|discriminate].
  destruct (mkdir_parents_effect _ _ _ _ E1) as (added & Hs1 & Hadd & _).
  assert (Hanc : forall x, x ∈ added -> x.1 ∈ ancestors (id_folder B m)).
  { intros x Hx. by apply Hadd. }
  assert (Hcount : count_dirs fs1 (id_folder B m) = count_dirs fs (id_folder B m)).
  { unfold count_dirs. rewrite !count_dirs_shape, Hs1, filter_app.
    rewrite (no_child_among_ancestors (id_folder B m) (dir_child (id_folder B m)) added);
      [by rewrite app_nil_r| |exact Hanc].
    by intros x [Hc _]%andb_prop. }
  assert (Hg1 : glob_pdf fs1 (id_folder B m) ≠ []).
  { intros Hg. apply Hglob.
    apply (fmap_nil_inv (fun e => (e_path e, is_dir_kind (e_kind e)))).
    fold (shape (glob_pdf fs (id_folder B m))).
    apply (f_equal shape) in Hg. rewrite glob_pdf_shape, Hs1, filter_app in Hg.
    apply app_eq_nil in Hg as [Hg _]. by rewrite glob_pdf_shape. }
  destruct (glob_pdf fs1 (id_folder B m)) as [|e es]; [done|].
  rewrite Hcount in Hsave.
  destruct (mkdir_parents now fs1 _) as [fs2|]; cbn [mbind res_bind] in Hsave; [|discriminate].
  by apply finish_save_path in Hsave.
Qed.

Lemma kind_at_cons_ne (x : path * bool) sh q :
  x.1 ≠ q -> kind_at (x :: sh) q = kind_at sh q.
Proof. intros H. cbn [kind_at]. by rewrite bool_decide_eq_false_2. Qed.

Lemma pdf_child_card base nm k :
  pdf_child base (base ++ [nm +:+ ".pdf"], k) = true.
Proof.
  unfold pdf_child. cbn [fst]. by rewrite is_child_snoc, name_of_snoc, endswith_app.
Qed.

Lemma dir_child_deeper base a b c k : dir_child base (base ++ a :: b :: c, k) = false.
Proof.
  unfold dir_child. cbn [fst]. rewrite is_child_length; [reflexivity|].
  rewrite length_app. cbn. lia.
Qed.

(** C6.  Three saves of one admission (same id, same join date) into a
    store where the folder of the id is new or empty, and where no file
    stands in the place of a folder on the way to it, all succeed; the
    first writes [id/id.pdf], the second [id/ReAdmission_1/id.pdf], the
    third [id/ReAdmission_2/id.pdf], and nothing else is below the folder
    afterwards.  In general, a save that finds a document directly in the
    folder of the id targets [ReAdmission_{count+1}], where [count] is
    the number of folders directly in it. *)
Theorem three_saves_folder_structure
    (B : path) (fs0 : list entry) (m1 m2 m3 : Member) (t1 t2 t3 : Z) :
  component (id m1) -> 1 <= month m1 <= 12 ->
  same_admission m1 m2 -> same_admission m1 m3 ->
  (forall q, q ∈ ancestors (id_folder B m1) -> kind_at (shape fs0) q ≠ Some false) ->
  below (id_folder B m1) (shape fs0) = [] ->
  (exists fs1 fs2 fs3,
     save_new_member B t1 fs0 m1
     = Ok (fs1, str_of_path (id_folder B m1 ++ [pdf_name m1])) /\
     save_new_member B t2 fs1 m2
     = Ok (fs2, str_of_path (id_folder B m1 ++ ["ReAdmission_1"; pdf_name m1])) /\
     save_new_member B t3 fs2 m3
     = Ok (fs3, str_of_path (id_folder B m1 ++ ["ReAdmission_2"; pdf_name m1])) /\
     below (id_folder B m1) (shape fs3)
     = [ (id_folder B m1 ++ [pdf_name m1], false);
         (id_folder B m1 ++ ["ReAdmission_1"], true);
         (id_folder B m1 ++ ["ReAdmission_1"; pdf_name m1], false);
         (id_folder B m1 ++ ["ReAdmission_2"], true);
         (id_folder B m1 ++ ["ReAdmission_2"; pdf_name m1], false) ]) /\
  (forall now fs m fs' p,
     component (id m) -> 1 <= month m <= 12 ->
     save_new_member B now fs m = Ok (fs', p) ->
     glob_pdf fs (id_folder B m) ≠ [] ->
     p = str_of_path
           (id_folder B m ++ [readmission (Z.of_nat (count_dirs fs (id_folder B m) + 1));
                              pdf_name m])).
Proof.
  intros Hid Hm (Hi2 & Hd2 & Hmo2 & Hy2) (Hi3 & Hd3 & Hmo3 & Hy3) Hanc Hbelow.
  split; [|intros now fs m fs' p; apply save_targets_readmission].
  assert (Hf2 : id_folder B m2 = id_folder B m1).
  { unfold id_folder. by rewrite Hi2, Hd2, Hmo2, Hy2. }
  assert (Hf3 : id_folder B m3 = id_folder B m1).
  { unfold id_folder. by rewrite Hi3, Hd3, Hmo3, Hy3. }
  assert (Hp2 : pdf_name m2 = pdf_name m1) by (unfold pdf_name; by rewrite Hi2).
  assert (Hp3 : pdf_name m3 = pdf_name m1) by (unfold pdf_name; by rewrite Hi3).
  set (base := id_folder B m1) in *. set (pdf := pdf_name m1) in *.
  assert (Hne : forall n, base ++ [pdf] ≠ base ++ [readmission n]).
  { intros n Heq. apply app_inv_head in Heq. injection Heq as Heq.
    by apply pdf_name_not_readmission in Heq. }
  assert (Hlen : forall l l' : path, List.length l ≠ List.length l' ->
                   base ++ l ≠ base ++ l').
  { intros l l' Hl Heq. by apply app_inv_head in Heq as ->. }
  destruct (save_first B t1 fs0 m1 Hid Hm Hanc Hbelow) as (fs1 & Hs1 & Hst1).
  (* second save *)
  destruct (save_again B t2 fs1 m2 [(base ++ [pdf], false)] 0) as (fs2 & Hs2 & Hst2).
  - by rewrite Hi2.
  - by rewrite Hmo2.
  - destruct Hst1 as [Ha Hb]. split; rewrite Hf2; assumption.
  - rewrite Hf2. fold base. rewrite (filter_true (pdf_child base)); [done|].
    apply pdf_child_card.
  - rewrite Hf2. fold base. rewrite (filter_false (dir_child base)); [reflexivity|].
    unfold dir_child. cbn [snd]. apply andb_false_r.
  - rewrite Hf2. fold base. rewrite kind_at_cons_ne; [reflexivity|apply Hne].
  - rewrite Hf2, Hp2. fold base. rewrite kind_at_cons_ne; [reflexivity|].
    apply Hlen. cbn. lia.
  - rewrite Hf2, Hp2 in Hs2, Hst2. fold base pdf in Hs2, Hst2.
    change (readmission (Z.of_nat (0 + 1))) with "ReAdmission_1" in Hs2, Hst2.
    cbn [app] in Hs2, Hst2.
    (* third save *)
    destruct (save_again B t3 fs2 m3
                [(base ++ [pdf], false); (base ++ ["ReAdmission_1"], true);
                 (base ++ ["ReAdmission_1"; pdf], false)] 1) as (fs3 & Hs3 & Hst3).
    + by rewrite Hi3.
    + by rewrite Hmo3.
    + destruct Hst2 as [Ha Hb]. rewrite Hf2 in Ha, Hb. split; rewrite Hf3; assumption.
    + rewrite Hf3. fold base. rewrite (filter_true (pdf_child base)); [done|].
      apply pdf_child_card.
    + rewrite Hf3. fold base.
      rewrite (filter_false (dir_child base))
        by (unfold dir_child; cbn [snd]; apply andb_false_r).
      rewrite (filter_true (dir_child base))
        by (unfold dir_child; cbn [fst snd]; by rewrite is_child_snoc).
      rewrite (filter_false (dir_child base)) by apply dir_child_deeper.
      reflexivity.
    + rewrite Hf3. fold base.
      change (readmission (Z.of_nat (1 + 1))) with "ReAdmission_2".
      rewrite kind_at_cons_ne by apply (Hne 2).
      rewrite kind_at_cons_ne
        by (cbn [fst]; intros Heq; apply app_inv_head in Heq; discriminate).
      rewrite kind_at_cons_ne; [reflexivity|].
      apply Hlen. cbn. lia.
    + rewrite Hf3, Hp3. fold base pdf.
      change (readmission (Z.of_nat (1 + 1))) with "ReAdmission_2".
      rewrite kind_at_cons_ne by (apply Hlen; cbn; lia).
      rewrite kind_at_cons_ne by (apply Hlen; cbn; lia).
      rewrite kind_at_cons_ne; [reflexivity|].
      cbn [fst app]. intros Heq. apply app_inv_head in Heq. discriminate.
    + rewrite Hf3, Hp3 in Hs3, Hst3. fold base pdf in Hs3, Hst3.
      change (readmission (Z.of_nat (1 + 1))) with "ReAdmission_2" in Hs3, Hst3.
      cbn [app] in Hs3, Hst3.
      exists fs1, fs2, fs3. split; [exact Hs1|]. split; [exact Hs2|]. split; [exact Hs3|].
      destruct Hst3 as [_ Hb]. rewrite Hf3 in Hb. exact Hb.
Qed.

Lemma three_saves_folder_structure_witness :
  exists fs1 fs2 fs3,
    save_new_member sample.BASE_FOLDER 20 sample.folders sample.ann
    = Ok (fs1, "Gym Data/2024/March/05/M1/M1.pdf") /\
    save_new_member sample.BASE_FOLDER 30 fs1 sample.ann
    = Ok (fs2, "Gym Data/2024/March/05/M1/ReAdmission_1/M1.pdf") /\
    save_new_member sample.BASE_FOLDER 40 fs2 sample.ann
    = Ok (fs3, "Gym Data/2024/March/05/M1/ReAdmission_2/M1.pdf").
Proof.
  destruct (three_saves_folder_structure sample.BASE_FOLDER sample.folders
              sample.ann sample.ann sample.ann 20 30 40)
    as [(fs1 & fs2 & fs3 & H1 & H2 & H3 & _) _].
  - repeat split; try discriminate; reflexivity.
  - cbn. lia.
  - repeat split.
  - repeat split.
  - intros q Hq. vm_compute in Hq.
    repeat (apply elem_of_cons in Hq as [->|Hq]; [vm_compute; discriminate|]).
    inversion Hq.
  - vm_compute. reflexivity.
  - exists fs1, fs2, fs3. split; [exact H1|]. split; [exact H2|exact H3].
Defined.

(* ===================================================================== *)
(** ** Calendar arithmetic beyond the forward case ([add_months], [days_until]) *)
(* ===================================================================== *)

Section Calendar.
Import utils.

Lemma add_months_unfold (d : date) (n : Z) :
  1 <= month d <= 12 ->
  add_months d n
  = new_date (year d + (month d - 1 + n) / 12) ((month d - 1 + n) mod 12 + 1)
      (Z.min (day d) (days_in_month (year d + (month d - 1 + n) / 12)
                                    ((month d - 1 + n) mod 12 + 1))).
Proof.
  intros Hm. unfold add_months, monthrange.
  pose proof (Z.mod_pos_bound (month d - 1 + n) 12 ltac:(lia)) as Hr.
  replace (1 <=? (month d - 1 + n) mod 12 + 1) with true by (symmetry; apply Z.leb_le; lia).
  replace ((month d - 1 + n) mod 12 + 1 <=? 12) with true by (symmetry; apply Z.leb_le; lia).
  reflexivity.
Qed.

Lemma new_date_out_of_range y m d :
  ~ (MINYEAR <= y <= MAXYEAR) -> new_date y m d = Raise ValueError.
Proof.
  intros Hy. unfold new_date.
  destruct (Z.leb_spec MINYEAR y); [|reflexivity].
  destruct (Z.leb_spec y MAXYEAR); [lia|reflexivity].
Qed.

Lemma days_before_year_step y :
  days_before_year (y + 1) = days_before_year y + 365 + (if isleap y then 1 else 0).
Proof.
  unfold days_before_year, isleap.
  replace (y + 1 - 1) with y by lia.
  destruct (Z.eqb_spec (y mod 4) 0) as [H4|H4];
    destruct (Z.eqb_spec (y mod 100) 0) as [H100|H100];
    destruct (Z.eqb_spec (y mod 400) 0) as [H400|H400]; cbn [andb orb negb];
    Z.div_mod_to_equations; lia.
Qed.

Lemma days_before_month_step y m :
  1 <= m < 12 ->
  days_before_month y (m + 1) = days_before_month y m + days_in_month y m.
Proof.
  intros Hm. unfold days_before_month, days_in_month.
  split_range m 1; cbn; destruct (isleap y); reflexivity.
Qed.


Lemma toordinal_month_start d :
  1 <= month d <= 12 -> toordinal d = month_start (month_index d) + day d.
Proof.
  intros Hm. unfold toordinal, month_start, month_index.
  replace ((12 * year d + (month d - 1)) / 12) with (year d)
    by (Z.div_mod_to_equations; lia).
  replace ((12 * year d + (month d - 1)) mod 12 + 1) with (month d)
    by (Z.div_mod_to_equations; lia).
  reflexivity.
Qed.

Lemma month_start_step i :
  month_start (i + 1) = month_start i + days_in_month (i / 12) (i mod 12 + 1).
Proof.
  unfold month_start.
  pose proof (Z.mod_pos_bound i 12 ltac:(lia)) as Hr.
  destruct (Z.eq_dec (i mod 12) 11) as [E|E].
  - replace ((i + 1) / 12) with (i / 12 + 1) by (Z.div_mod_to_equations; lia).
    replace ((i + 1) mod 12 + 1) with 1 by (Z.div_mod_to_equations; lia).
    replace (i mod 12 + 1) with 12 by lia.
    rewrite days_before_year_step.
    unfold days_before_month, days_in_month. cbn.
    destruct (isleap (i / 12)), (isleap (i / 12 + 1)); lia.
  - replace ((i + 1) / 12) with (i / 12) by (Z.div_mod_to_equations; lia).
    replace ((i + 1) mod 12 + 1) with ((i mod 12 + 1) + 1)
      by (Z.div_mod_to_equations; lia).
    rewrite days_before_month_step by lia. lia.
Qed.

Lemma month_start_span i n :
  0 <= n -> 28 * n <= month_start (i + n) - month_start i <= 31 * n.
Proof.
  intros Hn. revert n Hn. apply (natlike_ind (fun n => 28 * n <= month_start (i + n) - month_start i <= 31 * n)).
  - replace (i + 0) with i by lia. lia.
  - intros n Hn IH.
    replace (i + Z.succ n) with ((i + n) + 1) by lia.
    rewrite month_start_step.
    pose proof (Z.mod_pos_bound (i + n) 12 ltac:(lia)) as Hr.
    pose proof (utils_facts.days_in_month_bounds ((i + n) / 12) ((i + n) mod 12 + 1) ltac:(lia)).
    lia.
Qed.

Lemma month_start_mono i j : i <= j -> month_start i <= month_start j.
Proof.
  intros H. pose proof (month_start_span i (j - i) ltac:(lia)) as Hs.
  replace (i + (j - i)) with j in Hs by lia. lia.
Qed.

Lemma month_index_parts d :
  1 <= month d <= 12 ->
  month_index d / 12 = year d /\ month_index d mod 12 + 1 = month d.
Proof.
  intros Hm. unfold month_index. split; Z.div_mod_to_equations; lia.
Qed.

Lemma toordinal_lt a b : valid a -> valid b -> before a b -> toordinal a < toordinal b.
Proof.
  intros (_ & Hma & Hda) (_ & Hmb & Hdb) Hlt.
  rewrite !toordinal_month_start by lia.
  destruct (Z.eq_dec (month_index a) (month_index b)) as [E|E].
  - rewrite E. unfold month_index, before in *. lia.
  - assert (Hi : month_index a + 1 <= month_index b)
      by (unfold month_index, before in *; lia).
    pose proof (month_start_mono _ _ Hi) as Hs.
    rewrite month_start_step in Hs.
    destruct (month_index_parts a Hma) as [-> ->] in Hs. lia.
Qed.

Lemma before_trichotomy a b : before a b \/ a = b \/ before b a.
Proof.
  destruct a as [ya ma da], b as [yb mb db]. unfold before; cbn.
  destruct (Z.lt_trichotomy ya yb) as [?|[->|?]]; [lia| |lia].
  destruct (Z.lt_trichotomy ma mb) as [?|[->|?]]; [lia| |lia].
  destruct (Z.lt_trichotomy da db) as [?|[->|?]]; [lia| |lia].
  right; left; reflexivity.
Qed.

Lemma toordinal_before a b :
  valid a -> valid b -> (before a b <-> toordinal a < toordinal b).
Proof.
  intros Ha Hb. split; [apply toordinal_lt; assumption|].
  intros Hlt. destruct (before_trichotomy a b) as [H|[->|H]]; [exact H|lia|].
  pose proof (toordinal_lt _ _ Hb Ha H). lia.
Qed.

Lemma toordinal_inj a b : valid a -> valid b -> toordinal a = toordinal b -> a = b.
Proof.
  intros Ha Hb E. destruct (before_trichotomy a b) as [H|[->|H]]; [|reflexivity|].
  - pose proof (toordinal_lt _ _ Ha Hb H). lia.
  - pose proof (toordinal_lt _ _ Hb Ha H). lia.
Qed.

(** X1.  [add_months] for any offset, backwards as well: on a valid date
    it returns exactly when the year reached lies in the calendar
    (1..9999); the result is then a valid date, [n] months away, the day
    clamped; otherwise it raises [ValueError]. *)
Theorem add_months_any_offset (d : utils.date) (n : Z) :
  utils.valid d ->
  (utils.MINYEAR <= utils.year d + (utils.month d - 1 + n) / 12 <= utils.MAXYEAR ->
   exists r, utils.add_months d n = Ok r /\ utils.valid r /\ utils.advanced d n r) /\
  (~ (utils.MINYEAR <= utils.year d + (utils.month d - 1 + n) / 12 <= utils.MAXYEAR) ->
   utils.add_months d n = Raise ValueError).
Proof.
  intros (Hy & Hm & Hd).
  rewrite add_months_unfold by exact Hm.
  pose proof (Z.mod_pos_bound (month d - 1 + n) 12 ltac:(lia)) as Hr.
  pose proof (utils_facts.days_in_month_bounds
                (year d + (month d - 1 + n) / 12) ((month d - 1 + n) mod 12 + 1)
                ltac:(lia)) as Hb.
  split.
  - intros Hin. eexists. split; [|split].
    + apply utils_facts.new_date_ok; lia.
    + unfold valid; cbn. lia.
    + unfold advanced, month_index; cbn.
      repeat split; try lia. Z.div_mod_to_equations; lia.
  - intros Hout. apply new_date_out_of_range, Hout.
Qed.

Lemma add_months_any_offset_witness :
  exists r, utils.add_months (utils.mkdate 2024 3 31) (-13) = Ok r /\
            r = utils.mkdate 2023 2 28.
Proof.
  destruct (add_months_any_offset (utils.mkdate 2024 3 31) (-13)) as [Hin _].
  - repeat split; vm_compute; discriminate.
  - destruct Hin as (r & Hr & _); [split; vm_compute; discriminate|].
    exists r. split; [exact Hr|].
    vm_compute in Hr. congruence.
Defined.

(** X2.  On a day every month has (the 28th at the latest) moving by [a]
    months and then by [b] months is moving by [a + b] months, whether
    the second step returns or raises. *)
Theorem add_months_additive (d r : utils.date) (a b : Z) :
  utils.valid d -> utils.day d <= 28 ->
  utils.add_months d a = Ok r ->
  utils.add_months r b = utils.add_months d (a + b).
Proof.
  intros (Hy & Hm & Hd) H28 Ha.
  rewrite add_months_unfold in Ha by exact Hm.
  pose proof (Z.mod_pos_bound (month d - 1 + a) 12 ltac:(lia)) as Hr.
  pose proof (utils_facts.days_in_month_bounds
                (year d + (month d - 1 + a) / 12) ((month d - 1 + a) mod 12 + 1)
                ltac:(lia)) as Hb.
  unfold new_date in Ha.
  destruct (_ && _) in Ha; [|discriminate].
  injection Ha as <-.
  rewrite !add_months_unfold by (cbn; lia). cbn [year month day].
  replace (year d + (month d - 1 + a) / 12
           + ((month d - 1 + a) mod 12 + 1 - 1 + b) / 12)
    with (year d + (month d - 1 + (a + b)) / 12) by (Z.div_mod_to_equations; lia).
  replace (((month d - 1 + a) mod 12 + 1 - 1 + b) mod 12)
    with ((month d - 1 + (a + b)) mod 12) by (Z.div_mod_to_equations; lia).
  pose proof (Z.mod_pos_bound (month d - 1 + (a + b)) 12 ltac:(lia)) as Hr'.
  pose proof (utils_facts.days_in_month_bounds
                (year d + (month d - 1 + (a + b)) / 12) ((month d - 1 + (a + b)) mod 12 + 1)
                ltac:(lia)) as Hb'.
  rewrite (Z.min_l (day d) (days_in_month (year d + (month d - 1 + a) / 12) _))
    by exact (Z.le_trans _ _ _ H28 (proj1 Hb)).
  reflexivity.
Qed.

Lemma add_months_additive_witness :
  utils.add_months (utils.mkdate 2024 3 28) 14
  = utils.add_months (utils.mkdate 2024 1 28) (2 + 14).
Proof.
  apply (add_months_additive (utils.mkdate 2024 1 28) (utils.mkdate 2024 3 28) 2 14).
  - repeat split; vm_compute; discriminate.
  - vm_compute; discriminate.
  - reflexivity.
Defined.

(** X3.  [days_until] is negative exactly when the end date has passed,
    zero exactly on the end date and positive exactly before it. *)
Theorem days_until_sign (today end_date : utils.date) :
  utils.valid today -> utils.valid end_date ->
  (utils.days_until today end_date < 0 <-> utils.before end_date today) /\
  (utils.days_until today end_date = 0 <-> end_date = today) /\
  (0 < utils.days_until today end_date <-> utils.before today end_date).
Proof.
  intros Ht He. unfold days_until.
  pose proof (toordinal_before _ _ Ht He) as H1.
  pose proof (toordinal_before _ _ He Ht) as H2.
  repeat split; intros H.
  - apply H2. lia.
  - apply H2 in H. lia.
  - symmetry. apply toordinal_inj; [exact Ht|exact He|lia].
  - subst. lia.
  - apply H1. lia.
  - apply H1 in H. lia.
Qed.

Lemma days_until_sign_witness :
  utils.days_until (utils.mkdate 2024 3 1) (utils.mkdate 2024 2 28) < 0.
Proof.
  apply (days_until_sign (utils.mkdate 2024 3 1) (utils.mkdate 2024 2 28)).
  - repeat split; vm_compute; discriminate.
  - repeat split; vm_compute; discriminate.
  - right. split; [reflexivity|]. left. reflexivity.
Defined.

(** X4.  A membership of [n >= 1] months is worth between [28 n] and
    [31 n] days: that many days lie between a valid start date and the
    end date [add_months] computes from it. *)
Theorem days_until_add_months (d r : utils.date) (n : Z) :
  utils.valid d -> 1 <= n ->
  utils.add_months d n = Ok r ->
  28 * n <= utils.days_until d r <= 31 * n.
Proof.
  intros Hv Hn Ha.
  destruct (add_months_any_offset d n Hv) as [Hin Hout].
  destruct (Z_le_dec MINYEAR (year d + (month d - 1 + n) / 12)) as [H1|H1];
    [destruct (Z_le_dec (year d + (month d - 1 + n) / 12) MAXYEAR) as [H2|H2]|].
  2,3: rewrite Hout in Ha by lia; discriminate.
  destruct Hin as (r' & Hr' & Hvr & Hmr & Hidx & Hday); [lia|].
  rewrite Hr' in Ha. injection Ha as ->.
  destruct Hv as (_ & Hm & Hd).
  unfold days_until. rewrite !toordinal_month_start by lia.
  rewrite Hidx.
  pose proof (month_start_span (month_index d) n ltac:(lia)) as Hs.
  pose proof (month_start_span (month_index d + 1) (n - 1) ltac:(lia)) as Hs1.
  replace (month_index d + 1 + (n - 1)) with (month_index d + n) in Hs1 by lia.
  rewrite month_start_step in Hs1.
  destruct (month_index_parts d Hm) as [E1 E2]. rewrite E1, E2 in Hs1.
  pose proof (utils_facts.days_in_month_bounds (year r) (month r) Hmr) as Hb.
  lia.
Qed.

Lemma days_until_add_months_witness :
  28 * 1 <= utils.days_until (utils.mkdate 2023 1 31) (utils.mkdate 2023 2 28) <= 31 * 1.
Proof.
  apply (days_until_add_months (utils.mkdate 2023 1 31) (utils.mkdate 2023 2 28) 1).
  - repeat split; vm_compute; discriminate.
  - lia.
  - reflexivity.
Defined.

End Calendar.

(* ===================================================================== *)
(** ** Attendance analytics: the busiest hour, and risk over time *)
(* ===================================================================== *)

Section PeakHours.
Import GymAI.

Variable strptime : string -> res Z.
Hypothesis Hparse : forall s e, strptime s = Raise e -> e = ValueError.

Lemma hours_from_parsed data : forall hours,
  hours_from strptime hours data = Ok (hours ++ parsed_hours strptime data).
Proof.
  induction data as [|row rest IH]; intros hours; cbn [hours_from parsed_hours omap].
  - rewrite app_nil_r. reflexivity.
  - unfold parsed_hours in *. cbn [omap list_omap].
    destruct (strptime row.2) as [t|e] eqn:E; cbn [mbind res_bind catch].
    + rewrite IH, <- app_assoc. reflexivity.
    + rewrite (Hparse _ _ E). cbn. apply IH.
Qed.

Lemma occurrences_cons h x hours :
  occurrences h (x :: hours) = (if x =? h then 1 else 0) + occurrences h hours.
Proof.
  unfold occurrences. destruct (Z.eqb_spec x h) as [->|Hne].
  - rewrite filter_cons_True by reflexivity. cbn [List.length]. lia.
  - rewrite filter_cons_False by exact Hne. lia.
Qed.

Lemma occurrences_nonneg h hours : 0 <= occurrences h hours.
Proof. unfold occurrences. lia. Qed.

Lemma occurrences_elem h hours : h ∈ hours -> 1 <= occurrences h hours.
Proof.
  induction hours as [|x rest IH]; intros Hin.
  - inversion Hin.
  - rewrite occurrences_cons. pose proof (occurrences_nonneg h rest).
    apply elem_of_cons in Hin as [->|Hin].
    + rewrite Z.eqb_refl. lia.
    + specialize (IH Hin). destruct (x =? h); lia.
Qed.

Lemma occurrences_absent h hours : h ∉ hours -> occurrences h hours = 0.
Proof.
  induction hours as [|x rest IH]; intros Hin; [reflexivity|].
  rewrite occurrences_cons.
  apply not_elem_of_cons in Hin as [Hne Hin].
  destruct (Z.eqb_spec x h); [congruence|]. rewrite IH by exact Hin. reflexivity.
Qed.

Lemma count_up_count h c k :
  count_in (count_up h c) k = count_in c k + (if h =? k then 1 else 0).
Proof.
  induction c as [|[k' n] rest IH]; cbn [count_up count_in].
  - destruct (h =? k); reflexivity.
  - destruct (Z.eqb_spec k' h) as [->|Hne]; cbn [count_in].
    + destruct (h =? k); lia.
    + destruct (Z.eqb_spec k' k) as [->|Hne'].
      * destruct (Z.eqb_spec h k); [congruence|lia].
      * exact IH.
Qed.

Lemma count_up_keys h c : NoDup c.*1 -> NoDup (count_up h c).*1 /\
  forall k, k ∈ (count_up h c).*1 <-> k = h \/ k ∈ c.*1.
Proof.
  induction c as [|[k' n] rest IH]; cbn [count_up fmap list_fmap]; intros Hnd.
  - split; [apply NoDup_singleton|]. intros k. rewrite list_elem_of_singleton.
    split; [left; assumption|intros [?|H]; [assumption|inversion H]].
  - apply NoDup_cons in Hnd as [Hnotin Hnd]. cbn [fst] in *.
    destruct (Z.eqb_spec k' h) as [->|Hne]; cbn [fmap list_fmap fst].
    + split; [apply NoDup_cons; split; assumption|].
      intros k. rewrite elem_of_cons. tauto.
    + destruct (IH Hnd) as [IH1 IH2]. split.
      * apply NoDup_cons. split; [|exact IH1].
        intros Hin. apply IH2 in Hin as [->|Hin]; [congruence|contradiction].
      * intros k. rewrite !elem_of_cons, IH2. tauto.
Qed.

Lemma Counter_from hours : forall c,
  NoDup c.*1 ->
  NoDup (foldl (fun c h => count_up h c) c hours).*1 /\
  forall k, count_in (foldl (fun c h => count_up h c) c hours) k
            = count_in c k + occurrences k hours.
Proof.
  induction hours as [|h rest IH]; intros c Hnd; cbn [foldl].
  - split; [exact Hnd|]. intros k. unfold occurrences. cbn. lia.
  - destruct (IH (count_up h c) (proj1 (count_up_keys h c Hnd))) as [IH1 IH2].
    split; [exact IH1|]. intros k.
    rewrite IH2, count_up_count, occurrences_cons. lia.
Qed.

Lemma count_in_elem c k n : NoDup c.*1 -> (k, n) ∈ c -> count_in c k = n.
Proof.
  induction c as [|[k' n'] rest IH]; intros Hnd Hin; [inversion Hin|].
  apply NoDup_cons in Hnd as [Hnotin Hnd]. cbn [count_in].
  apply elem_of_cons in Hin as [E|Hin].
  - injection E as <- <-. rewrite Z.eqb_refl. reflexivity.
  - destruct (Z.eqb_spec k' k) as [->|Hne]; [|apply IH; assumption].
    exfalso. apply Hnotin. cbn. apply list_elem_of_fmap. exists (k, n). split; [reflexivity|exact Hin].
Qed.

Lemma count_in_positive c k : 0 < count_in c k -> (k, count_in c k) ∈ c.
Proof.
  induction c as [|[k' n'] rest IH]; cbn [count_in]; intros Hpos; [lia|].
  destruct (Z.eqb_spec k' k) as [->|Hne].
  - apply list_elem_of_here.
  - apply list_elem_of_further, IH, Hpos.
Qed.

Lemma max_count_from_spec l : forall best,
  (max_count_from best l = best \/ max_count_from best l ∈ l) /\
  best.2 <= (max_count_from best l).2 /\
  forall x, x ∈ l -> x.2 <= (max_count_from best l).2.
Proof.
  induction l as [|y rest IH]; intros best; cbn [max_count_from].
  - split; [left; reflexivity|]. split; [lia|]. intros x Hx. inversion Hx.
  - destruct (IH (if best.2 <? y.2 then y else best)) as (Hin & Hbest & Hall).
    split; [|split].
    + destruct Hin as [->|Hin].
      * destruct (best.2 <? y.2); [right; apply list_elem_of_here|left; reflexivity].
      * right. apply list_elem_of_further, Hin.
    + destruct (Z.ltb_spec best.2 y.2); lia.
    + intros x Hx. apply elem_of_cons in Hx as [->|Hx]; [|apply Hall, Hx].
      destruct (Z.ltb_spec best.2 y.2); lia.
Qed.

Lemma most_common_mode hours :
  hours ≠ [] ->
  exists h, most_common_1 (Counter hours) = [(h, occurrences h hours)] /\
            h ∈ hours /\ forall h', occurrences h' hours <= occurrences h hours.
Proof.
  intros Hne.
  destruct (Counter_from hours [] (NoDup_nil_2 : NoDup ([] : list (Z * Z)).*1)) as [Hnd Hcount].
  fold (Counter hours) in Hnd, Hcount. cbn [count_in] in Hcount.
  destruct (Counter hours) as [|x rest] eqn:EC.
  - exfalso. destruct hours as [|h0 tl]; [congruence|].
    pose proof (Hcount h0) as H0. cbn in H0.
    pose proof (occurrences_elem h0 (h0 :: tl) ltac:(apply list_elem_of_here)). lia.
  - cbn [most_common_1].
    destruct (max_count_from_spec rest x) as (Hin & Hx & Hall).
    set (best := max_count_from x rest) in *.
    assert (Hbest : best ∈ x :: rest)
      by (destruct Hin as [->|Hin]; [apply list_elem_of_here|apply list_elem_of_further, Hin]).
    destruct best as [h n] eqn:Eb.
    assert (Hn : n = occurrences h hours).
    { rewrite <- (count_in_elem (x :: rest) h n Hnd Hbest), Hcount. lia. }
    exists h. subst n. split; [reflexivity|]. split.
    + destruct (decide (h ∈ hours)) as [Hh|Hh]; [exact Hh|exfalso].
      assert (Hpos : forall y, y ∈ x :: rest -> 1 <= y.2).
      { intros [k m] Hy. cbn.
        rewrite <- (count_in_elem (x :: rest) k m Hnd Hy), Hcount.
        destruct (decide (k ∈ hours)) as [Hk|Hk].
        - pose proof (occurrences_elem k hours Hk). lia.
        - exfalso. clear -Hy Hk EC.
          assert (Hkeys : forall hs c k, k ∈ (foldl (fun c h => count_up h c) c hs).*1 ->
                                         k ∈ c.*1 \/ k ∈ hs).
          { induction hs as [|a tl IH]; intros c k' Hk'; cbn [foldl] in Hk'; [left; exact Hk'|].
            apply IH in Hk' as [Hk'|Hk']; [|right; apply list_elem_of_further, Hk'].
            clear IH. induction c as [|[k0 n0] c IHc]; cbn [count_up fmap list_fmap fst] in Hk'.
            - apply list_elem_of_singleton in Hk' as ->. right. apply list_elem_of_here.
            - destruct (Z.eqb_spec k0 a) as [->|Hne0]; cbn [fmap list_fmap fst] in Hk'.
              + left. exact Hk'.
              + apply elem_of_cons in Hk' as [->|Hk'].
                * left. apply list_elem_of_here.
                * destruct (IHc Hk') as [H|H]; [left; apply list_elem_of_further, H|right; exact H]. }
          destruct (Hkeys hours [] k) as [H|H].
          + fold (Counter hours). rewrite EC. apply list_elem_of_fmap. exists (k, m). split; [reflexivity|exact Hy].
          + inversion H.
          + contradiction. }
      specialize (Hpos (h, occurrences h hours) Hbest). cbn in Hpos.
      rewrite (occurrences_absent h hours Hh) in Hpos. lia.
    + intros h'. destruct (decide (h' ∈ hours)) as [Hh'|Hh'].
      * pose proof (occurrences_elem h' hours Hh') as Hp.
        assert (Hmem : (h', occurrences h' hours) ∈ x :: rest).
        { rewrite <- (Z.add_0_l (occurrences h' hours)), <- Hcount.
          apply count_in_positive. rewrite Hcount. lia. }
        apply elem_of_cons in Hmem as [<-|Hmem].
        -- cbn in Hx. exact Hx.
        -- apply Hall in Hmem. exact Hmem.
      * rewrite (occurrences_absent h' hours Hh'). apply occurrences_nonneg.
Qed.

Lemma parsed_hours_range h data : h ∈ parsed_hours strptime data -> 0 <= h <= 23.
Proof.
  unfold parsed_hours. intros Hin. apply list_elem_of_omap in Hin as (row & _ & Hrow).
  destruct (strptime row.2) as [t|]; [|discriminate].
  injection Hrow as <-. unfold hour.
  pose proof (Z.mod_pos_bound (t / microseconds_per_hour) 24 ltac:(lia)). lia.
Qed.

(** X5.  [predict_peak_hours] always answers.  Without rows it reports
    that there is not enough data, without a row whose timestamp parses
    that the data is insufficient.  Otherwise it names an hour of the day
    that no other hour beats in number of check-ins: midnight and noon by
    name, the others on the twelve-hour clock. *)
Theorem predict_peak_hours_mode (data : list (string * string)) :
  exists msg,
    GymAI.predict_peak_hours strptime data = Ok msg /\
    (data = [] -> msg = "Not enough data to predict peak hours yet.") /\
    (data <> [] -> GymAI.parsed_hours strptime data = [] -> msg = "Insufficient daily data.") /\
    (GymAI.parsed_hours strptime data <> [] ->
     exists h,
       h ∈ GymAI.parsed_hours strptime data /\ 0 <= h <= 23 /\
       (forall h', GymAI.occurrences h' (GymAI.parsed_hours strptime data)
                   <= GymAI.occurrences h (GymAI.parsed_hours strptime data)) /\
       (h = 0 -> msg = "Peak time is Midnight.") /\
       (h = 12 -> msg = "Peak time is 12 PM (Noon).") /\
       (1 <= h <= 11 -> msg = "Peak time is " +:+ Py.str_of_int h +:+ " AM.") /\
       (13 <= h <= 23 -> msg = "Peak time is " +:+ Py.str_of_int (h - 12) +:+ " PM.")).
Proof.
  destruct data as [|row rest].
  { eexists. split; [reflexivity|]. repeat split; try congruence.
    intros H. exfalso. apply H. reflexivity. }
  unfold predict_peak_hours.
  rewrite hours_from_parsed, app_nil_l. cbn [mbind res_bind].
  destruct (parsed_hours strptime (row :: rest)) as [|h0 tl] eqn:EH.
  { eexists. split; [reflexivity|]. repeat split; congruence. }
  destruct (most_common_mode (h0 :: tl) ltac:(discriminate)) as (h & Hmc & Hin & Hmax).
  rewrite Hmc. cbn [Py.index lookup list_lookup mbind res_bind].
  assert (Hr : 0 <= h <= 23) by (apply (parsed_hours_range h (row :: rest)); rewrite EH; exact Hin).
  destruct (Z.eqb_spec h 0) as [->|H0]; [|destruct (Z.eqb_spec h 12) as [->|H12];
    [|destruct (Z.ltb_spec h 12) as [Hlt|Hge]]].
  all: eexists; split; [reflexivity|]; split; [discriminate|]; split; [discriminate|];
    intros _.
  all: eexists; split; [exact Hin|]; split; [exact Hr|]; split; [exact Hmax|].
  all: repeat split; try reflexivity; intros; lia.
Qed.

End PeakHours.

Lemma sample_strptime_raises s e : sample.strptime s = Raise e -> e = ValueError.
Proof.
  unfold sample.strptime. repeat destruct (String.eqb s _); congruence.
Qed.

Lemma predict_peak_hours_mode_witness :
  exists msg, GymAI.predict_peak_hours sample.strptime sample.attendance = Ok msg /\
              msg = "Peak time is 6 PM.".
Proof.
  destruct (predict_peak_hours_mode sample.strptime sample_strptime_raises sample.attendance)
    as (msg & Hmsg & _).
  exists msg. split; [exact Hmsg|].
  vm_compute in Hmsg. congruence.
Defined.

(** X6.  The risk of a member never goes down while time passes: with the
    same attendance rows, a later [now] gives a risk level at least as
    severe. *)
Theorem get_churn_risk_monotone (strptime : string -> res Z)
    (now now' : Z) (data : list (string * string)) (member_id : string)
    (c c' : GymAI.churn) :
  now <= now' ->
  GymAI.get_churn_risk strptime now data member_id = Ok c ->
  GymAI.get_churn_risk strptime now' data member_id = Ok c' ->
  GymAI.severity c <= GymAI.severity c'.
Proof.
  intros Hle. unfold GymAI.get_churn_risk.
  destruct (GymAI.last_visit_from strptime None member_id data) as [[lv|]|e];
    cbn [mbind res_bind]; [| |discriminate].
  - assert (Hd : GymAI.timedelta_days now lv <= GymAI.timedelta_days now' lv).
    { unfold GymAI.timedelta_days, GymAI.microseconds_per_day.
      apply Z.div_le_mono; lia. }
    destruct (Z.ltb_spec 21 (GymAI.timedelta_days now lv));
      destruct (Z.ltb_spec 21 (GymAI.timedelta_days now' lv));
      destruct (Z.ltb_spec 14 (GymAI.timedelta_days now lv));
      destruct (Z.ltb_spec 14 (GymAI.timedelta_days now' lv));
      intros [= <-] [= <-]; cbn; lia.
  - intros [= <-] [= <-]. reflexivity.
Qed.

Lemma get_churn_risk_monotone_witness :
  GymAI.severity GymAI.LowRisk <= GymAI.severity GymAI.HighRisk.
Proof.
  apply (get_churn_risk_monotone sample.strptime
           (sample.now - 20 * GymAI.microseconds_per_day) sample.now
           sample.attendance "M1").
  - vm_compute. discriminate.
  - reflexivity.
  - reflexivity.
Defined.

(* ===================================================================== *)
(** ** The search worker: who is let through *)
(* ===================================================================== *)

Lemma run_cases B P fs query is_admin user_gender r tr :
  search_members B P fs query = Ok (r, tr) ->
  SearchWorker.run B P fs query is_admin user_gender = SearchWorker.finished r \/
  SearchWorker.run B P fs query is_admin user_gender
  = SearchWorker.finished (mkResult [] None true).
Proof.
  intros Hs. unfold SearchWorker.run. rewrite Hs. cbn [fmap res_fmap fst mbind res_bind].
  destruct (parsed r) as [[p|]|] eqn:Hp; [|left; reflexivity..].
  pose proof (search_members_text_fields _ _ _ _ _ _ _ Hs Hp) as Hp'.
  destruct (text_fields_get p "gender" Hp') as [s Hgs];
    [repeat first [apply list_elem_of_here | apply list_elem_of_further]|].
  rewrite Hgs. cbn [strip_of fmap res_fmap mbind res_bind].
  destruct (negb is_admin && truthy (Some p)); [|left; reflexivity].
  destruct (_ && _); [right|left]; reflexivity.
Qed.

(** X7.  What the search worker lets through.  An administrator receives
    the search result as it is, whatever gender is given.  A caller bound
    to a gender receives it as it is when the best match has that gender,
    blanks at the ends and letter case set aside.  And the worker reports
    an error only when the search itself raised: the gender check never
    fails on a decoded record. *)
Theorem run_lets_through (B P : path) (fs : list entry) (query : string) :
  (forall user_gender,
     SearchWorker.run B P fs query true user_gender
     = match search_members B P fs query with
       | Ok (r, _) => SearchWorker.finished r
       | Raise e => SearchWorker.error e
       end) /\
  (forall g r tr p mg,
     search_members B P fs query = Ok (r, tr) ->
     parsed r = Some (Some p) ->
     get p "gender" (VStr "") = VStr mg ->
     Py.lower (Py.strip mg) = Py.lower (Py.strip g) ->
     SearchWorker.run B P fs query false (Some g) = SearchWorker.finished r) /\
  (forall is_admin user_gender e,
     SearchWorker.run B P fs query is_admin user_gender = SearchWorker.error e <->
     search_members B P fs query = Raise e).
Proof.
  split; [|split].
  - intros user_gender. unfold SearchWorker.run.
    destruct (search_members B P fs query) as [[r tr]|e];
      cbn [fmap res_fmap fst mbind res_bind]; [|reflexivity].
    destruct (parsed r) as [[p|]|]; reflexivity.
  - intros g r tr p mg Hs Hp Hg Hsame. unfold SearchWorker.run.
    rewrite Hs. cbn [fmap res_fmap fst mbind res_bind]. rewrite Hp, Hg.
    cbn [negb andb strip_of fmap res_fmap mbind res_bind].
    destruct (truthy (Some p)); [|reflexivity].
    destruct (bool_decide (g ≠ "")) eqn:Eg.
    + rewrite Hsame.
      rewrite (bool_decide_eq_false_2 (Py.lower (Py.strip g) ≠ Py.lower (Py.strip g)))
        by (intros H; apply H; reflexivity).
      rewrite andb_false_r. reflexivity.
    + reflexivity.
  - intros is_admin user_gender e. split.
    + intros Hrun. destruct (search_members B P fs query) as [[r tr]|e'] eqn:Hs.
      * destruct (run_cases B P fs query is_admin user_gender r tr Hs) as [H|H];
          rewrite H in Hrun; discriminate.
      * unfold SearchWorker.run in Hrun. rewrite Hs in Hrun.
        cbn [fmap res_fmap fst mbind res_bind] in Hrun. congruence.
    + intros Hs. unfold SearchWorker.run. rewrite Hs. reflexivity.
Qed.

(* ===================================================================== *)
(** ** The record codec on arbitrary single-line values *)
(* ===================================================================== *)

Lemma card_lines_any m : card_lines (member_dict m) = Ok (card_of m (end_text m)).
Proof.
  unfold card_lines, member_dict, end_text. destruct (end_date m); reflexivity.
Qed.

Lemma card_of_single_lines m :
  Forall single_line (printed_values m) ->
  Forall (fun l => l ≠ "" /\ all_chars not_linebreak l = true) (card_of m (end_text m)).
Proof.
  unfold printed_values, single_line. intros Hall.
  repeat (apply Forall_cons in Hall as [? Hall]).
  destruct (date_text_facts (day m) (month m) (year m)) as (_ & Hd & _).
  destruct (months_text_facts (membership_months m)) as (_ & Hm & _).
  unfold card_of.
  repeat (apply Forall_cons; split); try apply Forall_nil;
    try (apply labelled_line_ok; [reflexivity|assumption]);
    try (split; [discriminate|reflexivity]); try exact I.
  split; [discriminate|]. rewrite !all_chars_app.
  repeat (apply andb_true_intro; split); done.
Qed.

Lemma parse_card m stem :
  Forall single_line (printed_values m) ->
  exists r, parse_text stem (extract_text (card_of m (end_text m))) = Ok r /\
            card_record m stem r.
Proof.
  intros Hlines. apply card_of_single_lines in Hlines.
  unfold parse_text, extract_text.
  change (String (ascii_of_N 10) "") with newline.
  rewrite (splitlines_join _ Hlines). unfold card_of.
  cbn [parse_lines].
  rewrite parse_line_header. cbn [mbind res_bind].
  rewrite parse_line_id. cbn [mbind res_bind].
  rewrite parse_line_name. cbn [mbind res_bind].
  rewrite parse_line_phone. cbn [mbind res_bind].
  rewrite parse_line_blood. cbn [mbind res_bind].
  rewrite parse_line_gender. cbn [mbind res_bind].
  rewrite parse_line_cnic. cbn [mbind res_bind].
  rewrite parse_line_join_date. cbn [mbind res_bind].
  rewrite parse_line_membership. cbn [mbind res_bind].
  rewrite parse_line_package. cbn [mbind res_bind].
  rewrite parse_line_end_date. cbn [mbind res_bind].
  rewrite parse_line_status. cbn [mbind res_bind].
  rewrite parse_line_creator. cbn [mbind res_bind].
  rewrite parse_line_linkedin. cbn [mbind res_bind].
  rewrite parse_line_instagram. cbn [mbind res_bind].
  match goal with |- context [falsy (?d0 !! "id")] => set (d := d0) end.
  assert (Hl : d !! "id" = Some (VStr (Py.strip (id m)))) by reflexivity.
  rewrite Hl. unfold card_record.
  destruct (decide (Py.strip (id m) = "")) as [E|E].
  - rewrite E. cbn [falsy]. eexists. split; [reflexivity|].
    repeat split; reflexivity.
  - assert (Hf : falsy (Some (VStr (Py.strip (id m)))) = false).
    { cbn [falsy]. by destruct (Py.strip (id m)). }
    rewrite Hf. eexists. split; [reflexivity|].
    split; [exact Hl|]. repeat split; reflexivity.
Qed.

(** X8.  Decoding after encoding, for any member whose texts are free of
    line breaks: every text comes back trimmed of the white space at its
    ends and otherwise as it was, colons and empty texts included; the
    day, month, year and membership months come back as they were; an
    absent end date comes back as the text [None]; and an id that is blank
    is replaced by the name the document is stored under. *)
Theorem decode_encode_trims (m : Member) (stem : string) :
  Forall single_line (printed_values m) ->
  exists lines r,
    card_lines (member_dict m) = Ok lines /\
    parse_text stem (extract_text lines) = Ok r /\
    card_record m stem r.
Proof.
  intros Hlines. destruct (parse_card m stem Hlines) as (r & Hr & Hrec).
  exists (card_of m (end_text m)), r.
  split; [apply card_lines_any|]. split; assumption.
Qed.

Lemma decode_encode_trims_witness :
  exists lines r,
    card_lines (member_dict (mkMember " " " Ann: Lee " "" "O+" "Female" "35202-1" 5 3 2024 3
                                      "Gold" None "Active" None None)) = Ok lines /\
    parse_text "M1" (extract_text lines) = Ok r /\
    r !! "id" = Some (VStr "M1") /\ r !! "name" = Some (VStr "Ann: Lee") /\
    r !! "phone" = Some (VStr "") /\ r !! "end_date" = Some (VStr "None").
Proof.
  destruct (decode_encode_trims
              (mkMember " " " Ann: Lee " "" "O+" "Female" "35202-1" 5 3 2024 3
                        "Gold" None "Active" None None) "M1")
    as (lines & r & Hl & Hr & Hid & Hname & Hphone & _ & _ & _ & _ & _ & _ & _ & _ & Hend & _).
  - unfold printed_values, single_line; cbn.
    repeat (apply Forall_cons; split); try apply Forall_nil; reflexivity.
  - exists lines, r. repeat split; assumption.
Defined.

(** *** What a line can change *)

(** A property of records that survives every update a line can make
    survives the line. *)
Lemma parse_line_invariant (I : gmap string value -> Prop) (ln : string) :
  (forall key v d, text_key_of ln key -> Py.index (Py.split1 ":" ln) 1 = Ok v ->
                   I d -> I (<[key := VStr (Py.strip v)]> d)) ->
  (forall dd mm yy d, Py.startswith ln "Join Date:" = true -> I d ->
                      I (<["year" := VInt yy]> (<["month" := VInt mm]> (<["day" := VInt dd]> d)))) ->
  (forall n d, Py.startswith ln "Membership:" = true -> I d ->
               I (<["membership_months" := VInt n]> d)) ->
  forall d d', I d -> parse_line d ln = Ok d' -> I d'.
Proof.
  intros Htext Hdate Hmonths.
  assert (Hset : forall key d d', text_key_of ln key -> I d ->
                   catch is_IndexError (set_str key ln d) (Ok d) = Ok d' -> I d').
  { intros key d d' Hkey Hd. unfold set_str.
    destruct (Py.index (Py.split1 ":" ln) 1) as [v|e] eqn:E; cbn [mbind res_bind catch].
    - intros [= <-]. by apply Htext.
    - destruct (is_IndexError e); [by intros [= <-]|discriminate]. }
  assert (Hstd : forall keys d d',
             (forall k, k ∈ keys -> k ∈ standard_fields) -> I d ->
             foldl (fun acc key =>
                      d ← acc;
                      if Py.startswith (Py.lower ln) (key +:+ ":")
                      then catch is_IndexError (set_str key ln d) (Ok d)
                      else Ok d) (Ok d) keys = Ok d' -> I d').
  { induction keys as [|k keys IH]; intros d d' Hsub Hd; cbn [foldl mbind res_bind].
    - by intros [= <-].
    - assert (Hsub' : forall k', k' ∈ keys -> k' ∈ standard_fields)
        by (intros k' Hk'; apply Hsub; by apply list_elem_of_further).
      destruct (Py.startswith (Py.lower ln) (k +:+ ":")) eqn:Ek; [|by apply IH].
      destruct (catch_set_str_ok k ln d) as [d1 E1]. rewrite E1.
      apply IH; [exact Hsub'|].
      apply (Hset k d d1); [|exact Hd|exact E1].
      left. split; [apply Hsub, list_elem_of_here|exact Ek]. }
  intros d d' Hd. unfold parse_line.
  destruct (parse_standard ln d) as [d1|] eqn:E1; cbn [mbind res_bind]; [|discriminate].
  apply (Hstd standard_fields d d1 (fun _ H => H) Hd) in E1.
  match goal with |- context [mbind _ ?c] => destruct c as [d2|] eqn:E2 end;
    cbn [mbind res_bind]; [|discriminate].
  assert (H2 : I d2).
  { destruct (Py.startswith ln "Package:") eqn:Ep; [|by injection E2 as <-].
    apply (Hset "package" d1 d2); [|exact E1|exact E2]. right; left. by split. }
  match goal with |- context [mbind _ ?c] => destruct c as [d3|] eqn:E3 end;
    cbn [mbind res_bind]; [|discriminate].
  assert (H3 : I d3).
  { destruct (Py.startswith ln "Join Date:") eqn:Ej; [|by injection E3 as <-].
    unfold parse_join_date in E3.
    repeat match type of E3 with
           | context [mbind _ ?c] => destruct c; cbn [mbind res_bind catch] in E3
           end;
      try (destruct (is_Index_or_ValueError _); [|discriminate]);
      injection E3 as <-; try done.
    by apply Hdate. }
  match goal with |- context [mbind _ ?c] => destruct c as [d4|] eqn:E4 end;
    cbn [mbind res_bind]; [|discriminate].
  assert (H4 : I d4).
  { destruct (Py.startswith ln "Membership:") eqn:Em; [|by injection E4 as <-].
    unfold parse_membership in E4.
    repeat match type of E4 with
           | context [mbind _ ?c] => destruct c; cbn [mbind res_bind catch] in E4
           end;
      try (destruct (is_Index_or_ValueError _); [|discriminate]);
      injection E4 as <-; try done.
    by apply Hmonths. }
  match goal with |- context [mbind _ ?c] => destruct c as [d5|] eqn:E5 end;
    cbn [mbind res_bind]; [|discriminate].
  assert (H5 : I d5).
  { destruct (Py.startswith ln "End Date:") eqn:Ee; [|by injection E5 as <-].
    apply (Hset "end_date" d4 d5); [|exact H4|exact E5]. right; right; left. by split. }
  destruct (Py.startswith ln "Status:") eqn:Es; [|by intros [= <-]].
  intros E6. apply (Hset "status" d5 d'); [|exact H5|exact E6]. right; right; right. by split.
Qed.

Lemma parse_lines_invariant (I : gmap string value -> Prop) (lns : list string) :
  (forall ln d d', ln ∈ lns -> I d -> parse_line d ln = Ok d' -> I d') ->
  forall d d', I d -> parse_lines d lns = Ok d' -> I d'.
Proof.
  induction lns as [|ln lns IH]; intros Hstep d d' Hd; cbn [parse_lines].
  - by intros [= <-].
  - destruct (parse_line d ln) as [d1|] eqn:E1; cbn [mbind res_bind]; [|discriminate].
    apply IH.
    + intros ln' a b Hin. apply Hstep. by apply list_elem_of_further.
    + apply (Hstep ln d d1); [apply list_elem_of_here|exact Hd|exact E1].
Qed.

(** *** Trimming and cutting keep a text on one line *)

Lemma all_chars_lstrip P s : all_chars P s = true -> all_chars P (Py.lstrip s) = true.
Proof.
  induction s as [|c t IH]; [done|]. cbn [all_chars Py.lstrip].
  intros [Hc Ht]%andb_true_iff. destruct (Py.is_space c); [by apply IH|].
  cbn [all_chars]. by rewrite Hc, Ht.
Qed.

Lemma all_chars_rstrip P s : all_chars P s = true -> all_chars P (Py.rstrip s) = true.
Proof.
  induction s as [|c t IH]; [done|]. cbn [all_chars Py.rstrip].
  intros [Hc Ht]%andb_true_iff. specialize (IH Ht).
  destruct (Py.rstrip t) as [|c' t'].
  - destruct (Py.is_space c); [done|]. cbn [all_chars]. by rewrite Hc.
  - cbn [all_chars] in *. by rewrite Hc, IH.
Qed.

Lemma all_chars_strip P s : all_chars P s = true -> all_chars P (Py.strip s) = true.
Proof. intros H. unfold Py.strip. by apply all_chars_rstrip, all_chars_lstrip. Qed.

Lemma rstrip_cons c t :
  Py.is_space c = false -> Py.rstrip (String c t) = String c (Py.rstrip t).
Proof. intros Hc. cbn [Py.rstrip]. rewrite Hc. by destruct (Py.rstrip t). Qed.

Lemma rstrip_idem s : Py.rstrip (Py.rstrip s) = Py.rstrip s.
Proof.
  induction s as [|c t IH]; [done|]. cbn [Py.rstrip].
  destruct (Py.rstrip t) as [|c' t'] eqn:E.
  - destruct (Py.is_space c) eqn:Ec; [done|]. cbn [Py.rstrip]. by rewrite Ec.
  - cbn [Py.rstrip] in *. rewrite IH. reflexivity.
Qed.

Lemma lstrip_head s :
  Py.lstrip s = "" \/ exists c t, Py.lstrip s = String c t /\ Py.is_space c = false.
Proof.
  induction s as [|c t IH]; [by left|]. cbn [Py.lstrip].
  destruct (Py.is_space c) eqn:Ec; [exact IH|]. right. by exists c, t.
Qed.

Lemma strip_idem s : Py.strip (Py.strip s) = Py.strip s.
Proof.
  unfold Py.strip. destruct (lstrip_head s) as [->|(c & t & -> & Hc)]; [done|].
  rewrite (rstrip_cons c t Hc). cbn [Py.lstrip]. rewrite Hc.
  rewrite (rstrip_cons c _ Hc). by rewrite rstrip_idem.
Qed.

Lemma split1_second P sep s v :
  all_chars P s = true -> Py.index (Py.split1 sep s) 1 = Ok v -> all_chars P v = true.
Proof.
  induction s as [|c t IH]; cbn [Py.split1 all_chars]; [discriminate|].
  intros [Hc Ht]%andb_true_iff.
  destruct (Ascii.eqb c sep).
  - cbn. by intros [= <-].
  - destruct (Py.split1 sep t) as [|w ws]; [discriminate|].
    intros Hv. apply IH; [exact Ht|exact Hv].
Qed.

Lemma splitlines_from_single s :
  (forall cur, single_line cur -> Forall single_line (Py.splitlines_from cur s)) /\
  Forall single_line (Py.splitlines_skip s).
Proof.
  induction s as [|c t [IHfrom IHskip]].
  - split; [|constructor]. intros cur Hcur. cbn.
    destruct cur; constructor; [exact Hcur|constructor].
  - split; [|apply IHfrom; reflexivity].
    intros cur Hcur. cbn [Py.splitlines_from].
    destruct (Py.is_linebreak c) eqn:Ec.
    + destruct t as [|c' t']; [constructor; [exact Hcur|constructor]|].
      destruct (_ && _); constructor; try exact Hcur; [exact IHskip|].
      apply IHfrom. reflexivity.
    + apply IHfrom. unfold single_line. rewrite all_chars_app, Hcur.
      cbn [all_chars]. unfold not_linebreak. by rewrite Ec.
Qed.

Lemma splitlines_single text : Forall single_line (Py.splitlines text).
Proof. apply splitlines_from_single. reflexivity. Qed.

Lemma tidy_strip v : single_line v -> tidy (Py.strip v).
Proof. intros H. split; [apply strip_idem|by apply all_chars_strip]. Qed.

Lemma tidy_record_insert d k v :
  (forall s, v = VStr s -> tidy s) -> tidy_record d -> tidy_record (<[k := v]> d).
Proof.
  intros Hv Hd k' s. destruct (decide (k = k')) as [->|Hne].
  - rewrite lookup_insert_eq. intros [= ->]. by apply Hv.
  - rewrite lookup_insert_ne by done. apply Hd.
Qed.

Lemma tidy_record_parse_line ln d d' :
  single_line ln -> tidy_record d -> parse_line d ln = Ok d' -> tidy_record d'.
Proof.
  intros Hln. apply (parse_line_invariant tidy_record).
  - intros key v d0 _ Hv Hd0. apply tidy_record_insert; [|exact Hd0].
    intros s [= <-]. apply tidy_strip. by eapply split1_second.
  - intros dd mm yy d0 _ Hd0. by repeat (apply tidy_record_insert; [discriminate|]).
  - intros n d0 _ Hd0. by apply tidy_record_insert.
Qed.

Lemma tidy_record_defaults : tidy_record parse_defaults.
Proof.
  unfold parse_defaults.
  repeat (apply tidy_record_insert; [first [discriminate | by intros s [= <-]]|]).
  intros k s. by rewrite lookup_empty.
Qed.

Lemma tidy_record_parse_text stem text d :
  parse_text stem text = Ok d ->
  forall k s, d !! k = Some (VStr s) -> tidy s \/ (k = "id" /\ s = stem).
Proof.
  unfold parse_text.
  destruct (parse_lines _ _) as [d1|] eqn:E1; cbn [mbind res_bind]; [|discriminate].
  assert (H1 : tidy_record d1).
  { apply (parse_lines_invariant tidy_record (Py.splitlines text)) with (d := parse_defaults);
      [|apply tidy_record_defaults|exact E1].
    intros ln a b Hin. apply tidy_record_parse_line.
    pose proof (splitlines_single text) as Hall.
    rewrite Forall_forall in Hall. by apply Hall. }
  destruct (falsy _); intros [= <-] k s.
  - destruct (decide ("id" = k)) as [<-|Hne].
    + rewrite lookup_insert_eq. intros [= <-]. by right.
    + rewrite lookup_insert_ne by done. intros H. left. by eapply H1.
  - intros H. left. by eapply H1.
Qed.

Lemma tidy_parse_member e d :
  parse_member_from_pdf e = Ok (Some d) ->
  forall k s, d !! k = Some (VStr s) -> tidy s \/ (k = "id" /\ s = stem (e_path e)).
Proof.
  unfold parse_member_from_pdf. destruct (read_text e) as [text|]; [|discriminate].
  destruct (parse_text _ text) as [d1|] eqn:E1; cbn [mbind res_bind]; [|discriminate].
  intros [= <-]. by eapply tidy_record_parse_text.
Qed.

Lemma text_key_not_date ln key k :
  text_key_of ln key -> k ∈ ["day"; "month"; "year"] -> key ≠ k.
Proof.
  intros Hkey Hk ->. unfold text_key_of, standard_fields in Hkey.
  destruct Hkey as [[Hin _]|[[-> _]|[[-> _]|[-> _]]]].
  - repeat (apply elem_of_cons in Hk as [->|Hk];
            [repeat (apply elem_of_cons in Hin as [Hin|Hin]; [discriminate|]); inversion Hin|]).
    inversion Hk.
  - repeat (apply elem_of_cons in Hk as [Hk|Hk]; [discriminate|]). inversion Hk.
  - repeat (apply elem_of_cons in Hk as [Hk|Hk]; [discriminate|]). inversion Hk.
  - repeat (apply elem_of_cons in Hk as [Hk|Hk]; [discriminate|]). inversion Hk.
Qed.

Lemma dated_insert_other d key v :
  (forall k, k ∈ ["day"; "month"; "year"] -> key ≠ k) -> dated d -> dated (<[key := v]> d).
Proof. intros Hne Hd k Hk. rewrite lookup_insert_ne by by apply Hne. by apply Hd. Qed.

Lemma dated_insert_number d key n : dated d -> dated (<[key := VInt n]> d).
Proof.
  intros Hd k Hk. destruct (decide (key = k)) as [->|Hne].
  - rewrite lookup_insert_eq. right. by exists n.
  - rewrite lookup_insert_ne by done. by apply Hd.
Qed.

Lemma dated_parse_member e d : parse_member_from_pdf e = Ok (Some d) -> dated d.
Proof.
  unfold parse_member_from_pdf. destruct (read_text e) as [text|]; [|discriminate].
  unfold parse_text.
  destruct (parse_lines _ _) as [d1|] eqn:E1; cbn [mbind res_bind]; [|discriminate].
  assert (H1 : dated d1).
  { apply (parse_lines_invariant dated (Py.splitlines text)) with (d := parse_defaults);
      [| |exact E1].
    - intros ln a b _. apply (parse_line_invariant dated).
      + intros key v d0 Hkey _ Hd0. apply dated_insert_other; [|exact Hd0].
        intros k Hk. by eapply text_key_not_date.
      + intros dd mm yy d0 _ Hd0. by repeat apply dated_insert_number.
      + intros n d0 _ Hd0. by apply dated_insert_number.
    - intros k Hk. left.
      repeat (apply elem_of_cons in Hk as [->|Hk]; [reflexivity|]). inversion Hk. }
  destruct (falsy _); intros [= <-]; [|exact H1].
  apply dated_insert_other; [|exact H1].
  intros k Hk E. subst k.
  repeat (apply elem_of_cons in Hk as [Hk|Hk]; [discriminate|]). inversion Hk.
Qed.

(** X9.  The texts of a decoded record are tidy: none starts or ends
    with white space and none holds a line break, save an id that was
    taken from the file name. *)
Theorem decoded_texts_tidy (e : entry) (d : gmap string value) :
  parse_member_from_pdf e = Ok (Some d) ->
  forall k s, d !! k = Some (VStr s) -> tidy s \/ (k = "id" /\ s = stem (e_path e)).
Proof. apply tidy_parse_member. Qed.

Lemma decoded_texts_tidy_witness :
  exists d, parse_member_from_pdf
              (mkEntry ["Gym Data"; "M1.pdf"] (File (Pdf ["Name:   Ann Lee  "])) 0) = Ok (Some d) /\
            d !! "name" = Some (VStr "Ann Lee") /\ tidy "Ann Lee".
Proof.
  eexists. split; [reflexivity|]. split; [reflexivity|].
  destruct (decoded_texts_tidy
              (mkEntry ["Gym Data"; "M1.pdf"] (File (Pdf ["Name:   Ann Lee  "])) 0) _
              eq_refl "name" "Ann Lee" eq_refl) as [H|[H _]]; [exact H|discriminate].
Defined.

(** *** Where the id comes from *)

Lemma parse_line_keeps_id ln d d' :
  Py.startswith (Py.lower ln) "id:" = false ->
  parse_line d ln = Ok d' -> d' !! "id" = d !! "id".
Proof.
  intros Hno. revert d'.
  assert (H : forall d', (fun r => r !! "id" = d !! "id") d -> parse_line d ln = Ok d' ->
                         (fun r => r !! "id" = d !! "id") d').
  { intros d'. apply (parse_line_invariant (fun r => r !! "id" = d !! "id")).
    - intros key v d0 Hkey _ Hd0.
      assert (Hne : key ≠ "id").
      { intros ->. destruct Hkey as [[_ Hk]|[[Hk _]|[[Hk _]|[Hk _]]]]; try discriminate.
        change ("id" +:+ ":") with "id:" in Hk. congruence. }
      by rewrite lookup_insert_ne.
    - intros dd mm yy d0 _ Hd0. by rewrite !lookup_insert_ne.
    - intros n d0 _ Hd0. by rewrite lookup_insert_ne. }
  intros d'. by apply H.
Qed.

(** X10.  A document without an id line, in any letter case, is decoded
    with the name it is stored under as its id. *)
Theorem id_taken_from_file_name (stem text : string) :
  Forall (fun ln => Py.startswith (Py.lower ln) "id:" = false) (Py.splitlines text) ->
  exists d, parse_text stem text = Ok d /\ d !! "id" = Some (VStr stem).
Proof.
  intros Hno. unfold parse_text.
  destruct (parse_lines_ok (Py.splitlines text) parse_defaults) as [d1 E1]. rewrite E1.
  cbn [mbind res_bind].
  assert (H1 : d1 !! "id" = Some (VStr "")).
  { apply (parse_lines_invariant (fun r => r !! "id" = Some (VStr "")) (Py.splitlines text))
      with (d := parse_defaults); [|reflexivity|exact E1].
    intros ln a b Hin Ha Hb. rewrite <- Ha. apply (parse_line_keeps_id ln); [|exact Hb].
    rewrite Forall_forall in Hno. by apply Hno. }
  rewrite H1. cbn [falsy]. eexists. split; [reflexivity|]. by rewrite lookup_insert_eq.
Qed.

Lemma id_taken_from_file_name_witness :
  exists d, parse_text "M7" "Name: Ann Lee" = Ok d /\ d !! "id" = Some (VStr "M7").
Proof.
  apply (id_taken_from_file_name "M7" "Name: Ann Lee").
  repeat constructor.
Defined.

(** *** Labels and letter case *)

Lemma lower_char_colon c : Ascii.eqb (Py.lower_char c) ":" = Ascii.eqb c ":".
Proof.
  destruct c as [[] [] [] [] [] [] [] []]; reflexivity.
Qed.

Lemma lower_no_colon s :
  all_chars (not_char ":") (Py.lower s) = all_chars (not_char ":") s.
Proof.
  induction s as [|c t IH]; [done|]. cbn [Py.lower all_chars].
  unfold not_char at 1 3. by rewrite lower_char_colon, IH.
Qed.

Lemma label_no_colon label key :
  Py.lower label = key -> all_chars (not_char ":") key = true ->
  all_chars (not_char ":") label = true.
Proof. intros <-. by rewrite lower_no_colon. Qed.

Lemma eqb_lower_ne (a label : string) :
  Py.lower a ≠ Py.lower label -> String.eqb a label = false.
Proof.
  intros Hne. destruct (String.eqb_spec a label) as [->|]; [by destruct Hne|done].
Qed.

Lemma res_bind_ext {A B : Type} (c c' : res A) (f g : A -> res B) :
  c = c' -> (forall a, f a = g a) -> (c ≫= f) = (c' ≫= g).
Proof. intros -> H. destruct c'; cbn [mbind res_bind]; [apply H|reflexivity]. Qed.

Lemma startswith_labelled K label v :
  all_chars (not_char ":") K = true -> all_chars (not_char ":") label = true ->
  Py.startswith (labelled label v) (K +:+ ":") = String.eqb K label.
Proof. intros HK Hl. unfold Py.startswith, labelled. by apply prefix_label. Qed.

Lemma startswith_lower_labelled k label v :
  all_chars (not_char ":") k = true -> all_chars (not_char ":") label = true ->
  Py.startswith (Py.lower (labelled label v)) (k +:+ ":") = String.eqb k (Py.lower label).
Proof.
  intros Hk Hl. unfold Py.startswith. rewrite lower_labelled.
  apply prefix_label; [exact Hk|by rewrite lower_no_colon].
Qed.

(** The line [label: v] for a label without a colon, read by
    [parse_line]: each test compares the label. *)
Lemma parse_line_labelled d label v :
  all_chars (not_char ":") label = true ->
  parse_line d (labelled label v)
  = (d ← foldl (fun acc key =>
                  d ← acc;
                  if String.eqb key (Py.lower label)
                  then Ok (<[key := VStr (Py.strip v)]> d) else Ok d)
               (Ok d) standard_fields;
     d ← (if String.eqb "Package" label
          then Ok (<["package" := VStr (Py.strip v)]> d) else Ok d);
     d ← (if String.eqb "Join Date" label
          then catch is_Index_or_ValueError (parse_join_date (labelled label v) d) (Ok d)
          else Ok d);
     d ← (if String.eqb "Membership" label
          then catch is_Index_or_ValueError (parse_membership (labelled label v) d) (Ok d)
          else Ok d);
     d ← (if String.eqb "End Date" label
          then Ok (<["end_date" := VStr (Py.strip v)]> d) else Ok d);
     if String.eqb "Status" label
     then Ok (<["status" := VStr (Py.strip v)]> d) else Ok d).
Proof.
  intros Hl.
  assert (Hset : forall key d0,
             catch is_IndexError (set_str key (labelled label v) d0) (Ok d0)
             = Ok (<[key := VStr (Py.strip v)]> d0)).
  { intros key d0. unfold labelled. by rewrite set_str_labelled. }
  unfold parse_line, parse_standard, standard_fields.
  change "Package:" with ("Package" +:+ ":").
  change "Join Date:" with ("Join Date" +:+ ":").
  change "Membership:" with ("Membership" +:+ ":").
  change "End Date:" with ("End Date" +:+ ":").
  change "Status:" with ("Status" +:+ ":").
  rewrite !startswith_labelled by first [exact Hl | reflexivity].
  cbn [foldl].
  rewrite !startswith_lower_labelled by first [exact Hl | reflexivity].
  repeat first
    [ reflexivity
    | apply res_bind_ext; [|intros ?]
    | match goal with |- (if ?b then _ else _) = _ => destruct b end;
      rewrite ?Hset; reflexivity ].
Qed.

(** X11.  Which labels count.  The six standard fields are recognised by
    their label in any letter case; package, join date, membership, end
    date and status only when the label is written as the card writes it:
    in another letter case the line changes nothing. *)
Theorem labels_and_letter_case (d : gmap string value) (label v : string) :
  (forall key, key ∈ standard_fields -> Py.lower label = key ->
     parse_line d (labelled label v) = Ok (<[key := VStr (Py.strip v)]> d)) /\
  (Py.lower label ∈ ["package"; "join date"; "membership"; "end date"; "status"] ->
   label ∉ ["Package"; "Join Date"; "Membership"; "End Date"; "Status"] ->
   parse_line d (labelled label v) = Ok d).
Proof.
  split.
  - intros key Hkey Hlow.
    assert (Hl : all_chars (not_char ":") label = true).
    { apply (label_no_colon label key Hlow).
      unfold standard_fields in Hkey.
      repeat (apply elem_of_cons in Hkey as [->|Hkey]; [reflexivity|]). inversion Hkey. }
    rewrite (parse_line_labelled d label v Hl).
    rewrite !(eqb_lower_ne _ label)
      by (rewrite Hlow; unfold standard_fields in Hkey;
          repeat (apply elem_of_cons in Hkey as [->|Hkey]; [discriminate|]); inversion Hkey).
    rewrite Hlow. unfold standard_fields in *.
    repeat (apply elem_of_cons in Hkey as [->|Hkey]; [reflexivity|]). inversion Hkey.
  - intros Hlow Hnot.
    assert (Hl : all_chars (not_char ":") label = true).
    { repeat (apply elem_of_cons in Hlow as [Hlow|Hlow];
              [apply (label_no_colon label _ Hlow); reflexivity|]). inversion Hlow. }
    assert (Hne : forall K, K ∈ ["Package"; "Join Date"; "Membership"; "End Date"; "Status"] ->
                            String.eqb K label = false).
    { intros K HK. destruct (String.eqb_spec K label) as [->|]; [contradiction|reflexivity]. }
    rewrite (parse_line_labelled d label v Hl).
    rewrite !Hne by (repeat first [apply list_elem_of_here | apply list_elem_of_further]).
    unfold standard_fields.
    repeat (apply elem_of_cons in Hlow as [->|Hlow]; [reflexivity|]). inversion Hlow.
Qed.

Lemma labels_and_letter_case_witness :
  parse_line parse_defaults "NAME: Ann Lee" = Ok (<["name" := VStr "Ann Lee"]> parse_defaults) /\
  parse_line parse_defaults "status: Active" = Ok parse_defaults.
Proof.
  destruct (labels_and_letter_case parse_defaults "NAME" "Ann Lee") as [H1 _].
  destruct (labels_and_letter_case parse_defaults "status" "Active") as [_ H2].
  split.
  - apply (H1 "name"); [|reflexivity].
    unfold standard_fields. repeat first [apply list_elem_of_here | apply list_elem_of_further].
  - apply H2.
    + repeat first [apply list_elem_of_here | apply list_elem_of_further].
    + intros Hin. repeat (apply elem_of_cons in Hin as [Hin|Hin]; [discriminate|]). inversion Hin.
Defined.
